(** * Budget planning agents: a shallow embedding and its properties

    The development follows the Python sources under [backend/app]:
    - [models.py]                     -> [Module Models]
    - [agents/compliance_agent.py]    -> [Module ComplianceAgent]
    - [agents/optimization_agent.py]  -> [Module OptimizationAgent]
    - [agents/conflict_agent.py]      -> [Module ConflictAgent]
      (with [difflib.SequenceMatcher] in [Module Difflib])
    - [agents/forecaster_agent.py]    -> [Module ForecasterAgent]

    Modelling conventions.
    - A nullable column is an [option]; Python truthiness ([x or d],
      [if x:], [not x]) is written out by the helpers of [Module Py].
    - [Float] columns and float arithmetic are idealised as exact rationals
      ([Q]); equalities between amounts are stated up to [Qeq].
    - Text is a [string] of UTF-8 bytes.  Case mapping, the classes of the
      regular expressions, [strip], slices and the sequence matcher work on
      the code points, as they do on a [str]; a substring test on the bytes
      is one on the code points.
    - The database session is a record of tables, each a list of rows in
      row order; a query filters that list, [.first()] takes its head.
    - Formatted messages are kept as constructors that carry the values the
      f-string interpolates. *)

From Stdlib Require Import ZArith QArith Qabs Qround Ascii String List Lia Lqa Permutation.
From stdpp Require Import base option list gmap strings pretty.

Local Open Scope Z_scope.

(** ** Python built-ins used by the agents *)
Module Py.

(** Exceptions the agents can raise instead of returning. *)
Inductive exn := AttributeError | TypeError.

(** [x or d] on a nullable string: [None] and [''] both give [d]. *)
Definition str_or (x : option string) (d : string) : string :=
  match x with
  | Some s => if String.eqb s "" then d else s
  | None => d
  end.

(** [x or 0] on a nullable float. *)
Definition num_or0 (x : option Q) : Q :=
  match x with Some q => q | None => 0%Q end.

(** Truthiness of a nullable string, integer and boolean. *)
Definition truthy_str (x : option string) : bool :=
  match x with
  | Some s => negb (String.eqb s "")
  | None => false
  end.

Definition truthy_int (x : option Z) : bool :=
  match x with Some z => negb (z =? 0) | None => false end.

Definition truthy_bool (x : option bool) : bool :=
  match x with Some b => b | None => false end.

(** Comparisons on rationals as booleans. *)
Definition Qltb (x y : Q) : bool := negb (Qle_bool y x).
Definition Qgtb (x y : Q) : bool := Qltb y x.
Definition Qgeb (x y : Q) : bool := Qle_bool y x.
Definition Qeqb (x y : Q) : bool := Qeq_bool x y.

(** [max(x, y)]: the first argument unless the second is greater. *)
Definition Qmax (x y : Q) : Q := if Qltb x y then y else x.

(** *** Text

    A [str] is kept as the [string] of its UTF-8 bytes.  The operations that
    look at characters ([lower], the classes of [re], [strip], slices, the
    sequence matcher) work on its code points, with the tables of the
    Unicode database 14.0.0 that CPython 3.11 carries. *)

(** A continuation byte, and the six bits it carries. *)
Definition continuation (c : ascii) : bool :=
  let b := N_of_ascii c in ((128 <=? b) && (b <? 192))%N.

Definition low6 (c : ascii) : N := (N_of_ascii c - 128)%N.

(** The code points of a text.  A byte that starts no sequence of UTF-8
    stands for itself; the text of a [str] holds none. *)
Fixpoint code_points (s : string) : list N :=
  match s with
  | EmptyString => []
  | String c0 r0 =>
      let b0 := N_of_ascii c0 in
      if (b0 <? 192)%N then b0 :: code_points r0
      else if (b0 <? 224)%N then
        match r0 with
        | String c1 r1 =>
            if continuation c1
            then ((b0 - 192) * 64 + low6 c1)%N :: code_points r1
            else b0 :: code_points r0
        | _ => b0 :: code_points r0
        end
      else if (b0 <? 240)%N then
        match r0 with
        | String c1 (String c2 r2) =>
            if continuation c1 && continuation c2
            then ((b0 - 224) * 4096 + low6 c1 * 64 + low6 c2)%N
                 :: code_points r2
            else b0 :: code_points r0
        | _ => b0 :: code_points r0
        end
      else if (b0 <? 248)%N then
        match r0 with
        | String c1 (String c2 (String c3 r3)) =>
            if continuation c1 && continuation c2 && continuation c3
            then ((b0 - 240) * 262144 + low6 c1 * 4096 + low6 c2 * 64
                  + low6 c3)%N :: code_points r3
            else b0 :: code_points r0
        | _ => b0 :: code_points r0
        end
      else b0 :: code_points r0
  end.

(** The UTF-8 bytes of a code point, and of a list of them. *)
Definition encode_point (c : N) : string :=
  if (c <? 128)%N then String (ascii_of_N c) ""
  else if (c <? 2048)%N then
    String (ascii_of_N (192 + c / 64))
      (String (ascii_of_N (128 + c mod 64)) "")
  else if (c <? 65536)%N then
    String (ascii_of_N (224 + c / 4096))
      (String (ascii_of_N (128 + (c / 64) mod 64))
         (String (ascii_of_N (128 + c mod 64)) ""))
  else
    String (ascii_of_N (240 + c / 262144))
      (String (ascii_of_N (128 + (c / 4096) mod 64))
         (String (ascii_of_N (128 + (c / 64) mod 64))
            (String (ascii_of_N (128 + c mod 64)) ""))).

Definition of_code_points (l : list N) : string :=
  fold_right (fun c s => String.append (encode_point c) s) "" l.

(** Membership in a table of inclusive ranges. *)
Definition in_ranges (rs : list (N * N)) (c : N) : bool :=
  existsb (fun r => ((fst r <=? c) && (c <=? snd r))%N) rs.

(** The code points with a lower-case form of one code point: [(lo, hi, step,
    to)] sends [lo], [lo + step], ..., [hi] to [to], [to + step], ... *)
Definition lower_runs : list (N * N * N * N) :=
  [(65, 90, 1, 97); (192, 214, 1, 224); (216, 222, 1, 248);
   (256, 302, 2, 257); (306, 310, 2, 307); (313, 327, 2, 314);
   (330, 374, 2, 331); (376, 376, 1, 255); (377, 381, 2, 378);
   (385, 385, 1, 595); (386, 388, 2, 387); (390, 390, 1, 596);
   (391, 391, 1, 392); (393, 394, 1, 598); (395, 395, 1, 396);
   (398, 398, 1, 477); (399, 399, 1, 601); (400, 400, 1, 603);
   (401, 401, 1, 402); (403, 403, 1, 608); (404, 404, 1, 611);
   (406, 406, 1, 617); (407, 407, 1, 616); (408, 408, 1, 409);
   (412, 412, 1, 623); (413, 413, 1, 626); (415, 415, 1, 629);
   (416, 420, 2, 417); (422, 422, 1, 640); (423, 423, 1, 424);
   (425, 425, 1, 643); (428, 428, 1, 429); (430, 430, 1, 648);
   (431, 431, 1, 432); (433, 434, 1, 650); (435, 437, 2, 436);
   (439, 439, 1, 658); (440, 440, 1, 441); (444, 444, 1, 445);
   (452, 452, 1, 454); (453, 453, 1, 454); (455, 455, 1, 457);
   (456, 456, 1, 457); (458, 458, 1, 460); (459, 475, 2, 460);
   (478, 494, 2, 479); (497, 497, 1, 499); (498, 500, 2, 499);
   (502, 502, 1, 405); (503, 503, 1, 447); (504, 542, 2, 505);
   (544, 544, 1, 414); (546, 562, 2, 547); (570, 570, 1, 11365);
   (571, 571, 1, 572); (573, 573, 1, 410); (574, 574, 1, 11366);
   (577, 577, 1, 578); (579, 579, 1, 384); (580, 580, 1, 649);
   (581, 581, 1, 652); (582, 590, 2, 583); (880, 882, 2, 881);
   (886, 886, 1, 887); (895, 895, 1, 1011); (902, 902, 1, 940);
   (904, 906, 1, 941); (908, 908, 1, 972); (910, 911, 1, 973);
   (913, 929, 1, 945); (931, 939, 1, 963); (975, 975, 1, 983);
   (984, 1006, 2, 985); (1012, 1012, 1, 952); (1015, 1015, 1, 1016);
   (1017, 1017, 1, 1010); (1018, 1018, 1, 1019); (1021, 1023, 1, 891);
   (1024, 1039, 1, 1104); (1040, 1071, 1, 1072); (1120, 1152, 2, 1121);
   (1162, 1214, 2, 1163); (1216, 1216, 1, 1231); (1217, 1229, 2, 1218);
   (1232, 1326, 2, 1233); (1329, 1366, 1, 1377); (4256, 4293, 1, 11520);
   (4295, 4295, 1, 11559); (4301, 4301, 1, 11565); (5024, 5103, 1, 43888);
   (5104, 5109, 1, 5112); (7312, 7354, 1, 4304); (7357, 7359, 1, 4349);
   (7680, 7828, 2, 7681); (7838, 7838, 1, 223); (7840, 7934, 2, 7841);
   (7944, 7951, 1, 7936); (7960, 7965, 1, 7952); (7976, 7983, 1, 7968);
   (7992, 7999, 1, 7984); (8008, 8013, 1, 8000); (8025, 8031, 2, 8017);
   (8040, 8047, 1, 8032); (8072, 8079, 1, 8064); (8088, 8095, 1, 8080);
   (8104, 8111, 1, 8096); (8120, 8121, 1, 8112); (8122, 8123, 1, 8048);
   (8124, 8124, 1, 8115); (8136, 8139, 1, 8050); (8140, 8140, 1, 8131);
   (8152, 8153, 1, 8144); (8154, 8155, 1, 8054); (8168, 8169, 1, 8160);
   (8170, 8171, 1, 8058); (8172, 8172, 1, 8165); (8184, 8185, 1, 8056);
   (8186, 8187, 1, 8060); (8188, 8188, 1, 8179); (8486, 8486, 1, 969);
   (8490, 8490, 1, 107); (8491, 8491, 1, 229); (8498, 8498, 1, 8526);
   (8544, 8559, 1, 8560); (8579, 8579, 1, 8580); (9398, 9423, 1, 9424);
   (11264, 11311, 1, 11312); (11360, 11360, 1, 11361); (11362, 11362, 1, 619);
   (11363, 11363, 1, 7549); (11364, 11364, 1, 637); (11367, 11371, 2, 11368);
   (11373, 11373, 1, 593); (11374, 11374, 1, 625); (11375, 11375, 1, 592);
   (11376, 11376, 1, 594); (11378, 11378, 1, 11379); (11381, 11381, 1, 11382);
   (11390, 11391, 1, 575); (11392, 11490, 2, 11393); (11499, 11501, 2, 11500);
   (11506, 11506, 1, 11507); (42560, 42604, 2, 42561);
   (42624, 42650, 2, 42625); (42786, 42798, 2, 42787);
   (42802, 42862, 2, 42803); (42873, 42875, 2, 42874);
   (42877, 42877, 1, 7545); (42878, 42886, 2, 42879);
   (42891, 42891, 1, 42892); (42893, 42893, 1, 613); (42896, 42898, 2, 42897);
   (42902, 42920, 2, 42903); (42922, 42922, 1, 614); (42923, 42923, 1, 604);
   (42924, 42924, 1, 609); (42925, 42925, 1, 620); (42926, 42926, 1, 618);
   (42928, 42928, 1, 670); (42929, 42929, 1, 647); (42930, 42930, 1, 669);
   (42931, 42931, 1, 43859); (42932, 42946, 2, 42933);
   (42948, 42948, 1, 42900); (42949, 42949, 1, 642); (42950, 42950, 1, 7566);
   (42951, 42953, 2, 42952); (42960, 42960, 1, 42961);
   (42966, 42968, 2, 42967); (42997, 42997, 1, 42998);
   (65313, 65338, 1, 65345); (66560, 66599, 1, 66600);
   (66736, 66771, 1, 66776); (66928, 66938, 1, 66967);
   (66940, 66954, 1, 66979); (66956, 66962, 1, 66995);
   (66964, 66965, 1, 67003); (68736, 68786, 1, 68800);
   (71840, 71871, 1, 71872); (93760, 93791, 1, 93792);
   (125184, 125217, 1, 125218)]%N.

(** The case-ignorable code points. *)
Definition case_ignorable_ranges : list (N * N) :=
  [(39, 39); (46, 46); (58, 58); (94, 94); (96, 96); (168, 168); (173, 173);
   (175, 175); (180, 180); (183, 184); (688, 879); (884, 885); (890, 890);
   (900, 901); (903, 903); (1155, 1161); (1369, 1369); (1375, 1375);
   (1425, 1469); (1471, 1471); (1473, 1474); (1476, 1477); (1479, 1479);
   (1524, 1524); (1536, 1541); (1552, 1562); (1564, 1564); (1600, 1600);
   (1611, 1631); (1648, 1648); (1750, 1757); (1759, 1768); (1770, 1773);
   (1807, 1807); (1809, 1809); (1840, 1866); (1958, 1968); (2027, 2037);
   (2042, 2042); (2045, 2045); (2070, 2093); (2137, 2139); (2184, 2184);
   (2192, 2193); (2200, 2207); (2249, 2306); (2362, 2362); (2364, 2364);
   (2369, 2376); (2381, 2381); (2385, 2391); (2402, 2403); (2417, 2417);
   (2433, 2433); (2492, 2492); (2497, 2500); (2509, 2509); (2530, 2531);
   (2558, 2558); (2561, 2562); (2620, 2620); (2625, 2626); (2631, 2632);
   (2635, 2637); (2641, 2641); (2672, 2673); (2677, 2677); (2689, 2690);
   (2748, 2748); (2753, 2757); (2759, 2760); (2765, 2765); (2786, 2787);
   (2810, 2815); (2817, 2817); (2876, 2876); (2879, 2879); (2881, 2884);
   (2893, 2893); (2901, 2902); (2914, 2915); (2946, 2946); (3008, 3008);
   (3021, 3021); (3072, 3072); (3076, 3076); (3132, 3132); (3134, 3136);
   (3142, 3144); (3146, 3149); (3157, 3158); (3170, 3171); (3201, 3201);
   (3260, 3260); (3263, 3263); (3270, 3270); (3276, 3277); (3298, 3299);
   (3328, 3329); (3387, 3388); (3393, 3396); (3405, 3405); (3426, 3427);
   (3457, 3457); (3530, 3530); (3538, 3540); (3542, 3542); (3633, 3633);
   (3636, 3642); (3654, 3662); (3761, 3761); (3764, 3772); (3782, 3782);
   (3784, 3789); (3864, 3865); (3893, 3893); (3895, 3895); (3897, 3897);
   (3953, 3966); (3968, 3972); (3974, 3975); (3981, 3991); (3993, 4028);
   (4038, 4038); (4141, 4144); (4146, 4151); (4153, 4154); (4157, 4158);
   (4184, 4185); (4190, 4192); (4209, 4212); (4226, 4226); (4229, 4230);
   (4237, 4237); (4253, 4253); (4348, 4348); (4957, 4959); (5906, 5908);
   (5938, 5939); (5970, 5971); (6002, 6003); (6068, 6069); (6071, 6077);
   (6086, 6086); (6089, 6099); (6103, 6103); (6109, 6109); (6155, 6159);
   (6211, 6211); (6277, 6278); (6313, 6313); (6432, 6434); (6439, 6440);
   (6450, 6450); (6457, 6459); (6679, 6680); (6683, 6683); (6742, 6742);
   (6744, 6750); (6752, 6752); (6754, 6754); (6757, 6764); (6771, 6780);
   (6783, 6783); (6823, 6823); (6832, 6862); (6912, 6915); (6964, 6964);
   (6966, 6970); (6972, 6972); (6978, 6978); (7019, 7027); (7040, 7041);
   (7074, 7077); (7080, 7081); (7083, 7085); (7142, 7142); (7144, 7145);
   (7149, 7149); (7151, 7153); (7212, 7219); (7222, 7223); (7288, 7293);
   (7376, 7378); (7380, 7392); (7394, 7400); (7405, 7405); (7412, 7412);
   (7416, 7417); (7468, 7530); (7544, 7544); (7579, 7679); (8125, 8125);
   (8127, 8129); (8141, 8143); (8157, 8159); (8173, 8175); (8189, 8190);
   (8203, 8207); (8216, 8217); (8228, 8228); (8231, 8231); (8234, 8238);
   (8288, 8292); (8294, 8303); (8305, 8305); (8319, 8319); (8336, 8348);
   (8400, 8432); (11388, 11389); (11503, 11505); (11631, 11631);
   (11647, 11647); (11744, 11775); (11823, 11823); (12293, 12293);
   (12330, 12333); (12337, 12341); (12347, 12347); (12441, 12446);
   (12540, 12542); (40981, 40981); (42232, 42237); (42508, 42508);
   (42607, 42610); (42612, 42621); (42623, 42623); (42652, 42655);
   (42736, 42737); (42752, 42785); (42864, 42864); (42888, 42890);
   (42994, 42996); (43000, 43001); (43010, 43010); (43014, 43014);
   (43019, 43019); (43045, 43046); (43052, 43052); (43204, 43205);
   (43232, 43249); (43263, 43263); (43302, 43309); (43335, 43345);
   (43392, 43394); (43443, 43443); (43446, 43449); (43452, 43453);
   (43471, 43471); (43493, 43494); (43561, 43566); (43569, 43570);
   (43573, 43574); (43587, 43587); (43596, 43596); (43632, 43632);
   (43644, 43644); (43696, 43696); (43698, 43700); (43703, 43704);
   (43710, 43711); (43713, 43713); (43741, 43741); (43756, 43757);
   (43763, 43764); (43766, 43766); (43867, 43871); (43881, 43883);
   (44005, 44005); (44008, 44008); (44013, 44013); (64286, 64286);
   (64434, 64450); (65024, 65039); (65043, 65043); (65056, 65071);
   (65106, 65106); (65109, 65109); (65279, 65279); (65287, 65287);
   (65294, 65294); (65306, 65306); (65342, 65342); (65344, 65344);
   (65392, 65392); (65438, 65439); (65507, 65507); (65529, 65531);
   (66045, 66045); (66272, 66272); (66422, 66426); (67456, 67461);
   (67463, 67504); (67506, 67514); (68097, 68099); (68101, 68102);
   (68108, 68111); (68152, 68154); (68159, 68159); (68325, 68326);
   (68900, 68903); (69291, 69292); (69446, 69456); (69506, 69509);
   (69633, 69633); (69688, 69702); (69744, 69744); (69747, 69748);
   (69759, 69761); (69811, 69814); (69817, 69818); (69821, 69821);
   (69826, 69826); (69837, 69837); (69888, 69890); (69927, 69931);
   (69933, 69940); (70003, 70003); (70016, 70017); (70070, 70078);
   (70089, 70092); (70095, 70095); (70191, 70193); (70196, 70196);
   (70198, 70199); (70206, 70206); (70367, 70367); (70371, 70378);
   (70400, 70401); (70459, 70460); (70464, 70464); (70502, 70508);
   (70512, 70516); (70712, 70719); (70722, 70724); (70726, 70726);
   (70750, 70750); (70835, 70840); (70842, 70842); (70847, 70848);
   (70850, 70851); (71090, 71093); (71100, 71101); (71103, 71104);
   (71132, 71133); (71219, 71226); (71229, 71229); (71231, 71232);
   (71339, 71339); (71341, 71341); (71344, 71349); (71351, 71351);
   (71453, 71455); (71458, 71461); (71463, 71467); (71727, 71735);
   (71737, 71738); (71995, 71996); (71998, 71998); (72003, 72003);
   (72148, 72151); (72154, 72155); (72160, 72160); (72193, 72202);
   (72243, 72248); (72251, 72254); (72263, 72263); (72273, 72278);
   (72281, 72283); (72330, 72342); (72344, 72345); (72752, 72758);
   (72760, 72765); (72767, 72767); (72850, 72871); (72874, 72880);
   (72882, 72883); (72885, 72886); (73009, 73014); (73018, 73018);
   (73020, 73021); (73023, 73029); (73031, 73031); (73104, 73105);
   (73109, 73109); (73111, 73111); (73459, 73460); (78896, 78904);
   (92912, 92916); (92976, 92982); (92992, 92995); (94031, 94031);
   (94095, 94111); (94176, 94177); (94179, 94180); (110576, 110579);
   (110581, 110587); (110589, 110590); (113821, 113822); (113824, 113827);
   (118528, 118573); (118576, 118598); (119143, 119145); (119155, 119170);
   (119173, 119179); (119210, 119213); (119362, 119364); (121344, 121398);
   (121403, 121452); (121461, 121461); (121476, 121476); (121499, 121503);
   (121505, 121519); (122880, 122886); (122888, 122904); (122907, 122913);
   (122915, 122916); (122918, 122922); (123184, 123197); (123566, 123566);
   (123628, 123631); (125136, 125142); (125252, 125259); (127995, 127999);
   (917505, 917505); (917536, 917631); (917760, 917999)]%N.

(** The cased code points that are not case-ignorable. *)
Definition cased_ranges : list (N * N) :=
  [(65, 90); (97, 122); (170, 170); (181, 181); (186, 186); (192, 214);
   (216, 246); (248, 442); (444, 447); (452, 659); (661, 687); (880, 883);
   (886, 887); (891, 893); (895, 895); (902, 902); (904, 906); (908, 908);
   (910, 929); (931, 1013); (1015, 1153); (1162, 1327); (1329, 1366);
   (1376, 1416); (4256, 4293); (4295, 4295); (4301, 4301); (4304, 4346);
   (4349, 4351); (5024, 5109); (5112, 5117); (7296, 7304); (7312, 7354);
   (7357, 7359); (7424, 7467); (7531, 7543); (7545, 7578); (7680, 7957);
   (7960, 7965); (7968, 8005); (8008, 8013); (8016, 8023); (8025, 8025);
   (8027, 8027); (8029, 8029); (8031, 8061); (8064, 8116); (8118, 8124);
   (8126, 8126); (8130, 8132); (8134, 8140); (8144, 8147); (8150, 8155);
   (8160, 8172); (8178, 8180); (8182, 8188); (8450, 8450); (8455, 8455);
   (8458, 8467); (8469, 8469); (8473, 8477); (8484, 8484); (8486, 8486);
   (8488, 8488); (8490, 8493); (8495, 8500); (8505, 8505); (8508, 8511);
   (8517, 8521); (8526, 8526); (8544, 8575); (8579, 8580); (9398, 9449);
   (11264, 11387); (11390, 11492); (11499, 11502); (11506, 11507);
   (11520, 11557); (11559, 11559); (11565, 11565); (42560, 42605);
   (42624, 42651); (42786, 42863); (42865, 42887); (42891, 42894);
   (42896, 42954); (42960, 42961); (42963, 42963); (42965, 42969);
   (42997, 42998); (43002, 43002); (43824, 43866); (43872, 43880);
   (43888, 43967); (64256, 64262); (64275, 64279); (65313, 65338);
   (65345, 65370); (66560, 66639); (66736, 66771); (66776, 66811);
   (66928, 66938); (66940, 66954); (66956, 66962); (66964, 66965);
   (66967, 66977); (66979, 66993); (66995, 67001); (67003, 67004);
   (68736, 68786); (68800, 68850); (71840, 71903); (93760, 93823);
   (119808, 119892); (119894, 119964); (119966, 119967); (119970, 119970);
   (119973, 119974); (119977, 119980); (119982, 119993); (119995, 119995);
   (119997, 120003); (120005, 120069); (120071, 120074); (120077, 120084);
   (120086, 120092); (120094, 120121); (120123, 120126); (120128, 120132);
   (120134, 120134); (120138, 120144); (120146, 120485); (120488, 120512);
   (120514, 120538); (120540, 120570); (120572, 120596); (120598, 120628);
   (120630, 120654); (120656, 120686); (120688, 120712); (120714, 120744);
   (120746, 120770); (120772, 120779); (122624, 122633); (122635, 122654);
   (125184, 125251); (127280, 127305); (127312, 127337); (127344, 127369)]%N.

(** The lower-case form of one code point, Greek capital sigma apart:
    U+0130 is the only one that becomes two. *)
Definition lower_point (c : N) : list N :=
  if (c =? 304)%N then [105; 775]%N
  else
    match List.find (fun r : N * N * N * N =>
                       let '(lo, hi, step, _) := r in
                       ((lo <=? c) && (c <=? hi)
                        && ((c - lo) mod step =? 0))%N) lower_runs with
    | Some (lo, _, _, to) => [(to + (c - lo))%N]
    | None => [c]
    end.

Definition case_ignorable (c : N) : bool := in_ranges case_ignorable_ranges c.

Definition cased (c : N) : bool := in_ranges cased_ranges c.

(** The first code point that is not case-ignorable exists and is cased. *)
Fixpoint followed_by_cased (l : list N) : bool :=
  match l with
  | [] => false
  | c :: r => if case_ignorable c then followed_by_cased r else cased c
  end.

(** [str.lower()] on code points.  [after_cased] tells that the closest
    code point before, the case-ignorable ones skipped, exists and is cased:
    a capital sigma (U+03A3) after such a one and not followed by one
    becomes the final sigma (U+03C2), any other the small sigma (U+03C3). *)
Fixpoint lower_points (after_cased : bool) (l : list N) : list N :=
  match l with
  | [] => []
  | c :: r =>
      (if (c =? 931)%N
       then (if after_cased && negb (followed_by_cased r)
             then [962%N] else [963%N])
       else lower_point c)
      ++ lower_points (if case_ignorable c then after_cased else cased c) r
  end.

(** [str.lower()]. *)
Definition lower (s : string) : string :=
  of_code_points (lower_points false (code_points s)).

(** [kw in s]: [kw] occurs in [s] as a contiguous substring. *)
Fixpoint contains (kw s : string) : bool :=
  String.prefix kw s ||
  match s with
  | EmptyString => false
  | String _ r => contains kw r
  end.

(** [' '.join(fields)]. *)
Definition join_space (fields : list string) : string :=
  String.concat " " fields.

(** [any(kw in s for kw in kws)]. *)
Definition any_in (kws : list string) (s : string) : bool :=
  existsb (fun kw => contains kw s) kws.

(** The first keyword of the list that occurs in [s]: the keyword at which
    a [for kw in kws: if kw in s: ...; break] loop stops. *)
Definition first_in (kws : list string) (s : string) : option string :=
  List.find (fun kw => contains kw s) kws.

(** The code points [\w] matches in a [str] pattern. *)
Definition word_ranges : list (N * N) :=
  [(48, 57); (65, 90); (95, 95); (97, 122); (170, 170); (178, 179);
   (181, 181); (185, 186); (188, 190); (192, 214); (216, 246); (248, 705);
   (710, 721); (736, 740); (748, 748); (750, 750); (880, 884); (886, 887);
   (890, 893); (895, 895); (902, 902); (904, 906); (908, 908); (910, 929);
   (931, 1013); (1015, 1153); (1162, 1327); (1329, 1366); (1369, 1369);
   (1376, 1416); (1488, 1514); (1519, 1522); (1568, 1610); (1632, 1641);
   (1646, 1647); (1649, 1747); (1749, 1749); (1765, 1766); (1774, 1788);
   (1791, 1791); (1808, 1808); (1810, 1839); (1869, 1957); (1969, 1969);
   (1984, 2026); (2036, 2037); (2042, 2042); (2048, 2069); (2074, 2074);
   (2084, 2084); (2088, 2088); (2112, 2136); (2144, 2154); (2160, 2183);
   (2185, 2190); (2208, 2249); (2308, 2361); (2365, 2365); (2384, 2384);
   (2392, 2401); (2406, 2415); (2417, 2432); (2437, 2444); (2447, 2448);
   (2451, 2472); (2474, 2480); (2482, 2482); (2486, 2489); (2493, 2493);
   (2510, 2510); (2524, 2525); (2527, 2529); (2534, 2545); (2548, 2553);
   (2556, 2556); (2565, 2570); (2575, 2576); (2579, 2600); (2602, 2608);
   (2610, 2611); (2613, 2614); (2616, 2617); (2649, 2652); (2654, 2654);
   (2662, 2671); (2674, 2676); (2693, 2701); (2703, 2705); (2707, 2728);
   (2730, 2736); (2738, 2739); (2741, 2745); (2749, 2749); (2768, 2768);
   (2784, 2785); (2790, 2799); (2809, 2809); (2821, 2828); (2831, 2832);
   (2835, 2856); (2858, 2864); (2866, 2867); (2869, 2873); (2877, 2877);
   (2908, 2909); (2911, 2913); (2918, 2927); (2929, 2935); (2947, 2947);
   (2949, 2954); (2958, 2960); (2962, 2965); (2969, 2970); (2972, 2972);
   (2974, 2975); (2979, 2980); (2984, 2986); (2990, 3001); (3024, 3024);
   (3046, 3058); (3077, 3084); (3086, 3088); (3090, 3112); (3114, 3129);
   (3133, 3133); (3160, 3162); (3165, 3165); (3168, 3169); (3174, 3183);
   (3192, 3198); (3200, 3200); (3205, 3212); (3214, 3216); (3218, 3240);
   (3242, 3251); (3253, 3257); (3261, 3261); (3293, 3294); (3296, 3297);
   (3302, 3311); (3313, 3314); (3332, 3340); (3342, 3344); (3346, 3386);
   (3389, 3389); (3406, 3406); (3412, 3414); (3416, 3425); (3430, 3448);
   (3450, 3455); (3461, 3478); (3482, 3505); (3507, 3515); (3517, 3517);
   (3520, 3526); (3558, 3567); (3585, 3632); (3634, 3635); (3648, 3654);
   (3664, 3673); (3713, 3714); (3716, 3716); (3718, 3722); (3724, 3747);
   (3749, 3749); (3751, 3760); (3762, 3763); (3773, 3773); (3776, 3780);
   (3782, 3782); (3792, 3801); (3804, 3807); (3840, 3840); (3872, 3891);
   (3904, 3911); (3913, 3948); (3976, 3980); (4096, 4138); (4159, 4169);
   (4176, 4181); (4186, 4189); (4193, 4193); (4197, 4198); (4206, 4208);
   (4213, 4225); (4238, 4238); (4240, 4249); (4256, 4293); (4295, 4295);
   (4301, 4301); (4304, 4346); (4348, 4680); (4682, 4685); (4688, 4694);
   (4696, 4696); (4698, 4701); (4704, 4744); (4746, 4749); (4752, 4784);
   (4786, 4789); (4792, 4798); (4800, 4800); (4802, 4805); (4808, 4822);
   (4824, 4880); (4882, 4885); (4888, 4954); (4969, 4988); (4992, 5007);
   (5024, 5109); (5112, 5117); (5121, 5740); (5743, 5759); (5761, 5786);
   (5792, 5866); (5870, 5880); (5888, 5905); (5919, 5937); (5952, 5969);
   (5984, 5996); (5998, 6000); (6016, 6067); (6103, 6103); (6108, 6108);
   (6112, 6121); (6128, 6137); (6160, 6169); (6176, 6264); (6272, 6276);
   (6279, 6312); (6314, 6314); (6320, 6389); (6400, 6430); (6470, 6509);
   (6512, 6516); (6528, 6571); (6576, 6601); (6608, 6618); (6656, 6678);
   (6688, 6740); (6784, 6793); (6800, 6809); (6823, 6823); (6917, 6963);
   (6981, 6988); (6992, 7001); (7043, 7072); (7086, 7141); (7168, 7203);
   (7232, 7241); (7245, 7293); (7296, 7304); (7312, 7354); (7357, 7359);
   (7401, 7404); (7406, 7411); (7413, 7414); (7418, 7418); (7424, 7615);
   (7680, 7957); (7960, 7965); (7968, 8005); (8008, 8013); (8016, 8023);
   (8025, 8025); (8027, 8027); (8029, 8029); (8031, 8061); (8064, 8116);
   (8118, 8124); (8126, 8126); (8130, 8132); (8134, 8140); (8144, 8147);
   (8150, 8155); (8160, 8172); (8178, 8180); (8182, 8188); (8304, 8305);
   (8308, 8313); (8319, 8329); (8336, 8348); (8450, 8450); (8455, 8455);
   (8458, 8467); (8469, 8469); (8473, 8477); (8484, 8484); (8486, 8486);
   (8488, 8488); (8490, 8493); (8495, 8505); (8508, 8511); (8517, 8521);
   (8526, 8526); (8528, 8585); (9312, 9371); (9450, 9471); (10102, 10131);
   (11264, 11492); (11499, 11502); (11506, 11507); (11517, 11517);
   (11520, 11557); (11559, 11559); (11565, 11565); (11568, 11623);
   (11631, 11631); (11648, 11670); (11680, 11686); (11688, 11694);
   (11696, 11702); (11704, 11710); (11712, 11718); (11720, 11726);
   (11728, 11734); (11736, 11742); (11823, 11823); (12293, 12295);
   (12321, 12329); (12337, 12341); (12344, 12348); (12353, 12438);
   (12445, 12447); (12449, 12538); (12540, 12543); (12549, 12591);
   (12593, 12686); (12690, 12693); (12704, 12735); (12784, 12799);
   (12832, 12841); (12872, 12879); (12881, 12895); (12928, 12937);
   (12977, 12991); (13312, 19903); (19968, 42124); (42192, 42237);
   (42240, 42508); (42512, 42539); (42560, 42606); (42623, 42653);
   (42656, 42735); (42775, 42783); (42786, 42888); (42891, 42954);
   (42960, 42961); (42963, 42963); (42965, 42969); (42994, 43009);
   (43011, 43013); (43015, 43018); (43020, 43042); (43056, 43061);
   (43072, 43123); (43138, 43187); (43216, 43225); (43250, 43255);
   (43259, 43259); (43261, 43262); (43264, 43301); (43312, 43334);
   (43360, 43388); (43396, 43442); (43471, 43481); (43488, 43492);
   (43494, 43518); (43520, 43560); (43584, 43586); (43588, 43595);
   (43600, 43609); (43616, 43638); (43642, 43642); (43646, 43695);
   (43697, 43697); (43701, 43702); (43705, 43709); (43712, 43712);
   (43714, 43714); (43739, 43741); (43744, 43754); (43762, 43764);
   (43777, 43782); (43785, 43790); (43793, 43798); (43808, 43814);
   (43816, 43822); (43824, 43866); (43868, 43881); (43888, 44002);
   (44016, 44025); (44032, 55203); (55216, 55238); (55243, 55291);
   (63744, 64109); (64112, 64217); (64256, 64262); (64275, 64279);
   (64285, 64285); (64287, 64296); (64298, 64310); (64312, 64316);
   (64318, 64318); (64320, 64321); (64323, 64324); (64326, 64433);
   (64467, 64829); (64848, 64911); (64914, 64967); (65008, 65019);
   (65136, 65140); (65142, 65276); (65296, 65305); (65313, 65338);
   (65345, 65370); (65382, 65470); (65474, 65479); (65482, 65487);
   (65490, 65495); (65498, 65500); (65536, 65547); (65549, 65574);
   (65576, 65594); (65596, 65597); (65599, 65613); (65616, 65629);
   (65664, 65786); (65799, 65843); (65856, 65912); (65930, 65931);
   (66176, 66204); (66208, 66256); (66273, 66299); (66304, 66339);
   (66349, 66378); (66384, 66421); (66432, 66461); (66464, 66499);
   (66504, 66511); (66513, 66517); (66560, 66717); (66720, 66729);
   (66736, 66771); (66776, 66811); (66816, 66855); (66864, 66915);
   (66928, 66938); (66940, 66954); (66956, 66962); (66964, 66965);
   (66967, 66977); (66979, 66993); (66995, 67001); (67003, 67004);
   (67072, 67382); (67392, 67413); (67424, 67431); (67456, 67461);
   (67463, 67504); (67506, 67514); (67584, 67589); (67592, 67592);
   (67594, 67637); (67639, 67640); (67644, 67644); (67647, 67669);
   (67672, 67702); (67705, 67742); (67751, 67759); (67808, 67826);
   (67828, 67829); (67835, 67867); (67872, 67897); (67968, 68023);
   (68028, 68047); (68050, 68096); (68112, 68115); (68117, 68119);
   (68121, 68149); (68160, 68168); (68192, 68222); (68224, 68255);
   (68288, 68295); (68297, 68324); (68331, 68335); (68352, 68405);
   (68416, 68437); (68440, 68466); (68472, 68497); (68521, 68527);
   (68608, 68680); (68736, 68786); (68800, 68850); (68858, 68899);
   (68912, 68921); (69216, 69246); (69248, 69289); (69296, 69297);
   (69376, 69415); (69424, 69445); (69457, 69460); (69488, 69505);
   (69552, 69579); (69600, 69622); (69635, 69687); (69714, 69743);
   (69745, 69746); (69749, 69749); (69763, 69807); (69840, 69864);
   (69872, 69881); (69891, 69926); (69942, 69951); (69956, 69956);
   (69959, 69959); (69968, 70002); (70006, 70006); (70019, 70066);
   (70081, 70084); (70096, 70106); (70108, 70108); (70113, 70132);
   (70144, 70161); (70163, 70187); (70272, 70278); (70280, 70280);
   (70282, 70285); (70287, 70301); (70303, 70312); (70320, 70366);
   (70384, 70393); (70405, 70412); (70415, 70416); (70419, 70440);
   (70442, 70448); (70450, 70451); (70453, 70457); (70461, 70461);
   (70480, 70480); (70493, 70497); (70656, 70708); (70727, 70730);
   (70736, 70745); (70751, 70753); (70784, 70831); (70852, 70853);
   (70855, 70855); (70864, 70873); (71040, 71086); (71128, 71131);
   (71168, 71215); (71236, 71236); (71248, 71257); (71296, 71338);
   (71352, 71352); (71360, 71369); (71424, 71450); (71472, 71483);
   (71488, 71494); (71680, 71723); (71840, 71922); (71935, 71942);
   (71945, 71945); (71948, 71955); (71957, 71958); (71960, 71983);
   (71999, 71999); (72001, 72001); (72016, 72025); (72096, 72103);
   (72106, 72144); (72161, 72161); (72163, 72163); (72192, 72192);
   (72203, 72242); (72250, 72250); (72272, 72272); (72284, 72329);
   (72349, 72349); (72368, 72440); (72704, 72712); (72714, 72750);
   (72768, 72768); (72784, 72812); (72818, 72847); (72960, 72966);
   (72968, 72969); (72971, 73008); (73030, 73030); (73040, 73049);
   (73056, 73061); (73063, 73064); (73066, 73097); (73112, 73112);
   (73120, 73129); (73440, 73458); (73648, 73648); (73664, 73684);
   (73728, 74649); (74752, 74862); (74880, 75075); (77712, 77808);
   (77824, 78894); (82944, 83526); (92160, 92728); (92736, 92766);
   (92768, 92777); (92784, 92862); (92864, 92873); (92880, 92909);
   (92928, 92975); (92992, 92995); (93008, 93017); (93019, 93025);
   (93027, 93047); (93053, 93071); (93760, 93846); (93952, 94026);
   (94032, 94032); (94099, 94111); (94176, 94177); (94179, 94179);
   (94208, 100343); (100352, 101589); (101632, 101640); (110576, 110579);
   (110581, 110587); (110589, 110590); (110592, 110882); (110928, 110930);
   (110948, 110951); (110960, 111355); (113664, 113770); (113776, 113788);
   (113792, 113800); (113808, 113817); (119520, 119539); (119648, 119672);
   (119808, 119892); (119894, 119964); (119966, 119967); (119970, 119970);
   (119973, 119974); (119977, 119980); (119982, 119993); (119995, 119995);
   (119997, 120003); (120005, 120069); (120071, 120074); (120077, 120084);
   (120086, 120092); (120094, 120121); (120123, 120126); (120128, 120132);
   (120134, 120134); (120138, 120144); (120146, 120485); (120488, 120512);
   (120514, 120538); (120540, 120570); (120572, 120596); (120598, 120628);
   (120630, 120654); (120656, 120686); (120688, 120712); (120714, 120744);
   (120746, 120770); (120772, 120779); (120782, 120831); (122624, 122654);
   (123136, 123180); (123191, 123197); (123200, 123209); (123214, 123214);
   (123536, 123565); (123584, 123627); (123632, 123641); (124896, 124902);
   (124904, 124907); (124909, 124910); (124912, 124926); (124928, 125124);
   (125127, 125135); (125184, 125251); (125259, 125259); (125264, 125273);
   (126065, 126123); (126125, 126127); (126129, 126132); (126209, 126253);
   (126255, 126269); (126464, 126467); (126469, 126495); (126497, 126498);
   (126500, 126500); (126503, 126503); (126505, 126514); (126516, 126519);
   (126521, 126521); (126523, 126523); (126530, 126530); (126535, 126535);
   (126537, 126537); (126539, 126539); (126541, 126543); (126545, 126546);
   (126548, 126548); (126551, 126551); (126553, 126553); (126555, 126555);
   (126557, 126557); (126559, 126559); (126561, 126562); (126564, 126564);
   (126567, 126570); (126572, 126578); (126580, 126583); (126585, 126588);
   (126590, 126590); (126592, 126601); (126603, 126619); (126625, 126627);
   (126629, 126633); (126635, 126651); (127232, 127244); (130032, 130041);
   (131072, 173791); (173824, 177976); (177984, 178205); (178208, 183969);
   (183984, 191456); (194560, 195101); (196608, 201546)]%N.

(** The code points [\s] matches; [str.isspace] holds of the same ones. *)
Definition space_ranges : list (N * N) :=
  [(9, 13); (28, 32); (133, 133); (160, 160); (5760, 5760); (8192, 8202);
   (8232, 8233); (8239, 8239); (8287, 8287); (12288, 12288)]%N.

(** The code points [\d] matches: the decimal digits. *)
Definition digit_ranges : list (N * N) :=
  [(48, 57); (1632, 1641); (1776, 1785); (1984, 1993); (2406, 2415);
   (2534, 2543); (2662, 2671); (2790, 2799); (2918, 2927); (3046, 3055);
   (3174, 3183); (3302, 3311); (3430, 3439); (3558, 3567); (3664, 3673);
   (3792, 3801); (3872, 3881); (4160, 4169); (4240, 4249); (6112, 6121);
   (6160, 6169); (6470, 6479); (6608, 6617); (6784, 6793); (6800, 6809);
   (6992, 7001); (7088, 7097); (7232, 7241); (7248, 7257); (42528, 42537);
   (43216, 43225); (43264, 43273); (43472, 43481); (43504, 43513);
   (43600, 43609); (44016, 44025); (65296, 65305); (66720, 66729);
   (68912, 68921); (69734, 69743); (69872, 69881); (69942, 69951);
   (70096, 70105); (70384, 70393); (70736, 70745); (70864, 70873);
   (71248, 71257); (71360, 71369); (71472, 71481); (71904, 71913);
   (72016, 72025); (72784, 72793); (73040, 73049); (73120, 73129);
   (92768, 92777); (92864, 92873); (93008, 93017); (120782, 120831);
   (123200, 123209); (123632, 123641); (125264, 125273); (130032, 130041)]%N.

(** Character classes of [re] in a [str] pattern. *)
Definition is_digit (c : N) : bool := in_ranges digit_ranges c.

Definition is_space (c : N) : bool := in_ranges space_ranges c.

Definition is_word (c : N) : bool := in_ranges word_ranges c.

(** [re.sub(r'[^\w\s]', ' ', s)]. *)
Definition sub_nonword (s : string) : string :=
  of_code_points (List.map (fun c => if is_word c || is_space c then c else 32%N)
            (code_points s)).

(** [re.sub(r'\s+', ' ', s)]: [in_run] tells that the previous character
    was a space, whose run has already been replaced. *)
Fixpoint sub_spaces_from (in_run : bool) (l : list N) : list N :=
  match l with
  | [] => []
  | c :: r =>
      if is_space c
      then (if in_run then sub_spaces_from true r
            else 32%N :: sub_spaces_from true r)
      else c :: sub_spaces_from false r
  end.

Definition sub_spaces (s : string) : string :=
  of_code_points (sub_spaces_from false (code_points s)).

(** [s.strip()]. *)
Fixpoint lstrip (l : list N) : list N :=
  match l with
  | [] => []
  | c :: r => if is_space c then lstrip r else l
  end.

Definition rstrip (l : list N) : list N := List.rev (lstrip (List.rev l)).

Definition strip (s : string) : string :=
  of_code_points (rstrip (lstrip (code_points s))).

Fixpoint insert_by {A} (leb : A -> A -> bool) (x : A) (l : list A) : list A :=
  match l with
  | [] => [x]
  | y :: r => if leb x y then x :: l else y :: insert_by leb x r
  end.

(** [sorted(l)] for the order [leb], stable as Python's sort is: elements
    are inserted from the last to the first, each before the first one it
    does not exceed. *)
Definition sort_by {A} (leb : A -> A -> bool) (l : list A) : list A :=
  fold_right (insert_by leb) [] l.

(** [s[:n]]: the first [n] characters. *)
Definition take_str (n : nat) (s : string) : string :=
  of_code_points (firstn n (code_points s)).

(** [round(x)] to the nearest integer, ties to the even one. *)
Definition round_half_even (q : Q) : Z :=
  let f := Qfloor q in
  match Qcompare (q - inject_Z f) (1 # 2) with
  | Lt => f
  | Gt => f + 1
  | Eq => if Z.even f then f else f + 1
  end.

(** [round(x, ndigits)], on the exact value of [x]: a tie goes to the even
    digit.  Python rounds the float, whose binary expansion can lie on
    either side of a decimal tie. *)
Definition round_ndigits (q : Q) (ndigits : nat) : Q :=
  let scale := inject_Z (10 ^ Z.of_nat ndigits) in
  (inject_Z (round_half_even (q * scale)) / scale)%Q.

(** A line feed, as in the [\n] of the appended remarks. *)
Definition nl : string := String "010"%char "".

End Py.

(** ** models.py *)
Module Models.

(** [BudgetEntry]: the columns the agents read or write. *)
Record BudgetEntry := mkBudgetEntry {
  id : Z;
  paragraf : option Z;
  beneficjent_zadaniowy : option string;
  department_id : option Z;
  opis_projektu : option string;
  nazwa_zadania : option string;
  szczegolowe_uzasadnienie : option string;
  kwota_2025 : option Q;
  kwota_2026 : option Q;
  kwota_2027 : option Q;
  kwota_2028 : option Q;
  kwota_2029 : option Q;
  priority : option string;
  status : option string;
  is_obligatory : option bool;
  etap_dzialan : option string;
  umowy : option string;
  uwagi : option string;
  zadanie_inwestycyjne : option string
}.

Record Department := mkDepartment {
  d_id : Z;
  code : string;
  name : string;
  budget_limit : option Q
}.

Record BudgetConflict := mkBudgetConflict {
  c_id : Z;
  entry_a_id : option Z;
  entry_b_id : option Z;
  conflict_type : option string;
  similarity_score : option Q;
  resolution_status : option string;
  resolution_notes : option string
}.

Record GlobalLimit := mkGlobalLimit {
  year : Z;
  total_limit : Q
}.

(** The session: the four tables, rows in row order. *)
Record Session := mkSession {
  entries : list BudgetEntry;
  departments : list Department;
  conflicts : list BudgetConflict;
  global_limits : list GlobalLimit
}.

(** Whether [BudgetEntry] has the attribute [kwota_{year}]. *)
Definition has_kwota (y : Z) : bool := (2025 <=? y) && (y <=? 2029).

(** [getattr(entry, f"kwota_{year}")]: [None] is the [AttributeError] of
    a year that has no column, [Some v] the (nullable) column value. *)
Definition get_kwota (e : BudgetEntry) (y : Z) : option (option Q) :=
  if y =? 2025 then Some (kwota_2025 e)
  else if y =? 2026 then Some (kwota_2026 e)
  else if y =? 2027 then Some (kwota_2027 e)
  else if y =? 2028 then Some (kwota_2028 e)
  else if y =? 2029 then Some (kwota_2029 e)
  else None.

Definition with_kwota_2025 (v : option Q) (e : BudgetEntry) : BudgetEntry :=
  mkBudgetEntry (id e) (paragraf e) (beneficjent_zadaniowy e)
    (department_id e) (opis_projektu e) (nazwa_zadania e)
    (szczegolowe_uzasadnienie e) v (kwota_2026 e) (kwota_2027 e)
    (kwota_2028 e) (kwota_2029 e) (priority e) (status e)
    (is_obligatory e) (etap_dzialan e) (umowy e) (uwagi e)
    (zadanie_inwestycyjne e).

Definition with_kwota_2026 (v : option Q) (e : BudgetEntry) : BudgetEntry :=
  mkBudgetEntry (id e) (paragraf e) (beneficjent_zadaniowy e)
    (department_id e) (opis_projektu e) (nazwa_zadania e)
    (szczegolowe_uzasadnienie e) (kwota_2025 e) v (kwota_2027 e)
    (kwota_2028 e) (kwota_2029 e) (priority e) (status e)
    (is_obligatory e) (etap_dzialan e) (umowy e) (uwagi e)
    (zadanie_inwestycyjne e).

Definition with_kwota_2027 (v : option Q) (e : BudgetEntry) : BudgetEntry :=
  mkBudgetEntry (id e) (paragraf e) (beneficjent_zadaniowy e)
    (department_id e) (opis_projektu e) (nazwa_zadania e)
    (szczegolowe_uzasadnienie e) (kwota_2025 e) (kwota_2026 e) v
    (kwota_2028 e) (kwota_2029 e) (priority e) (status e)
    (is_obligatory e) (etap_dzialan e) (umowy e) (uwagi e)
    (zadanie_inwestycyjne e).

Definition with_kwota_2028 (v : option Q) (e : BudgetEntry) : BudgetEntry :=
  mkBudgetEntry (id e) (paragraf e) (beneficjent_zadaniowy e)
    (department_id e) (opis_projektu e) (nazwa_zadania e)
    (szczegolowe_uzasadnienie e) (kwota_2025 e) (kwota_2026 e)
    (kwota_2027 e) v (kwota_2029 e) (priority e) (status e)
    (is_obligatory e) (etap_dzialan e) (umowy e) (uwagi e)
    (zadanie_inwestycyjne e).

Definition with_kwota_2029 (v : option Q) (e : BudgetEntry) : BudgetEntry :=
  mkBudgetEntry (id e) (paragraf e) (beneficjent_zadaniowy e)
    (department_id e) (opis_projektu e) (nazwa_zadania e)
    (szczegolowe_uzasadnienie e) (kwota_2025 e) (kwota_2026 e)
    (kwota_2027 e) (kwota_2028 e) v (priority e) (status e)
    (is_obligatory e) (etap_dzialan e) (umowy e) (uwagi e)
    (zadanie_inwestycyjne e).

Definition with_uwagi (v : option string) (e : BudgetEntry) : BudgetEntry :=
  mkBudgetEntry (id e) (paragraf e) (beneficjent_zadaniowy e)
    (department_id e) (opis_projektu e) (nazwa_zadania e)
    (szczegolowe_uzasadnienie e) (kwota_2025 e) (kwota_2026 e)
    (kwota_2027 e) (kwota_2028 e) (kwota_2029 e) (priority e) (status e)
    (is_obligatory e) (etap_dzialan e) (umowy e) v
    (zadanie_inwestycyjne e).

Definition with_status (v : option string) (e : BudgetEntry) : BudgetEntry :=
  mkBudgetEntry (id e) (paragraf e) (beneficjent_zadaniowy e)
    (department_id e) (opis_projektu e) (nazwa_zadania e)
    (szczegolowe_uzasadnienie e) (kwota_2025 e) (kwota_2026 e)
    (kwota_2027 e) (kwota_2028 e) (kwota_2029 e) (priority e) v
    (is_obligatory e) (etap_dzialan e) (umowy e) (uwagi e)
    (zadanie_inwestycyjne e).

(** [getattr(entry, f"kwota_{year}") or 0], for a year that has a column. *)
Definition kwota_or0 (e : BudgetEntry) (y : Z) : Q :=
  Py.num_or0 (default None (get_kwota e y)).

(** [setattr(entry, f"kwota_{year}", v)].  For a year without a column
    the ORM object gets a plain attribute that no row stores: the entry
    is unchanged. *)
Definition set_kwota (y : Z) (v : option Q) (e : BudgetEntry) : BudgetEntry :=
  if y =? 2025 then with_kwota_2025 v e
  else if y =? 2026 then with_kwota_2026 v e
  else if y =? 2027 then with_kwota_2027 v e
  else if y =? 2028 then with_kwota_2028 v e
  else if y =? 2029 then with_kwota_2029 v e
  else e.

(** [db.query(BudgetEntry).filter(BudgetEntry.id == i).first()]. *)
Definition first_entry (i : Z) (rows : list BudgetEntry) : option BudgetEntry :=
  List.find (fun e => id e =? i) rows.

(** Writing back the attributes of the object loaded for primary key [i]. *)
Definition update_entry (i : Z) (f : BudgetEntry -> BudgetEntry)
    (rows : list BudgetEntry) : list BudgetEntry :=
  List.map (fun e => if id e =? i then f e else e) rows.

(** [entry.department]: the row of [departments] the foreign key names. *)
Definition department_of (db : Session) (e : BudgetEntry) : option Department :=
  match department_id e with
  | Some d => List.find (fun r => d_id r =? d) (departments db)
  | None => None
  end.

(** [entry.uwagi = (entry.uwagi or '') + remark]. *)
Definition append_uwagi (remark : string) (e : BudgetEntry) : BudgetEntry :=
  with_uwagi (Some (Py.str_or (uwagi e) "" +:+ remark)) e.

(** Two rows that agree on every column but [status]. *)
Definition same_but_status (e e' : BudgetEntry) : Prop :=
  id e' = id e /\ paragraf e' = paragraf e /\
  beneficjent_zadaniowy e' = beneficjent_zadaniowy e /\
  department_id e' = department_id e /\
  opis_projektu e' = opis_projektu e /\ nazwa_zadania e' = nazwa_zadania e /\
  szczegolowe_uzasadnienie e' = szczegolowe_uzasadnienie e /\
  kwota_2025 e' = kwota_2025 e /\ kwota_2026 e' = kwota_2026 e /\
  kwota_2027 e' = kwota_2027 e /\ kwota_2028 e' = kwota_2028 e /\
  kwota_2029 e' = kwota_2029 e /\ priority e' = priority e /\
  is_obligatory e' = is_obligatory e /\ etap_dzialan e' = etap_dzialan e /\
  umowy e' = umowy e /\ uwagi e' = uwagi e /\
  zadanie_inwestycyjne e' = zadanie_inwestycyjne e.

(** The integers the database driver binds as a query parameter: signed,
    64 bits.  A query for an identifier outside raises [OverflowError],
    which no function of this development returns. *)
Definition int64 (i : Z) : Prop := - 2 ^ 63 <= i < 2 ^ 63.

(** The session after its entries, or its conflicts, were written. *)
Definition with_entries (l : list BudgetEntry) (db : Session) : Session :=
  mkSession l (departments db) (conflicts db) (global_limits db).

Definition with_conflicts (l : list BudgetConflict) (db : Session) : Session :=
  mkSession (entries db) (departments db) l (global_limits db).

End Models.

(** ** agents/compliance_agent.py *)
Module ComplianceAgent.
Import Py Models.

Inductive group := investment | current | subsidy.

Definition group_eqb (g h : group) : bool :=
  match g, h with
  | investment, investment | current, current | subsidy, subsidy => true
  | _, _ => false
  end.

Record paragraf_info := mkInfo {
  info_name : string;
  info_group : group;
  info_keywords : list string
}.

(** The class dictionary [PARAGRAF_CLASSIFICATIONS], in source order. *)
Definition PARAGRAF_CLASSIFICATIONS : list (Z * paragraf_info) :=
  [ (6010, mkInfo "Wydatki na zakup i objęcie akcji i udziałów" investment []);
    (6020, mkInfo "Wydatki na wniesienie wkładów do spółek prawa handlowego" investment []);
    (6050, mkInfo "Wydatki inwestycyjne jednostek budżetowych" investment []);
    (6060, mkInfo "Wydatki na zakupy inwestycyjne jednostek budżetowych" investment []);
    (6070, mkInfo "Wydatki inwestycyjne samorządowych zakładów budżetowych" investment []);
    (4010, mkInfo "Wynagrodzenia osobowe pracowników" current
             ["wynagrodzenia"; "pensje"; "pracownik"]);
    (4110, mkInfo "Składki na ubezpieczenia społeczne" current []);
    (4120, mkInfo "Składki na Fundusz Pracy" current []);
    (4170, mkInfo "Wynagrodzenia bezosobowe" current
             ["umowy zlecenia"; "umowy o dzieło"]);
    (4210, mkInfo "Zakup materiałów i wyposażenia" current
             ["materiały biurowe"; "artykuły"]);
    (4260, mkInfo "Zakup energii" current []);
    (4270, mkInfo "Zakup usług remontowych" current ["remont"; "naprawa"]);
    (4300, mkInfo "Zakup usług pozostałych" current ["usługi"; "serwis"]);
    (4360, mkInfo "Opłaty z tytułu zakupu usług telekomunikacyjnych" current []);
    (4390, mkInfo "Zakup usług obejmujących wykonanie ekspertyz" current
             ["ekspertyza"; "analiza"; "audyt"]);
    (4400, mkInfo "Opłaty za administrowanie i czynsze" current []);
    (4410, mkInfo "Podróże służbowe krajowe" current []);
    (4420, mkInfo "Podróże służbowe zagraniczne" current []);
    (4430, mkInfo "Różne opłaty i składki" current []);
    (4440, mkInfo "Odpisy na zakładowy fundusz świadczeń socjalnych" current []);
    (4480, mkInfo "Podatek od nieruchomości" current []);
    (4520, mkInfo "Opłaty na rzecz budżetów jednostek samorządu terytorialnego" current []);
    (4610, mkInfo "Koszty postępowania sądowego" current []);
    (2570, mkInfo "Dotacja podmiotowa z budżetu dla pozostałych jednostek" subsidy []);
    (2580, mkInfo "Dotacja podmiotowa z budżetu dla jednostek niezaliczanych do sektora finansów publicznych" subsidy []) ].

(** [PARAGRAF_CLASSIFICATIONS[p]], [None] when [p not in] the dictionary. *)
Definition classification (p : Z) : option paragraf_info :=
  option_map snd (List.find (fun kv => fst kv =? p) PARAGRAF_CLASSIFICATIONS).

Definition INVESTMENT_KEYWORDS : list string :=
  [ "serwer"; "server"; "sprzęt komputerowy"; "hardware";
    "zakup sprzętu"; "infrastruktura"; "modernizacja";
    "budowa"; "rozbudowa"; "urządzenia sieciowe";
    "switch"; "router"; "firewall"; "macierz" ].

Definition CURRENT_KEYWORDS : list string :=
  [ "licencja"; "license"; "oprogramowanie"; "software";
    "subskrypcja"; "subscription"; "szkolenie"; "training";
    "usługa"; "serwis"; "support"; "utrzymanie" ].

(** The warnings, one constructor per message of the source. *)
Inductive warning :=
| Brak_paragrafu
| Nieznany_paragraf (p : Z)
| Zakup_inwestycyjny (keyword : string) (nm : string) (p : Z)
| Wydatek_biezacy (keyword : string)
| Format_kodu_BZ (bz : string)
| Wysokie_wydatki (max_amount : Q)
| Spadek_finansowania
| Inwestycja_bez_planowania
| Brak_nazwy
| Brak_departamentu
| Brak_zadania_inwestycyjnego.

(** An entry of [auto_corrections]; [reason] carries the keyword found. *)
Record correction := mkCorrection {
  field : string;
  original : option Z;
  corrected : Z;
  reason : option string
}.

Record paragraf_check := mkParagrafCheck {
  pc_warnings : list warning;
  pc_suggested_paragraf : option Z;
  pc_reason : option string
}.

Record classification_check := mkClassificationCheck {
  cc_warnings : list warning;
  cc_auto_corrections : list correction
}.

Record validation := mkValidation {
  is_valid : bool;
  warnings : list warning;
  auto_corrections : list correction;
  suggested_paragraf : option Z;
  compliance_score : Z
}.

Definition _get_entry_content (e : BudgetEntry) : string :=
  lower (join_space
    [ str_or (nazwa_zadania e) ""; str_or (opis_projektu e) "";
      str_or (szczegolowe_uzasadnienie e) "";
      str_or (zadanie_inwestycyjne e) ""; str_or (uwagi e) "" ]).

Definition _validate_paragraf (e : BudgetEntry) : paragraf_check :=
  let result := mkParagrafCheck [] None None in
  match paragraf e with
  | None => mkParagrafCheck [Brak_paragrafu] None None
  | Some p =>
    if p =? 0 then mkParagrafCheck [Brak_paragrafu] None None
    else
      match classification p with
      | None => mkParagrafCheck [Nieznany_paragraf p] None None
      | Some paragraf_info =>
        let content := _get_entry_content e in
        let result :=
          if group_eqb (info_group paragraf_info) current then
            match first_in INVESTMENT_KEYWORDS content with
            | Some keyword =>
                mkParagrafCheck
                  (pc_warnings result ++
                     [Zakup_inwestycyjny keyword (info_name paragraf_info) p])
                  (Some 6060) (Some keyword)
            | None => result
            end
          else result in
        let result :=
          if group_eqb (info_group paragraf_info) investment then
            match first_in CURRENT_KEYWORDS content with
            | Some keyword =>
                mkParagrafCheck
                  (pc_warnings result ++ [Wydatek_biezacy keyword])
                  (pc_suggested_paragraf result) (pc_reason result)
            | None => result
            end
          else result in
        result
      end
  end.

(** [\d+] at the head of the code points [l]: the rest after the digits,
    [None] when [l] does not start with a digit. *)
Fixpoint skip_digits (l : list N) : list N :=
  match l with
  | c :: r => if is_digit c then skip_digits r else l
  | [] => []
  end.

Definition digits1 (l : list N) : option (list N) :=
  match l with
  | c :: r => if is_digit c then Some (skip_digits r) else None
  | [] => None
  end.

(** [\.] at the head of [l]. *)
Definition dot (l : list N) : option (list N) :=
  match l with
  | c :: r => if (c =? 46)%N then Some r else None
  | [] => None
  end.

(** [$]: the end of the string, or just before a final newline. *)
Definition at_end (l : list N) : bool :=
  match l with
  | [] => true
  | [c] => (c =? 10)%N
  | _ => false
  end.

(** [re.match(r'^\d+\.\d+\.\d+\.\d+\.?$', s)]. *)
Definition match_bz_pattern (s : string) : bool :=
  match digits1 (code_points s) with
  | Some s1 => match dot s1 with
    | Some s2 => match digits1 s2 with
      | Some s3 => match dot s3 with
        | Some s4 => match digits1 s4 with
          | Some s5 => match dot s5 with
            | Some s6 => match digits1 s6 with
              | Some s7 =>
                  match dot s7 with
                  | Some s8 => at_end s8
                  | None => at_end s7
                  end
              | None => false end
            | None => false end
          | None => false end
        | None => false end
      | None => false end
    | None => false end
  | None => false
  end.

Definition _validate_classification (e : BudgetEntry) : classification_check :=
  let result := mkClassificationCheck [] [] in
  if negb (truthy_int (paragraf e)) then result
  else
    match beneficjent_zadaniowy e with
    | Some bz =>
      if negb (String.eqb bz "") then
        if negb (match_bz_pattern bz) then
          if negb (String.eqb bz "0") &&
             negb (existsb (String.eqb (lower bz)) ["nd"; "n/d"; "nan"; ""])
          then mkClassificationCheck
                 (cc_warnings result ++ [Format_kodu_BZ bz])
                 (cc_auto_corrections result)
          else result
        else result
      else result
    | None => result
    end.

(** [max(amounts)] on the five yearly amounts. *)
Definition max_amounts (amounts : list Q) : Q :=
  match amounts with
  | [] => 0%Q
  | a :: r => fold_left Qmax r a
  end.

Definition _validate_amounts (e : BudgetEntry) : list warning :=
  let amounts :=
    [ num_or0 (kwota_2025 e); num_or0 (kwota_2026 e); num_or0 (kwota_2027 e);
      num_or0 (kwota_2028 e); num_or0 (kwota_2029 e) ] in
  let a0 := num_or0 (kwota_2025 e) in
  let a1 := num_or0 (kwota_2026 e) in
  let max_amount := max_amounts amounts in
  let w1 := if Qgtb max_amount 50000 then [Wysokie_wydatki max_amount] else [] in
  let w2 :=
    if truthy_bool (is_obligatory e) && Qgtb a0 0
    then (if Qltb a1 (a0 * (1 # 2)) then [Spadek_finansowania] else [])
    else [] in
  let w3 :=
    if truthy_int (paragraf e) &&
       match paragraf e with Some p => 6000 <=? p | None => false end
    then (if Qgtb a0 1000 && forallb (fun a => Qeqb a 0) (tl amounts)
          then [Inwestycja_bez_planowania] else [])
    else [] in
  w1 ++ w2 ++ w3.

Definition _validate_required_fields (e : BudgetEntry) : list warning :=
  let w1 :=
    if negb (truthy_str (nazwa_zadania e)) && negb (truthy_str (opis_projektu e))
    then [Brak_nazwy] else [] in
  let w2 := if negb (truthy_int (department_id e)) then [Brak_departamentu] else [] in
  let w3 :=
    if truthy_int (paragraf e) &&
       match paragraf e with Some p => 6000 <=? p | None => false end
    then (if negb (truthy_str (zadanie_inwestycyjne e))
          then [Brak_zadania_inwestycyjnego] else [])
    else [] in
  w1 ++ w2 ++ w3.

Definition is_nil {A} (l : list A) : bool :=
  match l with [] => true | _ => false end.

(** [validate_entry] updates the dictionary [result] in five steps, one
    per block of the source; each step is a function on [result]. *)
Definition extend_warnings (ws : list warning) (result : validation) : validation :=
  mkValidation (is_valid result) (warnings result ++ ws)
    (auto_corrections result) (suggested_paragraf result)
    (compliance_score result).

Definition subtract_score (n : Z) (result : validation) : validation :=
  mkValidation (is_valid result) (warnings result) (auto_corrections result)
    (suggested_paragraf result) (compliance_score result - n).

(** [if entry.paragraf: paragraf_check = ...]. *)
Definition step_paragraf (e : BudgetEntry) (result : validation) : validation :=
  if truthy_int (paragraf e) then
    let paragraf_check := _validate_paragraf e in
    let result := extend_warnings (pc_warnings paragraf_check) result in
    if truthy_int (pc_suggested_paragraf paragraf_check) then
      subtract_score 20
        (mkValidation (is_valid result) (warnings result)
           (auto_corrections result ++
              [mkCorrection "paragraf" (paragraf e)
                 (default 0 (pc_suggested_paragraf paragraf_check))
                 (pc_reason paragraf_check)])
           (pc_suggested_paragraf paragraf_check)
           (compliance_score result))
    else result
  else result.

(** [classification_check = ...]. *)
Definition step_classification (e : BudgetEntry) (result : validation)
    : validation :=
  let classification_check := _validate_classification e in
  let result := extend_warnings (cc_warnings classification_check) result in
  if negb (is_nil (cc_auto_corrections classification_check)) then
    subtract_score 15
      (mkValidation (is_valid result) (warnings result)
         (auto_corrections result ++ cc_auto_corrections classification_check)
         (suggested_paragraf result) (compliance_score result))
  else result.

(** [amount_check = ...]. *)
Definition step_amounts (e : BudgetEntry) (result : validation) : validation :=
  let amount_check := _validate_amounts e in
  let result := extend_warnings amount_check result in
  if negb (is_nil amount_check) then subtract_score 10 result else result.

(** [field_check = ...]. *)
Definition step_fields (e : BudgetEntry) (result : validation) : validation :=
  let field_check := _validate_required_fields e in
  let result := extend_warnings field_check result in
  if negb (is_nil field_check)
  then subtract_score (5 * Z.of_nat (length field_check)) result
  else result.

(** The last two assignments: [is_valid], then the floor at 0, in this
    order. *)
Definition step_final (result : validation) : validation :=
  let result :=
    mkValidation (70 <=? compliance_score result) (warnings result)
      (auto_corrections result) (suggested_paragraf result)
      (compliance_score result) in
  mkValidation (is_valid result) (warnings result)
    (auto_corrections result) (suggested_paragraf result)
    (Z.max 0 (compliance_score result)).

Definition validate_entry (e : BudgetEntry) : validation :=
  let result := mkValidation true [] [] None 100 in
  let result := step_paragraf e result in
  let result := step_classification e result in
  let result := step_amounts e result in
  let result := step_fields e result in
  step_final result.

(** The deductions [validate_entry] makes for the paragraph check, the
    amount check and the required-field check. *)
Definition paragraf_penalty (e : BudgetEntry) : Z :=
  if truthy_int (paragraf e) &&
     truthy_int (pc_suggested_paragraf (_validate_paragraf e))
  then 20 else 0.

Definition amount_penalty (e : BudgetEntry) : Z :=
  if negb (is_nil (_validate_amounts e)) then 10 else 0.

Definition field_penalty (e : BudgetEntry) : Z :=
  5 * Z.of_nat (length (_validate_required_fields e)).

(** An entry with a paragraph code whose BZ code [bz] is not empty, does
    not match the pattern and is none of the tolerated values. *)
Definition bz_malformed (e : BudgetEntry) (bz : string) : Prop :=
  truthy_int (paragraf e) = true /\
  beneficjent_zadaniowy e = Some bz /\
  bz <> "" /\
  match_bz_pattern bz = false /\
  bz <> "0" /\
  ~ In (lower bz) ["nd"; "n/d"; "nan"; ""].

(** A fully described entry of paragraph 4300 whose BZ code is ["abc"]. *)
Definition entry_bz_abc : BudgetEntry :=
  mkBudgetEntry 1 (Some 4300) (Some "abc") (Some 1) None
    (Some "Zakup papieru") None (Some (100 # 1)%Q) None None None None
    (Some "niski") (Some "draft") (Some false) None None None None.

(** An entry of paragraph 4300 that asks for a server. *)
Definition entry_serwer : BudgetEntry :=
  mkBudgetEntry 2 (Some 4300) None (Some 1) None
    (Some "Zakup Serwera i server rack") None (Some (100 # 1)%Q) None None
    None None (Some "niski") (Some "draft") (Some false) None None None None.

(** Two entries of paragraph 4210 ("current") whose names spell an
    investment keyword in capitals, with a letter outside ASCII. *)
Definition entry_zakup : BudgetEntry :=
  mkBudgetEntry 3 (Some 4210) None (Some 1) None
    (Some "ZAKUP SPRZĘTU dla biura") None (Some (100 # 1)%Q) None None
    None None (Some "średni") (Some "draft") (Some false) None None None None.

Definition entry_sprzet : BudgetEntry :=
  mkBudgetEntry 4 (Some 4210) None (Some 1) None
    (Some "SPRZĘT KOMPUTEROWY i firewall") None (Some (100 # 1)%Q) None None
    None None (Some "średni") (Some "draft") (Some false) None None None None.

End ComplianceAgent.

(** ** agents/optimization_agent.py *)
Module OptimizationAgent.
Import Py Models.

(** [PRIORITY_WEIGHTS.get(PriorityLevel(priority_str), 50)]; [None] is
    the [ValueError] of a string that names no priority level. *)
Definition PRIORITY_WEIGHTS (priority_str : string) : option Z :=
  if String.eqb priority_str "obowiązkowy" then Some 100
  else if String.eqb priority_str "wysoki" then Some 75
  else if String.eqb priority_str "średni" then Some 50
  else if String.eqb priority_str "niski" then Some 25
  else if String.eqb priority_str "uznaniowy" then Some 10
  else None.

Definition PROTECTED_KEYWORDS : list string :=
  [ "cyberbezpieczeństwo"; "cyber"; "security"; "bezpieczeństwo";
    "eidas"; "rozporządzenie"; "ustawa"; "prawne"; "obligatoryjne";
    "audit"; "audyt"; "kontrola"; "nis2"; "dora" ].

Definition DEFERRABLE_KEYWORDS : list string :=
  [ "remont"; "renovation"; "modernizacja"; "szkolenie"; "training";
    "nowe"; "rozwój"; "enhancement"; "upgrade"; "planowane" ].

Record gap_analysis := mkGap {
  ga_year : Z;
  ga_global_limit : Q;
  ga_current_total : Q;
  ga_variance : Q;
  ga_is_over_limit : bool
}.

(** [func.sum(column)]: nulls are skipped. *)
Definition sql_sum (vals : list (option Q)) : Q :=
  fold_right (fun v acc => (num_or0 v + acc)%Q) 0%Q vals.

(** [analyze_budget_gap]: [inr None] is the dictionary that only holds
    ["error"]; the per-priority and per-department breakdowns, which
    [generate_cut_suggestions] does not read, are left out. *)
Definition analyze_budget_gap (db : Session) (y : Z)
    : exn + option gap_analysis :=
  match List.find (fun g => year g =? y) (global_limits db) with
  | None => inr None
  | Some global_limit =>
      if negb (has_kwota y) then inl AttributeError
      else
        let current_total :=
          sql_sum (List.map (fun e => default None (get_kwota e y))
                     (entries db)) in
        let variance := (current_total - total_limit global_limit)%Q in
        inr (Some (mkGap y (total_limit global_limit) current_total
                     variance (Qgtb variance 0)))
  end.

Inductive action := defer | reduce.

(** The [reason] of a suggestion: deferral to [year + 1], or a reduction
    by the given rate. *)
Inductive cut_reason :=
| Przelozenie (next_year : Z)
| Redukcja (reduction_rate : Q).

Record suggestion := mkSuggestion {
  s_entry_id : Z;
  s_nazwa : string;
  s_department : string;
  s_current_amount : Q;
  s_suggested_amount : Q;
  s_savings : Q;
  s_action : action;
  s_reason : cut_reason;
  s_priority : string;
  s_deferral_score : Z;
  s_is_deferrable : bool
}.

Record protected_item := mkProtected {
  p_entry_id : Z;
  p_nazwa : option string;
  p_amount : option Q
}.

(** The two shapes of the dictionary [generate_cut_suggestions] returns;
    the formatted ["message"] and ["summary"] texts are left out. *)
Inductive cut_suggestions :=
| Within_limit (gap : option gap_analysis)
| Cuts (gap : gap_analysis) (target_reduction achievable_reduction : Q)
       (can_meet_target : bool) (suggestions : list suggestion)
       (protected_items : list protected_item).

(** The ["suggestions"] key, present in both shapes. *)
Definition suggestions_of (r : cut_suggestions) : list suggestion :=
  match r with
  | Within_limit _ => []
  | Cuts _ _ _ _ l _ => l
  end.

Definition _get_entry_content (e : BudgetEntry) : string :=
  lower (join_space
    [ str_or (nazwa_zadania e) ""; str_or (opis_projektu e) "";
      str_or (szczegolowe_uzasadnienie e) ""; str_or (uwagi e) "" ]).

Definition _calculate_deferral_score (e : BudgetEntry) : Z :=
  let priority_str := str_or (priority e) "średni" in
  let score :=
    match PRIORITY_WEIGHTS priority_str with
    | Some w => 100 - w
    | None => 50
    end in
  let content := _get_entry_content e in
  let score := if any_in PROTECTED_KEYWORDS content then score - 30 else score in
  let score := if any_in DEFERRABLE_KEYWORDS content then score + 20 else score in
  let score :=
    if truthy_str (umowy e) && contains "podpisana" (lower (str_or (umowy e) ""))
    then score - 40 else score in
  let score :=
    if truthy_str (etap_dzialan e) then
      let stage := lower (str_or (etap_dzialan e) "") in
      if contains "realizacja" stage || contains "w toku" stage then score - 25
      else if contains "planowane" stage then score + 15
      else score
    else score in
  Z.max 0 (Z.min 100 score).

(** [entry.priority in [...]]. *)
Definition priority_in (e : BudgetEntry) (l : list string) : bool :=
  match priority e with
  | Some p => existsb (String.eqb p) l
  | None => false
  end.

Definition _is_deferrable (e : BudgetEntry) : bool :=
  if truthy_str (umowy e) && contains "podpisana" (lower (str_or (umowy e) ""))
  then false
  else if truthy_str (etap_dzialan e) &&
          (let stage := lower (str_or (etap_dzialan e) "") in
           contains "realizacja" stage || contains "w toku" stage)
  then false
  else if any_in PROTECTED_KEYWORDS (_get_entry_content e) then false
  else priority_in e ["niski"; "uznaniowy"].

(** [ORDER BY priority ASC] of SQLite: nulls first, then byte order.
    Rows of equal priority are kept in row order by [sort_by]. *)
Definition priority_leb (x y : option string) : bool :=
  match x, y with
  | None, _ => true
  | Some _, None => false
  | Some a, Some b => String.leb a b
  end.

Definition amount_positive (v : option (option Q)) : bool :=
  match v with
  | Some (Some q) => Qgtb q 0
  | _ => false
  end.

Definition is_false (b : option bool) : bool :=
  match b with Some false => true | _ => false end.

Definition is_true (b : option bool) : bool :=
  match b with Some true => true | _ => false end.

Definition cuttable_entries (db : Session) (y : Z) : list BudgetEntry :=
  sort_by (fun a b => priority_leb (priority a) (priority b))
    (List.filter
       (fun e => is_false (is_obligatory e) && amount_positive (get_kwota e y))
       (entries db)).

(** The body of the [for entry in cuttable_entries] loop for one entry
    that is neither skipped nor past the [break]. *)
Definition suggest (db : Session) (y : Z) (e : BudgetEntry) (entry_amount : Q)
    : suggestion :=
  let score := _calculate_deferral_score e in
  let is_deferrable := _is_deferrable e in
  let nazwa :=
    str_or (nazwa_zadania e) (str_or (opis_projektu e) "Brak nazwy") in
  let department :=
    match department_of db e with Some d => code d | None => "N/A" end in
  let prio := str_or (priority e) "średni" in
  if is_deferrable then
    mkSuggestion (id e) nazwa department entry_amount 0 entry_amount
      defer (Przelozenie (y + 1)) prio score is_deferrable
  else
    let reduction_rate :=
      if priority_in e ["średni"; "niski"] then (3 # 10)%Q else (2 # 10)%Q in
    let suggested_amount := (entry_amount * (1 - reduction_rate))%Q in
    let savings := (entry_amount - suggested_amount)%Q in
    mkSuggestion (id e) nazwa department entry_amount suggested_amount
      savings reduce (Redukcja reduction_rate) prio score is_deferrable.

(** The loop, from the state [(suggestions, cumulative_savings)].  The
    savings are summed exactly; the float sum of Python can differ in its
    last digit, and with it the entry at which a sum that lands on the
    target stops the loop. *)
Fixpoint cut_loop (db : Session) (y : Z) (target : Q)
    (l : list BudgetEntry) (suggestions : list suggestion)
    (cumulative_savings : Q) : list suggestion * Q :=
  match l with
  | [] => (suggestions, cumulative_savings)
  | e :: r =>
      if Qgeb cumulative_savings target then (suggestions, cumulative_savings)
      else
        let entry_amount := kwota_or0 e y in
        if Qle_bool entry_amount 0
        then cut_loop db y target r suggestions cumulative_savings
        else
          let s := suggest db y e entry_amount in
          cut_loop db y target r (suggestions ++ [s])
            (cumulative_savings + s_savings s)%Q
  end.

Definition _get_protected_items (db : Session) (y : Z) : list protected_item :=
  List.map
    (fun e => mkProtected (id e)
                (if truthy_str (nazwa_zadania e) then nazwa_zadania e
                 else opis_projektu e)
                (default None (get_kwota e y)))
    (List.filter
       (fun e => is_true (is_obligatory e) && amount_positive (get_kwota e y))
       (entries db)).

(** [target_reduction or variance]. *)
Definition target_or (target_reduction : option Q) (variance : Q) : Q :=
  match target_reduction with
  | Some t => if Qeqb t 0 then variance else t
  | None => variance
  end.

Definition generate_cut_suggestions (db : Session)
    (target_reduction : option Q) (y : Z) : exn + cut_suggestions :=
  match analyze_budget_gap db y with
  | inl x => inl x
  | inr None => inr (Within_limit None)
  | inr (Some gap) =>
      if negb (ga_is_over_limit gap) then inr (Within_limit (Some gap))
      else
        let variance := ga_variance gap in
        let target := target_or target_reduction variance in
        let '(suggestions, cumulative_savings) :=
          cut_loop db y target (cuttable_entries db y) [] 0%Q in
        let suggestions :=
          sort_by (fun a b => s_deferral_score b <=? s_deferral_score a)
            suggestions in
        inr (Cuts gap target cumulative_savings
               (Qgeb cumulative_savings target) suggestions
               (_get_protected_items db y))
  end.

(** The dictionary [apply_suggestion] returns, without its ["message"]. *)
Inductive apply_result :=
| Applied (entry_id : Z) (action : string) (old_amount : option Q)
          (new_amount : Q)
| Not_found.

Definition success (r : apply_result) : bool :=
  match r with Applied _ _ _ _ => true | Not_found => false end.

(** The sum of the ["savings"] of a list of suggestions. *)
Definition total_savings (l : list suggestion) : Q :=
  fold_right (fun s acc => (s_savings s + acc)%Q) 0%Q l.

(** The sum of the year's amounts of a list of entries. *)
Definition total_amount (y : Z) (l : list BudgetEntry) : Q :=
  fold_right (fun e acc => (kwota_or0 e y + acc)%Q) 0%Q l.

(** The sum of the year's amounts of the entries, among those with a
    positive amount, that [keep] selects. *)
Definition positive_total (keep : BudgetEntry -> bool) (db : Session) (y : Z) : Q :=
  total_amount y
    (List.filter (fun e => keep e && amount_positive (get_kwota e y))
       (entries db)).

(** The sum of the year's amounts of all entries, as [func.sum] gives it. *)
Definition year_total (db : Session) (y : Z) : Q :=
  sql_sum (List.map (fun e => default None (get_kwota e y)) (entries db)).

(** An entry for worked examples: paragraph 4300, the amount [a] in 2025
    and in 2026. *)
Definition example_entry (i : Z) (dept : Z) (nm : string) (a : Q)
    (prio : string) (oblig : bool) : BudgetEntry :=
  mkBudgetEntry i (Some 4300) None (Some dept) None (Some nm) None
    (Some a) (Some a) None None None (Some prio) (Some "draft") (Some oblig)
    None None None None.

(** A store for worked examples: an obligatory entry of 100, a deferrable
    one of 50 and a reducible one of 60 in 2025, against a limit of 150. *)
Definition example_db : Session :=
  mkSession
    [ example_entry 1 1 "Utrzymanie rejestru" (100 # 1) "obowiązkowy" true;
      example_entry 2 1 "Wyjazd integracyjny" (50 # 1) "niski" false;
      example_entry 3 2 "Zakup papieru" (60 # 1) "średni" false ]
    [ mkDepartment 1 "DA" "Departament A" None;
      mkDepartment 2 "DB" "Departament B" None ]
    []
    [ mkGlobalLimit 2025 (150 # 1) ].

Section ApplySuggestion.
(** [f"{x}"] on a float: the decimal text Python prints, which this
    development does not reproduce. *)
Variable format_float : Q -> string.

Definition format_amount (x : option Q) : string :=
  match x with Some q => format_float q | None => "None" end.

Definition apply_suggestion (db : Session) (entry_id : Z) (action : string)
    (new_amount : option Q) (y : Z) : exn + (apply_result * Session) :=
  match first_entry entry_id (entries db) with
  | None => inr (Not_found, db)
  | Some entry =>
    match get_kwota entry y with
    | None => inl AttributeError
    | Some old_amount =>
      let rows := entries db in
      let changed : exn + list BudgetEntry :=
        if String.eqb action "defer" then
          let rows := update_entry entry_id (set_kwota y (Some 0%Q)) rows in
          let current_next := kwota_or0 entry (y + 1) in
          match old_amount with
          | None => inl TypeError
          | Some old =>
              let rows :=
                update_entry entry_id
                  (set_kwota (y + 1) (Some (current_next + old)%Q)) rows in
              inr (update_entry entry_id
                     (append_uwagi (nl +:+ "[ODROCZONO z " +:+ pretty y +:+ "]"))
                     rows)
          end
        else
          match new_amount with
          | Some new =>
              if String.eqb action "reduce" then
                let rows := update_entry entry_id (set_kwota y (Some new)) rows in
                inr (update_entry entry_id
                       (append_uwagi
                          (nl +:+ "[ZREDUKOWANO z " +:+ format_amount old_amount
                              +:+ " do " +:+ format_float new +:+ "]"))
                       rows)
              else inr rows
          | None => inr rows
          end in
      match changed with
      | inl x => inl x
      | inr rows =>
          let rows :=
            update_entry entry_id (with_status (Some "needs_revision")) rows in
          inr (Applied entry_id action old_amount (num_or0 new_amount),
               with_entries rows db)
      end
    end
  end.

End ApplySuggestion.

End OptimizationAgent.

(** ** difflib.SequenceMatcher (CPython 3.11), as [conflict_agent.py] uses it

    [SequenceMatcher(None, a, b).ratio()]: no junk predicate, so the set
    [bjunk] is empty and the two junk-extension loops of
    [find_longest_match] never run; [autojunk] is on. *)
Module Difflib.

(** The named tuple [Match(a, b, size)]. *)
Record Match := mkMatch { m_a : nat; m_b : nat; m_size : nat }.

(** Tuple order, as [matching_blocks.sort()] uses it. *)
Definition Match_leb (x y : Match) : bool :=
  ((m_a x <? m_a y) ||
   ((m_a x =? m_a y) &&
    ((m_b x <? m_b y) || ((m_b x =? m_b y) && (m_size x <=? m_size y)))))%nat.

Section SequenceMatcher.
Context {A : Type} `{Countable A}.

(** [indices = b2j.setdefault(elt, []); indices.append(i)]. *)
Definition setdefault_append (b2j : gmap A (list nat)) (i : nat) (elt : A)
    : gmap A (list nat) :=
  <[ elt := default [] (b2j !! elt) ++ [i] ]> b2j.

Fixpoint chain_from (i : nat) (l : list A) (b2j : gmap A (list nat))
    : gmap A (list nat) :=
  match l with
  | [] => b2j
  | elt :: r => chain_from (S i) r (setdefault_append b2j i elt)
  end.

(** [__chain_b]: the positions of every element of [b]; when [b] has
    200 elements or more, the elements that occur more than
    [n // 100 + 1] times are deleted from the index. *)
Definition __chain_b (b : list A) : gmap A (list nat) :=
  let b2j := chain_from 0 b ∅ in
  let n := length b in
  if (200 <=? n)%nat then
    let ntest := (n / 100 + 1)%nat in
    filter (fun kv => (length (snd kv) <= ntest)%nat) b2j
  else b2j.

Variables a b : list A.

Definition b2j : gmap A (list nat) := __chain_b b.

(** [j2len.get(j-1, 0)]: no key is negative, so [j = 0] gives 0. *)
Definition j2lenget_pred (j2len : gmap nat nat) (j : nat) : nat :=
  match j with
  | O => 0%nat
  | S j' => default 0%nat (j2len !! j')
  end.

(** [for j in b2j.get(a[i], nothing)], from the state
    [(newj2len, best)]; [k <= i + 1] throughout, so that [i-k+1] is
    [i + 1 - k]. *)
Fixpoint row_loop (blo bhi i : nat) (j2len : gmap nat nat) (js : list nat)
    (newj2len : gmap nat nat) (best : Match) : gmap nat nat * Match :=
  match js with
  | [] => (newj2len, best)
  | j :: r =>
      if (j <? blo)%nat then row_loop blo bhi i j2len r newj2len best
      else if (bhi <=? j)%nat then (newj2len, best)
      else
        let k := (j2lenget_pred j2len j + 1)%nat in
        let newj2len := <[ j := k ]> newj2len in
        let best :=
          if (m_size best <? k)%nat
          then mkMatch (i + 1 - k) (j + 1 - k) k else best in
        row_loop blo bhi i j2len r newj2len best
  end.

(** [for i in range(alo, ahi)], from the state [(j2len, best)]. *)
Fixpoint rows_loop (blo bhi : nat) (rows : list nat)
    (j2len : gmap nat nat) (best : Match) : Match :=
  match rows with
  | [] => best
  | i :: r =>
      let js :=
        match a !! i with
        | Some x => default [] (b2j !! x)
        | None => []
        end in
      let '(newj2len, best) := row_loop blo bhi i j2len js ∅ best in
      rows_loop blo bhi r newj2len best
  end.

(** The first [while]: extend the match to the left. *)
Fixpoint extend_left (alo blo besti bestj bestsize : nat) : Match :=
  match besti, bestj with
  | S i', S j' =>
      if (alo <? besti)%nat && (blo <? bestj)%nat &&
         bool_decide (a !! i' = b !! j')
      then extend_left alo blo i' j' (S bestsize)
      else mkMatch besti bestj bestsize
  | _, _ => mkMatch besti bestj bestsize
  end.

(** The second [while]: extend the match to the right; [n] bounds the
    iterations, and [ahi - (besti + bestsize)] of them are enough. *)
Fixpoint extend_right (n ahi bhi besti bestj bestsize : nat) : nat :=
  match n with
  | O => bestsize
  | S n' =>
      if (besti + bestsize <? ahi)%nat && (bestj + bestsize <? bhi)%nat &&
         bool_decide (a !! (besti + bestsize)%nat = b !! (bestj + bestsize)%nat)
      then extend_right n' ahi bhi besti bestj (S bestsize)
      else bestsize
  end.

Definition find_longest_match (alo ahi blo bhi : nat) : Match :=
  let best := rows_loop blo bhi (seq alo (ahi - alo)) ∅ (mkMatch alo blo 0) in
  let best := extend_left alo blo (m_a best) (m_b best) (m_size best) in
  let bestsize :=
    extend_right (ahi - (m_a best + m_size best)) ahi bhi
      (m_a best) (m_b best) (m_size best) in
  mkMatch (m_a best) (m_b best) bestsize.

(** The [while queue] loop of [get_matching_blocks]; the head of the
    list is the element [queue.pop()] takes.  [None]: [n] iterations
    did not empty the queue. *)
Fixpoint blocks_loop (n : nat) (queue : list (nat * nat * nat * nat))
    (matching_blocks : list Match) : option (list Match) :=
  match queue with
  | [] => Some matching_blocks
  | (alo, ahi, blo, bhi) :: queue =>
      match n with
      | O => None
      | S n' =>
          let x := find_longest_match alo ahi blo bhi in
          let '(i, j, k) := (m_a x, m_b x, m_size x) in
          if (k =? 0)%nat then blocks_loop n' queue matching_blocks
          else
            let queue :=
              if (alo <? i)%nat && (blo <? j)%nat
              then (alo, i, blo, j) :: queue else queue in
            let queue :=
              if (i + k <? ahi)%nat && (j + k <? bhi)%nat
              then (i + k, ahi, j + k, bhi)%nat :: queue else queue in
            blocks_loop n' queue (matching_blocks ++ [x])
      end
  end.

(** The loop that merges adjacent blocks, from the state
    [(i1, j1, k1, non_adjacent)]. *)
Fixpoint collapse (blocks : list Match) (i1 j1 k1 : nat)
    (non_adjacent : list Match) : list Match :=
  match blocks with
  | [] =>
      if (k1 =? 0)%nat then non_adjacent
      else non_adjacent ++ [mkMatch i1 j1 k1]
  | x :: r =>
      if ((i1 + k1 =? m_a x) && (j1 + k1 =? m_b x))%nat
      then collapse r i1 j1 (k1 + m_size x) non_adjacent
      else
        collapse r (m_a x) (m_b x) (m_size x)
          (if (k1 =? 0)%nat then non_adjacent
           else non_adjacent ++ [mkMatch i1 j1 k1])
  end.

(** Iterations that always empty the queue (see [blocks_loop_Some]). *)
Definition blocks_fuel : nat := 2 * length a + 1.

Definition get_matching_blocks : list Match :=
  let la := length a in
  let lb := length b in
  let matching_blocks :=
    default [] (blocks_loop blocks_fuel [(0, la, 0, lb)%nat] []) in
  let matching_blocks := Py.sort_by Match_leb matching_blocks in
  collapse matching_blocks 0 0 0 [] ++ [mkMatch la lb 0].

Definition _calculate_ratio (matches length : nat) : Q :=
  if (length =? 0)%nat then 1%Q
  else (2 * inject_Z (Z.of_nat matches) / inject_Z (Z.of_nat length))%Q.

Definition ratio : Q :=
  let matches := list_sum (List.map m_size get_matching_blocks) in
  _calculate_ratio matches (length a + length b).

End SequenceMatcher.

(** *** Notions for the analysis of the matcher *)

(** A match that lies in the rows from [alo] up to [bound]. *)
Definition within (alo bound : nat) (x : Match) : Prop :=
  (alo <= m_a x /\ m_a x + m_size x <= bound)%nat.

(** The work left in the queue: each range counts twice its rows, plus
    one. *)
Definition weight (queue : list (nat * nat * nat * nat)) : nat :=
  list_sum (List.map (fun q => (2 * (q.1.1.2 - q.1.1.1) + 1)%nat) queue).

Definition ordered (q : nat * nat * nat * nat) : Prop :=
  (q.1.1.1 <= q.1.1.2)%nat.

Section Positions.
Context {A : Type} `{Countable A}.

(** The positions of [x] in [l], counted from [i]. *)
Fixpoint positions_from (i : nat) (l : list A) (x : A) : list nat :=
  match l with
  | [] => []
  | y :: r =>
      if decide (y = x) then i :: positions_from (S i) r x
      else positions_from (S i) r x
  end.

Variable a : list A.

(** Whether the element at position [p] is a key of [b2j]: it is, unless
    the element counts as popular. *)
Definition indexed_at (p : nat) : bool :=
  match a !! p with
  | Some x => bool_decide (is_Some (b2j a !! x))
  | None => false
  end.

(** The number of consecutive indexed positions that end at [p]. *)
Fixpoint run (p : nat) : nat :=
  match p with
  | O => if indexed_at 0 then 1%nat else 0%nat
  | S p' => if indexed_at (S p') then S (run p') else 0%nat
  end.

(** The same, for the position before [i]. *)
Definition prun (i : nat) : nat :=
  match i with
  | O => 0%nat
  | S i' => run i'
  end.

(** What the dictionary of the row before [i] holds when a sequence is
    matched against itself: lengths of runs of indexed elements, the exact
    one on the diagonal. *)
Definition row_dict_ok (i : nat) (j2len : gmap nat nat) : Prop :=
  (forall j k, j2len !! j = Some k ->
     (1 <= k /\ k <= run j /\ k <= prun i)%nat) /\
  (forall i', i = S i' -> indexed_at i' = true -> j2len !! i' = Some (run i')).

(** The best match so far lies on the diagonal and is no shorter than any
    run that ends before row [i]. *)
Definition best_ok (i : nat) (best : Match) : Prop :=
  m_a best = m_b best /\ forall p, (p < i)%nat -> (run p <= m_size best)%nat.

End Positions.

(** [SequenceMatcher(None, s, t).ratio()] on two strings. *)
Definition ratio_str (s t : string) : Q :=
  ratio (Py.code_points s) (Py.code_points t).

End Difflib.

(** ** agents/conflict_agent.py *)
Module ConflictAgent.
Import Py Models.

(** The class dictionary [CATEGORY_KEYWORDS], in source order. *)
Definition CATEGORY_KEYWORDS : list (string * list string) :=
  [ ("software_licenses", ["licencja"; "license"; "microsoft"; "office";
                            "oprogramowanie"; "software"; "subskrypcja"]);
    ("hardware", ["serwer"; "server"; "sprzęt"; "hardware"; "komputer";
                  "laptop"; "urządzenia"]);
    ("network", ["sieciowe"; "network"; "switch"; "router"; "firewall";
                 "wifi"; "lan"; "wan"]);
    ("consulting", ["konsulting"; "consulting"; "doradztwo"; "ekspertyza";
                    "analiza"; "audyt"]);
    ("training", ["szkolenie"; "training"; "kurs"; "certyfikacja"; "edukacja"]);
    ("maintenance", ["utrzymanie"; "maintenance"; "serwis"; "support"; "wsparcie"]);
    ("renovation", ["remont"; "renovation"; "modernizacja"; "adaptacja"]);
    ("security", ["bezpieczeństwo"; "security"; "cyber"; "ochrona"; "monitoring"]) ].

Definition SIMILARITY_THRESHOLD : Q := 6 # 10.

Definition _normalize_content (e : BudgetEntry) : string :=
  let content :=
    lower (join_space
      [ str_or (nazwa_zadania e) ""; str_or (opis_projektu e) "";
        str_or (szczegolowe_uzasadnienie e) "" ]) in
  let content := sub_nonword content in
  strip (sub_spaces content).

(** The set of categories the loops over [CATEGORY_KEYWORDS] build for
    one content: [for keyword in keywords: if keyword in content:
    categories.add(category)]. *)
Definition add_category (content : string) (kv : string * list string)
    (categories : gset string) : gset string :=
  fold_left
    (fun acc keyword => if contains keyword content then {[ fst kv ]} ∪ acc else acc)
    (snd kv) categories.

Definition categories_of (content : string) : gset string :=
  fold_left (fun acc kv => add_category content kv acc) CATEGORY_KEYWORDS ∅.

Definition _category_similarity (content_a content_b : string) : Q :=
  let categories_a := categories_of content_a in
  let categories_b := categories_of content_b in
  if bool_decide (categories_a = ∅) || bool_decide (categories_b = ∅) then 0%Q
  else
    let intersection := size (categories_a ∩ categories_b) in
    let union := size (categories_a ∪ categories_b) in
    if (0 <? union)%nat
    then (inject_Z (Z.of_nat intersection) / inject_Z (Z.of_nat union))%Q
    else 0%Q.

(** [x == y] on nullable integers. *)
Definition opt_eqb (x y : option Z) : bool :=
  match x, y with
  | Some u, Some v => u =? v
  | None, None => true
  | _, _ => false
  end.

Definition _calculate_similarity (entry_a entry_b : BudgetEntry) : Q :=
  let content_a := _normalize_content entry_a in
  let content_b := _normalize_content entry_b in
  let string_sim := Difflib.ratio_str content_a content_b in
  let category_sim := _category_similarity content_a content_b in
  let paragraf_sim :=
    if opt_eqb (paragraf entry_a) (paragraf entry_b) then 1%Q else 0%Q in
  (string_sim * (4 # 10) + category_sim * (4 # 10) + paragraf_sim * (2 # 10))%Q.

(** The dictionary [_create_conflict] returns, without its ["message"]. *)
Record conflict := mkConflict {
  cf_entry_a_id : Z;
  cf_entry_a_name : string;
  cf_entry_a_department : string;
  cf_entry_a_amount : Q;
  cf_entry_b_id : Z;
  cf_entry_b_name : string;
  cf_entry_b_department : string;
  cf_entry_b_amount : Q;
  cf_similarity_score : Q;
  cf_conflict_type : string;
  cf_suggested_action : string;
  cf_potential_savings : Q;
  cf_combined_amount : Q
}.

Definition _create_conflict (db : Session) (entry_a entry_b : BudgetEntry)
    (similarity : Q) (y : Z) : conflict :=
  let amount_a := kwota_or0 entry_a y in
  let amount_b := kwota_or0 entry_b y in
  let '(conflict_type, suggested_action) :=
    if Qgeb similarity (85 # 100)
    then ("duplicate", "Połącz pozycje w jedno wspólne zamówienie")
    else if Qgeb similarity (7 # 10)
    then ("overlap", "Rozważ konsolidację pod jednym departamentem")
    else ("semantic_similar", "Sprawdź czy nie ma możliwości synergii") in
  let potential_savings := ((amount_a + amount_b) * (15 # 100))%Q in
  let dept_a :=
    match department_of db entry_a with Some d => code d | None => "N/A" end in
  let dept_b :=
    match department_of db entry_b with Some d => code d | None => "N/A" end in
  mkConflict
    (id entry_a)
    (take_str 100 (str_or (nazwa_zadania entry_a) (str_or (opis_projektu entry_a) "")))
    dept_a amount_a
    (id entry_b)
    (take_str 100 (str_or (nazwa_zadania entry_b) (str_or (opis_projektu entry_b) "")))
    dept_b amount_b
    (round_ndigits similarity 2) conflict_type suggested_action
    (round_ndigits potential_savings 2) (amount_a + amount_b)%Q.

(** The key an [autoincrement] column gives to a new row. *)
Definition next_id (rows : list BudgetConflict) : Z :=
  1 + fold_right Z.max 0 (List.map c_id rows).

Definition _save_conflict (db : Session) (entry_a_id' entry_b_id' : Z)
    (similarity : Q) (conflict_type' : string) : Session :=
  let same_pair (c : BudgetConflict) :=
    (opt_eqb (entry_a_id c) (Some entry_a_id') &&
     opt_eqb (entry_b_id c) (Some entry_b_id')) ||
    (opt_eqb (entry_a_id c) (Some entry_b_id') &&
     opt_eqb (entry_b_id c) (Some entry_a_id')) in
  match List.find same_pair (conflicts db) with
  | Some existing =>
      with_conflicts
        (List.map
           (fun c =>
              if c_id c =? c_id existing
              then mkBudgetConflict (c_id c) (entry_a_id c) (entry_b_id c)
                     (Some conflict_type') (Some similarity)
                     (resolution_status c) (resolution_notes c)
              else c)
           (conflicts db))
        db
  | None =>
      with_conflicts
        (conflicts db ++
           [mkBudgetConflict (next_id (conflicts db)) (Some entry_a_id')
              (Some entry_b_id') (Some conflict_type') (Some similarity)
              (Some "pending") None])
        db
  end.

(** The state of the two nested loops of [detect_conflicts]. *)
Record detect_state := mkDetect {
  ds_conflicts : list conflict;
  ds_processed_pairs : gset (Z * Z);
  ds_db : Session
}.

(** The body of the inner loop for one pair. *)
Definition detect_pair (y : Z) (entry_a entry_b : BudgetEntry)
    (st : detect_state) : detect_state :=
  if opt_eqb (department_id entry_a) (department_id entry_b) then st
  else
    let pair_key := (Z.min (id entry_a) (id entry_b), Z.max (id entry_a) (id entry_b)) in
    if bool_decide (pair_key ∈ ds_processed_pairs st) then st
    else
      let processed_pairs := {[ pair_key ]} ∪ ds_processed_pairs st in
      let similarity := _calculate_similarity entry_a entry_b in
      if Qgeb similarity SIMILARITY_THRESHOLD then
        let conflict := _create_conflict (ds_db st) entry_a entry_b similarity y in
        mkDetect (ds_conflicts st ++ [conflict]) processed_pairs
          (_save_conflict (ds_db st) (id entry_a) (id entry_b) similarity
             (cf_conflict_type conflict))
      else mkDetect (ds_conflicts st) processed_pairs (ds_db st).

(** [for i, entry_a in enumerate(entries): for entry_b in entries[i+1:]]. *)
Fixpoint detect_loop (y : Z) (l : list BudgetEntry) (st : detect_state)
    : detect_state :=
  match l with
  | [] => st
  | entry_a :: r =>
      detect_loop y r
        (fold_left (fun st entry_b => detect_pair y entry_a entry_b st) r st)
  end.

Definition detect_conflicts (db : Session) (y : Z)
    : exn + (list conflict * Session) :=
  if negb (has_kwota y) then inl AttributeError
  else
    let entries :=
      List.filter (fun e => OptimizationAgent.amount_positive (get_kwota e y))
        (entries db) in
    let st := detect_loop y entries (mkDetect [] ∅ db) in
    inr (sort_by (fun c d => Qle_bool (cf_similarity_score d) (cf_similarity_score c))
           (ds_conflicts st),
         ds_db st).

(** The dictionary [resolve_conflict] returns. *)
Inductive resolve_result :=
| Success (resolution : string)
| Failure (error : string).

(** The [for year in range(2025, 2030)] loop on the kept entry; the
    removed entry is read as it stands when the loop starts. *)
Definition consolidate_amounts (remove_entry keep_entry : BudgetEntry)
    : BudgetEntry :=
  fold_left
    (fun keep y =>
       let keep_amount := kwota_or0 keep y in
       let remove_amount := kwota_or0 remove_entry y in
       let consolidated := ((keep_amount + remove_amount) * (85 # 100))%Q in
       set_kwota y (Some consolidated) keep)
    [2025; 2026; 2027; 2028; 2029] keep_entry.

Definition resolve_conflict (db : Session) (conflict_id : Z)
    (resolution : string) (keep_entry_id : option Z) (notes : option string)
    : resolve_result * Session :=
  match List.find (fun c => c_id c =? conflict_id) (conflicts db) with
  | None => (Failure "Nie znaleziono konfliktu", db)
  | Some conflict =>
    let resolved (db : Session) :=
      (Success resolution,
       with_conflicts
         (List.map
            (fun c =>
               if c_id c =? conflict_id
               then mkBudgetConflict (c_id c) (entry_a_id c) (entry_b_id c)
                      (conflict_type c) (similarity_score c) (Some "resolved")
                      (Some (str_or notes resolution))
               else c)
            (conflicts db))
         db) in
    if String.eqb resolution "consolidate" then
      if negb (truthy_int keep_entry_id)
      then (Failure "Nie wskazano pozycji do zachowania", db)
      else
        let keep_id := default 0 keep_entry_id in
        let remove_id :=
          if opt_eqb keep_entry_id (entry_a_id conflict)
          then entry_b_id conflict else entry_a_id conflict in
        let keep_entry := first_entry keep_id (entries db) in
        let remove_entry :=
          match remove_id with
          | Some r => first_entry r (entries db)
          | None => None
          end in
        match keep_entry, remove_entry, remove_id with
        | Some _, Some remove_entry, Some r =>
            let rows := entries db in
            let rows := update_entry keep_id (consolidate_amounts remove_entry) rows in
            let rows :=
              update_entry keep_id
                (append_uwagi (nl +:+ "[SKONSOLIDOWANO z pozycji " +:+ pretty r +:+ "]"))
                rows in
            let rows :=
              update_entry r
                (fun e => with_kwota_2027 (Some 0%Q)
                            (with_kwota_2026 (Some 0%Q)
                               (with_kwota_2025 (Some 0%Q) e)))
                rows in
            let rows :=
              update_entry r
                (append_uwagi (nl +:+ "[PRZENIESIONO do pozycji " +:+ pretty keep_id +:+ "]"))
                rows in
            resolved (with_entries rows db)
        | _, _, _ => resolved db
        end
    else resolved db
  end.

(** A reported pair: two of the walked entries, from two departments. *)
Definition pair_of (l : list BudgetEntry) (c : conflict) : Prop :=
  exists ea eb,
    In ea l /\ In eb l /\
    id ea = cf_entry_a_id c /\ id eb = cf_entry_b_id c /\
    department_id ea <> department_id eb.

(** Entries for worked examples. *)
Definition entry_tide : BudgetEntry :=
  OptimizationAgent.example_entry 1 1 "tide" (100 # 1) "niski" false.

Definition entry_diet : BudgetEntry :=
  OptimizationAgent.example_entry 2 2 "diet" (50 # 1) "niski" false.

Definition entry_papier_a : BudgetEntry :=
  OptimizationAgent.example_entry 1 1 "Zakup papieru" (100 # 1) "niski" false.

Definition entry_papier_b : BudgetEntry :=
  OptimizationAgent.example_entry 2 2 "Zakup papieru" (50 # 1) "niski" false.

Definition entry_office_a : BudgetEntry :=
  OptimizationAgent.example_entry 1 1 "Licencje Office" (100 # 1) "niski" false.

Definition entry_office_b : BudgetEntry :=
  OptimizationAgent.example_entry 2 2 "Licencje Office" (50 # 1) "niski" false.

(** Two departments name the same task in capitals. *)
Definition entry_ochrona_a : BudgetEntry :=
  OptimizationAgent.example_entry 1 1 "BEZPIECZEŃSTWO" (100 # 1) "niski" false.

Definition entry_ochrona_b : BudgetEntry :=
  OptimizationAgent.example_entry 2 2 "BEZPIECZEŃSTWO" (50 # 1) "niski" false.

(** A store with the two Office entries and their conflict, pending. *)
Definition example_conflict_db : Session :=
  mkSession [entry_office_a; entry_office_b]
    [ mkDepartment 1 "DA" "Departament A" None;
      mkDepartment 2 "DB" "Departament B" None ]
    [ mkBudgetConflict 1 (Some 1) (Some 2) (Some "duplicate") (Some 1%Q)
        (Some "pending") None ]
    [].

End ConflictAgent.

(** ** agents/forecaster_agent.py *)
Module ForecasterAgent.
Import Py Models.

(** [self.growth_factors.get(category, 1.03)]. *)
Definition growth_factors (category : string) : Q :=
  if String.eqb category "cybersecurity" then 115 # 100
  else if String.eqb category "digital_transformation" then 120 # 100
  else if String.eqb category "maintenance" then 102 # 100
  else if String.eqb category "contracts" then 1
  else if String.eqb category "staff" then 103 # 100
  else 103 # 100.

(** [self.category_keywords], keys in source order, keywords as the
    source file spells them. *)
Definition category_keywords : list (string * list string) :=
  [ ("cybersecurity", ["cyber"; "bezpieczestwo"; "CSIRT"; "security"; "SOC"]);
    ("digital_transformation",
       ["transformacja"; "cyfryzacja"; "digitalizacja"; "eIDAS"]);
    ("maintenance", ["utrzymanie"; "maintenance"; "bie偶ce"; "eksploatacja"]);
    ("contracts", ["umowa"; "contract"; "COI"; "realizacja"]);
    ("staff", ["wynagrodzenia"; "personal"; "kadry"; "ZUS"]) ].

(** The dataclass [ForecastResult]; a risk factor carries the percentage
    its text prints. *)
Record ForecastResult := mkForecast {
  f_year : Z;
  predicted_total : Q;
  confidence : Q;
  breakdown : list (string * Q);
  trend : string;
  risk_factors : list Q
}.

(** A dictionary with string keys, in insertion order. *)
Definition dict_get (d : list (string * Q)) (k : string) (dflt : Q) : Q :=
  match List.find (fun kv => String.eqb (fst kv) k) d with
  | Some kv => snd kv
  | None => dflt
  end.

Fixpoint dict_set (d : list (string * Q)) (k : string) (v : Q)
    : list (string * Q) :=
  match d with
  | [] => [(k, v)]
  | kv :: r => if String.eqb (fst kv) k then (k, v) :: r else kv :: dict_set r k v
  end.

Record year_data := mkYearData {
  yd_year : Z;
  yd_total : Q;
  yd_entries_count : nat;
  yd_by_category : list (string * Q);
  yd_by_department : list (string * Q);
  yd_obligatory_total : Q;
  yd_entries : list BudgetEntry
}.

Definition _categorize_entry (e : BudgetEntry) : string :=
  let text :=
    lower (join_space
      [ str_or (nazwa_zadania e) ""; str_or (opis_projektu e) "";
        str_or (szczegolowe_uzasadnienie e) "" ]) in
  match List.find
          (fun kv => existsb (fun kw => contains (lower kw) text) (snd kv))
          category_keywords with
  | Some kv => fst kv
  | None => "other"
  end.

Definition positive_entries (db : Session) (y : Z) : list BudgetEntry :=
  List.filter (fun e => OptimizationAgent.amount_positive (get_kwota e y))
    (entries db).

Definition sum_Q (l : list Q) : Q := fold_left Qplus l 0%Q.

Definition _get_year_data (db : Session) (y : Z) : exn + year_data :=
  if negb (has_kwota y) then inl AttributeError
  else
    let entries := positive_entries db y in
    let categorized :=
      List.map (fun kv => (fst kv, 0%Q)) category_keywords ++ [("other", 0%Q)] in
    let '(categorized, by_department) :=
      fold_left
        (fun '(categorized, by_department) e =>
           let amount := kwota_or0 e y in
           let category := _categorize_entry e in
           let dept_code :=
             match department_of db e with
             | Some d => code d
             | None => "UNKNOWN"
             end in
           (dict_set categorized category
              (dict_get categorized category 0 + amount)%Q,
            dict_set by_department dept_code
              (dict_get by_department dept_code 0 + amount)%Q))
        entries (categorized, []) in
    inr (mkYearData y
           (sum_Q (List.map (fun e => kwota_or0 e y) entries))
           (length entries) categorized by_department
           (sum_Q (List.map (fun e => kwota_or0 e y)
                     (List.filter (fun e => truthy_bool (is_obligatory e)) entries)))
           entries).

(** [growth ** offset] for the offsets [range(1, n + 1)] produces, as an
    exact power: the float power of Python overflows for large offsets
    (for the factor 1.2 from offset 3894 on). *)
Definition pow (growth : Q) (offset : Z) : Q := Qpower growth offset.

Definition _forecast_year (base_data : year_data) (y offset : Z)
    : ForecastResult :=
  let predicted_by_category :=
    List.map
      (fun kv => (fst kv, (snd kv * pow (growth_factors (fst kv)) offset)%Q))
      (yd_by_category base_data) in
  let risk_factors :=
    flat_map
      (fun kv =>
         if String.eqb (fst kv) "cybersecurity" && (2 <=? offset)
         then [((pow (growth_factors (fst kv)) offset - 1) * 100)%Q]
         else [])
      (yd_by_category base_data) in
  let total_predicted := sum_Q (List.map snd predicted_by_category) in
  let confidence := Qmax (1 # 2) (1 - inject_Z offset * (15 # 100))%Q in
  let trend :=
    if Qgtb total_predicted (yd_total base_data * (11 # 10))%Q then "increasing"
    else if Qltb total_predicted (yd_total base_data * (9 # 10))%Q then "decreasing"
    else "stable" in
  let total_base := yd_total base_data in
  let dept_breakdown :=
    List.map
      (fun kv =>
         if Qgtb total_base 0
         then (fst kv, (total_predicted * (snd kv / total_base))%Q)
         else (fst kv, 0%Q))
      (yd_by_department base_data) in
  mkForecast y total_predicted confidence dept_breakdown trend risk_factors.

(** The dictionary [_forecast_to_dict] builds. *)
Record forecast_dict := mkForecastDict {
  fd_year : Z;
  fd_predicted_total : Q;
  fd_confidence : Q;
  fd_trend : string;
  fd_department_breakdown : list (string * Q);
  fd_risk_factors : list Q
}.

Definition _forecast_to_dict (forecast : ForecastResult) : forecast_dict :=
  mkForecastDict (f_year forecast)
    (round_ndigits (predicted_total forecast) 0)
    (round_ndigits (confidence forecast) 2)
    (trend forecast)
    (List.map (fun kv => (fst kv, round_ndigits (snd kv) 0)) (breakdown forecast))
    (risk_factors forecast).

(** [range(1, n + 1)]. *)
Definition range1 (n : Z) : list Z :=
  List.map (fun k => Z.of_nat k) (seq 1 (Z.to_nat n)).

(** The dictionary [forecast_budget] returns, without the trend analysis,
    the recommendations and the time stamp. *)
Record budget_forecast := mkBudgetForecast {
  bf_base_year : Z;
  bf_base_total : Q;
  bf_forecasts : list forecast_dict
}.

Definition forecast_budget (db : Session) (base_year forecast_years : Z)
    : exn + budget_forecast :=
  match _get_year_data db base_year with
  | inl x => inl x
  | inr base_data =>
      let forecasts :=
        List.map
          (fun offset => _forecast_year base_data (base_year + offset) offset)
          (range1 forecast_years) in
      inr (mkBudgetForecast base_year (yd_total base_data)
             (List.map _forecast_to_dict forecasts))
  end.

(** The confidence [_forecast_year] gives to the year at [offset]. *)
Definition confidence_at (offset : Z) : Q :=
  Qmax (1 # 2) (1 - inject_Z offset * (15 # 100))%Q.

(** The ["confidence"] values of the forecasts, in order. *)
Definition confidences (r : budget_forecast) : list Q :=
  List.map fd_confidence (bf_forecasts r).

(** An element of the list [detect_anomalies] returns, without its
    texts. *)
Record anomaly := mkAnomaly {
  a_type : string;
  a_severity : string;
  a_entry_id : Z;
  a_task : option string
}.

Section DetectAnomalies.
(** [math.sqrt] on floats, which rational arithmetic cannot compute. *)
Variable sqrt : Q -> Q.

Definition mean_of (amounts : list Q) : Q :=
  (sum_Q amounts / inject_Z (Z.of_nat (length amounts)))%Q.

Definition variance_of (amounts : list Q) : Q :=
  let mean := mean_of amounts in
  (sum_Q (List.map (fun x => Qpower (x - mean) 2) amounts)
     / inject_Z (Z.of_nat (length amounts)))%Q.

Definition std_dev_of (amounts : list Q) : Q :=
  let variance := variance_of amounts in
  if Qgtb variance 0 then sqrt variance else 1%Q.

Definition z_score_of (mean std_dev amount : Q) : Q :=
  if Qgtb std_dev 0 then ((amount - mean) / std_dev)%Q else 0%Q.

(** The body of the [for entry in entries] loop: what one entry
    appends to [anomalies]. *)
Definition anomalies_of (y : Z) (mean std_dev : Q) (e : BudgetEntry)
    : list anomaly :=
  let amount := kwota_or0 e y in
  let z_score := z_score_of mean std_dev amount in
  let task :=
    if truthy_str (nazwa_zadania e) then nazwa_zadania e else opis_projektu e in
  let outlier :=
    if Qgtb (Qabs z_score) 3
    then [mkAnomaly "outlier" (if Qgtb z_score 4 then "high" else "medium")
            (id e) task]
    else [] in
  let missing :=
    if Qgtb amount 10000 && negb (truthy_str (szczegolowe_uzasadnienie e))
    then [mkAnomaly "missing_justification" "medium" (id e) task]
    else [] in
  let mismatch :=
    match paragraf e with
    | Some p =>
      if negb (p =? 0) then
        let is_investment := (600 <=? p) && (p <? 700) in
        let text :=
          lower (str_or (nazwa_zadania e) (str_or (opis_projektu e) "")) in
        let has_investment_keyword :=
          any_in ["zakup"; "budowa"; "inwestycja"; "sprzt"] text in
        if is_investment && negb has_investment_keyword
        then [mkAnomaly "classification_mismatch" "low" (id e) task]
        else []
      else []
    | None => []
    end in
  outlier ++ missing ++ mismatch.

Definition detect_anomalies (db : Session) (y : Z) : exn + list anomaly :=
  if negb (has_kwota y) then inl AttributeError
  else
    let entries := positive_entries db y in
    match entries with
    | [] => inr []
    | _ =>
        let amounts := List.map (fun e => kwota_or0 e y) entries in
        let mean := mean_of amounts in
        let std_dev := std_dev_of amounts in
        inr (flat_map (anomalies_of y mean std_dev) entries)
    end.

End DetectAnomalies.

(** [entry.nazwa_zadania or entry.opis_projektu]. *)
Definition task_of (e : BudgetEntry) : option string :=
  if truthy_str (nazwa_zadania e) then nazwa_zadania e else opis_projektu e.

(** The outlier record of an entry. *)
Definition outlier_of (e : BudgetEntry) (severity : string) : anomaly :=
  mkAnomaly "outlier" severity (id e) (task_of e).



(** A square root on rationals for worked examples: exact on the squares
    of rationals, where [math.sqrt] is exact too when the numbers are
    small integers. *)
Definition sqrt_exact (q : Q) : Q :=
  Z.sqrt (Qnum q * Zpos (Qden q)) # Qden q.

End ForecasterAgent.

(** ** Notions used to state properties of the agents *)
Module Notions.
Import Py Models.

(** Adjacent elements of [l] are in the order [leb]. *)
Fixpoint sorted_by {A} (leb : A -> A -> bool) (l : list A) : Prop :=
  match l with
  | [] => True
  | x :: r =>
      match r with
      | [] => True
      | y :: _ => leb x y = true /\ sorted_by leb r
      end
  end.

(** The sum of the five yearly amounts of an entry. *)
Definition five_year_total (e : BudgetEntry) : Q :=
  (kwota_or0 e 2025 + kwota_or0 e 2026 + kwota_or0 e 2027 +
   kwota_or0 e 2028 + kwota_or0 e 2029)%Q.

(** An entry of an unknown paragraph code. *)
Definition entry_unknown_paragraf : BudgetEntry :=
  mkBudgetEntry 3 (Some 9999) None (Some 1) None
    (Some "Zakup papieru") None (Some (100 # 1)%Q) None None None None
    (Some "niski") (Some "draft") (Some false) None None None None.

(** The ["suggestions"] and ["protected_items"] of what
    [generate_cut_suggestions] returns; nothing when it raised. *)
Definition result_suggestions (r : exn + OptimizationAgent.cut_suggestions)
    : list OptimizationAgent.suggestion :=
  match r with
  | inr c => OptimizationAgent.suggestions_of c
  | inl _ => []
  end.

Definition result_protected (r : exn + OptimizationAgent.cut_suggestions)
    : list OptimizationAgent.protected_item :=
  match r with
  | inr (OptimizationAgent.Cuts _ _ _ _ _ l) => l
  | _ => []
  end.

(** A store with one entry that plans 30 for 2028 and 40 for 2029. *)
Definition deferral_db : Session :=
  mkSession
    [ mkBudgetEntry 1 (Some 4300) None (Some 1) None (Some "Szkolenie") None
        None None None (Some (30 # 1)%Q) (Some (40 # 1)%Q)
        (Some "niski") (Some "draft") (Some false) None None None None ]
    [ mkDepartment 1 "DA" "Departament A" None ] [] [].

(** What [detect_conflicts] returns and the store it leaves; nothing and
    no store when it raised. *)
Definition reported_conflicts (r : exn + (list ConflictAgent.conflict * Session))
    : list ConflictAgent.conflict :=
  match r with inr (l, _) => l | inl _ => [] end.

Definition store_after (r : exn + (list ConflictAgent.conflict * Session))
    : option Session :=
  match r with inr (_, db) => Some db | inl _ => None end.

(** The unordered pair of entries of a reported conflict: the key of
    [processed_pairs]. *)
Definition pair_key (c : ConflictAgent.conflict) : Z * Z :=
  (Z.min (ConflictAgent.cf_entry_a_id c) (ConflictAgent.cf_entry_b_id c),
   Z.max (ConflictAgent.cf_entry_a_id c) (ConflictAgent.cf_entry_b_id c)).

(** The filter of [_save_conflict]: the row is about the two entries, in
    either order. *)
Definition same_pair (a b : Z) (c : BudgetConflict) : bool :=
  (ConflictAgent.opt_eqb (entry_a_id c) (Some a) &&
   ConflictAgent.opt_eqb (entry_b_id c) (Some b)) ||
  (ConflictAgent.opt_eqb (entry_a_id c) (Some b) &&
   ConflictAgent.opt_eqb (entry_b_id c) (Some a)).

(** What a conflict row is about and how it was resolved: all of it but
    the score and the type. *)
Definition row_identity (c : BudgetConflict)
    : Z * option Z * option Z * option string * option string :=
  (c_id c, entry_a_id c, entry_b_id c, resolution_status c, resolution_notes c).

(** A conflict row after [resolve_conflict] marked it. *)
Definition resolved_row (notes : string) (c : BudgetConflict) : BudgetConflict :=
  mkBudgetConflict (c_id c) (entry_a_id c) (entry_b_id c) (conflict_type c)
    (similarity_score c) (Some "resolved") (Some notes).

(** The conflict [detect_conflicts] reports for the two Office entries. *)
Definition office_conflict : ConflictAgent.conflict :=
  ConflictAgent._create_conflict ConflictAgent.example_conflict_db
    ConflictAgent.entry_office_a ConflictAgent.entry_office_b
    (ConflictAgent._calculate_similarity ConflictAgent.entry_office_a
       ConflictAgent.entry_office_b)
    2025.

(** The store of the two Office entries and their conflict, with a third
    entry that is no part of the conflict. *)
Definition entry_remont : BudgetEntry :=
  OptimizationAgent.example_entry 3 3 "Remont dachu" (70 # 1) "niski" false.

Definition stranger_db : Session :=
  mkSession
    [ConflictAgent.entry_office_a; ConflictAgent.entry_office_b; entry_remont]
    [ mkDepartment 1 "DA" "Departament A" None;
      mkDepartment 2 "DB" "Departament B" None;
      mkDepartment 3 "DC" "Departament C" None ]
    [ mkBudgetConflict 1 (Some 1) (Some 2) (Some "duplicate") (Some 1%Q)
        (Some "pending") None ]
    [].

(** A match that lies in the columns from [blo] up to [bound]. *)
Definition within_b (blo bound : nat) (x : Difflib.Match) : Prop :=
  (blo <= Difflib.m_b x /\ Difflib.m_b x + Difflib.m_size x <= bound)%nat.

(** The rows, and the columns, that the ranges of a queue cover. *)
Definition span_a (queue : list (nat * nat * nat * nat)) : nat :=
  list_sum (List.map (fun q => (q.1.1.2 - q.1.1.1)%nat) queue).

Definition span_b (queue : list (nat * nat * nat * nat)) : nat :=
  list_sum (List.map (fun q => (q.2 - q.1.2)%nat) queue).

Definition ordered_ab (q : nat * nat * nat * nat) : Prop :=
  (q.1.1.1 <= q.1.1.2 /\ q.1.2 <= q.2)%nat.

(** The sum of the sizes of a list of matches. *)
Definition matched (blocks : list Difflib.Match) : nat :=
  list_sum (List.map Difflib.m_size blocks).

End Notions.

(** ** main.py: the checks of the two submission endpoints *)
Module Main.
Import Py Models ComplianceAgent.

(** Truthiness of a nullable float. *)
Definition truthy_num (x : option Q) : bool :=
  match x with Some q => negb (Qeqb q 0) | None => false end.

(** The messages of the [errors] list of [submit_entry_with_validation]. *)
Inductive submit_error :=
| Brak_nazwy_zadania_lub_opisu
| Brak_paragrafu_klasyfikacji
| Brak_kwot_finansowych.

(** The outcomes of [submit_entry_with_validation] once the entry is found
    and its department is neither locked nor past its deadline: the two
    HTTP 400 errors and the success. *)
Inductive submit_outcome :=
| Validation_failed (score : Z) (errors : list warning)
    (corrections : list correction)
| Missing_fields (errors : list submit_error)
| Submitted (score : Z).

Definition submit_errors (e : BudgetEntry) : list submit_error :=
  (if negb (truthy_str (nazwa_zadania e)) && negb (truthy_str (opis_projektu e))
   then [Brak_nazwy_zadania_lub_opisu] else []) ++
  (if negb (truthy_int (paragraf e)) then [Brak_paragrafu_klasyfikacji] else []) ++
  (if negb (truthy_num (kwota_2025 e)) && negb (truthy_num (kwota_2026 e)) &&
      negb (truthy_num (kwota_2027 e))
   then [Brak_kwot_finansowych] else []).

(** [submit_entry_with_validation], from the call of the compliance agent
    on. *)
Definition submit_entry_checks (e : BudgetEntry) : submit_outcome :=
  let validation := validate_entry e in
  if compliance_score validation <? 50
  then Validation_failed (compliance_score validation) (warnings validation)
         (auto_corrections validation)
  else
    let errors := submit_errors e in
    if negb (is_nil errors) then Missing_fields errors
    else Submitted (compliance_score validation).

(** The condition under which the loop of [submit_all_department_entries]
    submits an entry. *)
Definition submit_all_accepts (e : BudgetEntry) : bool :=
  let validation := validate_entry e in
  (50 <=? compliance_score validation) &&
  (truthy_str (nazwa_zadania e) || truthy_str (opis_projektu e)) &&
  truthy_int (paragraf e).

(** A named entry with a paragraph and no amount at all. *)
Definition entry_without_amounts : BudgetEntry :=
  mkBudgetEntry 4 (Some 4300) None (Some 1) None
    (Some "Zakup papieru") None None None None None None
    (Some "niski") (Some "draft") (Some false) None None None None.

End Main.

(** ** Notions for the conflict detector *)
Module ConflictNotions.
Import Py Models ConflictAgent Notions.

(** What holds of the state of the two loops over the entries [l]. *)
Record detect_inv (y : Z) (db : Session) (l : list BudgetEntry)
    (st : detect_state) : Prop := {
  inv_entries : entries (ds_db st) = entries db;
  inv_departments : departments (ds_db st) = departments db;
  inv_limits : global_limits (ds_db st) = global_limits db;
  inv_rows :
    exists tail,
      List.map row_identity (conflicts (ds_db st)) =
        List.map row_identity (conflicts db) ++ tail;
  inv_processed :
    forall c, In c (ds_conflicts st) -> pair_key c ∈ ds_processed_pairs st;
  inv_nodup : List.NoDup (List.map pair_key (ds_conflicts st));
  inv_saved :
    forall c, In c (ds_conflicts st) ->
      exists row, In row (conflicts (ds_db st)) /\
                  same_pair (cf_entry_a_id c) (cf_entry_b_id c) row = true;
  inv_made :
    forall c, In c (ds_conflicts st) ->
      exists ea eb db0,
        In ea l /\ In eb l /\
        (SIMILARITY_THRESHOLD <= _calculate_similarity ea eb)%Q /\
        c = _create_conflict db0 ea eb (_calculate_similarity ea eb) y
}.

End ConflictNotions.

(** ** agents/forecaster_agent.py: [optimize_multi_year_allocation] *)
Module ForecasterAllocation.
Import Py Models ForecasterAgent.

(** The exceptions of this function: the [getattr] of a year without a
    column, and a missing key of [allocation]. *)
Inductive alloc_exn := Attribute_error | Key_error.

(** [min(x, y)]: the first argument unless the second is smaller. *)
Definition Qmin (x y : Q) : Q := if Qltb y x then y else x.

(** A value of the dictionary [allocation]. *)
Record year_allocation := mkAllocation {
  al_limit : Q;
  al_non_deferrable : Q;
  al_deferrable_requested : Q;
  al_deferrable_allocated : Q;
  al_total_allocated : Q;
  al_gap : Q;
  al_surplus : Q
}.

(** An element of [suggested_shifts], without its text. *)
Record shift := mkShift {
  sh_from_year : Z;
  sh_to_year : Z;
  sh_amount : Q
}.

(** The dictionary the function returns; the summary text prints the
    number of years. *)
Record allocation_result := mkAllocationResult {
  allocation : list (Z * year_allocation);
  suggested_shifts : list shift;
  summary_years : nat
}.

(** [entry.is_obligatory or entry.priority == PriorityLevel.OBOWIAZKOWY]. *)
Definition non_deferrable_entry (e : BudgetEntry) : bool :=
  truthy_bool (is_obligatory e) ||
  match priority e with
  | Some p => String.eqb p "obowiązkowy"
  | None => false
  end.

(** [sum(getattr(e, f"kwota_{year}") or 0 for e in l)]: the attribute is
    only looked up when there is an entry. *)
Definition year_sum (y : Z) (l : list BudgetEntry) : alloc_exn + Q :=
  match l with
  | [] => inr 0%Q
  | _ =>
      if has_kwota y then inr (sum_Q (List.map (fun e => kwota_or0 e y) l))
      else inl Attribute_error
  end.

(** The body of the loop over [total_limit.items()]. *)
Definition allocation_of (non_deferrable deferrable : list BudgetEntry)
    (y : Z) (limit : Q) : alloc_exn + year_allocation :=
  match year_sum y non_deferrable with
  | inl x => inl x
  | inr year_non_def =>
      let remaining := (limit - year_non_def)%Q in
      match year_sum y deferrable with
      | inl x => inl x
      | inr year_def =>
          inr (mkAllocation limit year_non_def year_def
                 (Qmin year_def (Qmax 0 remaining))
                 (year_non_def + Qmin year_def (Qmax 0 remaining))%Q
                 (Qmax 0 (year_non_def + year_def - limit)%Q)
                 (Qmax 0 (remaining - year_def)%Q))
      end
  end.

(** The loop that fills [allocation]; [total_limit] is a dictionary, its
    items come in insertion order and its keys are distinct. *)
Fixpoint allocate (non_deferrable deferrable : list BudgetEntry)
    (items : list (Z * Q)) : alloc_exn + list (Z * year_allocation) :=
  match items with
  | [] => inr []
  | (y, limit) :: r =>
      match allocation_of non_deferrable deferrable y limit with
      | inl x => inl x
      | inr row =>
          match allocate non_deferrable deferrable r with
          | inl x => inl x
          | inr rows => inr ((y, row) :: rows)
          end
      end
  end.

(** [allocation[year]]. *)
Definition alloc_get (rows : list (Z * year_allocation)) (y : Z)
    : option year_allocation :=
  option_map snd (List.find (fun kv => fst kv =? y) rows).

(** [for i, year in enumerate(years[:-1])]: the loop over the pairs of
    neighbouring years; the second lookup happens only when the first
    test holds. *)
Fixpoint shifts_loop (rows : list (Z * year_allocation)) (years : list Z)
    : alloc_exn + list shift :=
  match years with
  | year :: rest =>
      match rest with
      | next_year :: _ =>
          match alloc_get rows year with
          | None => inl Key_error
          | Some r =>
              let found : alloc_exn + list shift :=
                if Qgtb (al_gap r) 0 then
                  match alloc_get rows next_year with
                  | None => inl Key_error
                  | Some r' =>
                      if Qgtb (al_surplus r') 0
                      then inr [mkShift year next_year
                                  (Qmin (al_gap r) (al_surplus r'))]
                      else inr []
                  end
                else inr [] in
              match found with
              | inl x => inl x
              | inr l =>
                  match shifts_loop rows rest with
                  | inl x => inl x
                  | inr l' => inr (l ++ l')
                  end
              end
          end
      | [] => inr []
      end
  | [] => inr []
  end.

Definition optimize_multi_year_allocation (db : Session)
    (total_limit : list (Z * Q)) : alloc_exn + allocation_result :=
  let deferrable :=
    List.filter (fun e => negb (non_deferrable_entry e)) (entries db) in
  let non_deferrable := List.filter non_deferrable_entry (entries db) in
  match allocate non_deferrable deferrable total_limit with
  | inl x => inl x
  | inr rows =>
      let years := sort_by Z.leb (List.map fst total_limit) in
      match shifts_loop rows years with
      | inl x => inl x
      | inr shifts =>
          inr (mkAllocationResult rows shifts (length total_limit))
      end
  end.

(** Two neighbours of a list. *)
Definition neighbours (years : list Z) (y z : Z) : Prop :=
  exists before after, years = before ++ y :: z :: after.

(** What holds of every row of the allocation. *)
Record row_ok (limit : Q) (row : year_allocation) : Prop := {
  ok_limit : al_limit row = limit;
  ok_total :
    al_total_allocated row =
      (al_non_deferrable row + al_deferrable_allocated row)%Q;
  ok_allocated : (al_deferrable_allocated row <= al_deferrable_requested row)%Q;
  ok_gap : (0 <= al_gap row)%Q;
  ok_surplus : (0 <= al_surplus row)%Q;
  ok_exclusive : (al_gap row * al_surplus row == 0)%Q;
  ok_gap_value :
    (0 < al_gap row)%Q ->
    (al_gap row ==
     al_non_deferrable row + al_deferrable_requested row - limit)%Q;
  ok_surplus_value :
    (0 < al_surplus row)%Q ->
    (al_surplus row ==
     limit - al_non_deferrable row - al_deferrable_requested row)%Q;
  ok_within :
    (al_non_deferrable row <= limit)%Q ->
    (al_total_allocated row <= limit)%Q /\
    (al_total_allocated row + al_gap row ==
     al_non_deferrable row + al_deferrable_requested row)%Q
}.

(** What holds of a suggested shift. *)
Record shift_ok (rows : list (Z * year_allocation)) (years : list Z)
    (s : shift) : Prop := {
  so_neighbours : neighbours years (sh_from_year s) (sh_to_year s);
  so_rows :
    exists r r',
      alloc_get rows (sh_from_year s) = Some r /\
      alloc_get rows (sh_to_year s) = Some r' /\
      (0 < sh_amount s)%Q /\
      (sh_amount s <= al_gap r)%Q /\ (sh_amount s <= al_surplus r')%Q /\
      (sh_amount s = al_gap r \/ sh_amount s = al_surplus r')
}.

(** The limits of a worked example: 150 for 2025 and 300 for 2026. *)
Definition example_limits : list (Z * Q) :=
  [(2026, (300 # 1)%Q); (2025, (150 # 1)%Q)].

End ForecasterAllocation.

(** ** agents/orchestrator_agent.py: [initialize_workflow] *)
Module OrchestratorAgent.
Import Py Models.

(** The dataclass [WorkflowState]; [blocking_issues] and
    [recommendations], which [initialize_workflow] leaves empty, are left
    out. *)
Record WorkflowState := mkWorkflowState {
  current_phase : string;
  ws_year : Z;
  global_limit : Q;
  total_requests : Q;
  variance : Q;
  departments_completed : list string;
  departments_pending : list string
}.

(** [e.status in [BudgetStatus.SUBMITTED, BudgetStatus.APPROVED]]. *)
Definition submitted_or_approved (e : BudgetEntry) : bool :=
  match status e with
  | Some s => String.eqb s "submitted" || String.eqb s "approved"
  | None => false
  end.

(** The entries of a department. *)
Definition entries_of (db : Session) (dept : Department) : list BudgetEntry :=
  List.filter
    (fun e => match department_id e with
              | Some d => d =? d_id dept
              | None => false
              end)
    (entries db).

(** The loop over the departments, from the state [(completed, pending)]. *)
Definition sort_departments (db : Session) : list string * list string :=
  fold_left
    (fun '(completed, pending) dept =>
       if forallb submitted_or_approved (entries_of db dept)
       then (completed ++ [code dept], pending)
       else (completed, pending ++ [code dept]))
    (departments db) ([], []).

Definition initialize_workflow (db : Session) (y : Z) : exn + WorkflowState :=
  let global_limit :=
    match List.find (fun g => year g =? y) (global_limits db) with
    | Some limit => total_limit limit
    | None => 0%Q
    end in
  if negb (has_kwota y) then inl AttributeError
  else
    let total := OptimizationAgent.year_total db y in
    let '(completed, pending) := sort_departments db in
    let phase :=
      if (length completed <? length pending)%nat then "collection"
      else if Qgtb total global_limit then "cutting"
      else if (length pending =? 0)%nat then "finalization"
      else "approval" in
    inr (mkWorkflowState phase y global_limit total (total - global_limit)%Q
           completed pending).

(** A store over its limit whose only department has submitted. *)
Definition submitted_db : Session :=
  mkSession
    [ mkBudgetEntry 1 (Some 4300) None (Some 1) None (Some "Zakup papieru") None
        (Some (200 # 1)%Q) None None None None
        (Some "niski") (Some "submitted") (Some false) None None None None ]
    [ mkDepartment 1 "DA" "Departament A" None ]
    []
    [ mkGlobalLimit 2025 (150 # 1) ].

End OrchestratorAgent.

(** * Properties *)

(** ** Facts about the built-ins *)
Module PyFacts.
Import Py.

(** Text outside ASCII: Polish capitals, the Greek final sigma, the
    capital I with a dot, which becomes two code points. *)
Example lower_examples :
  lower "ZAKUP SPRZĘTU" = "zakup sprzętu" /\
  lower "BEZPIECZEŃSTWO" = "bezpieczeństwo" /\
  lower "ΟΔΟΣ ΣΑΣ" = "οδος σας" /\
  lower_points false [304]%N = [105; 775]%N.
Proof. repeat split; vm_compute; reflexivity. Qed.

(** A dash is no word character, a no-break space (U+00A0) is a space, and
    a slice counts characters. *)
Example classes_examples :
  strip (sub_spaces (sub_nonword "  zażółć – gęślą jaźń  ")) =
    "zażółć gęślą jaźń" /\
  sub_spaces (of_code_points [97; 160; 9; 98]%N) = "a b" /\
  take_str 3 "żółw" = "żół" /\
  code_points "żółw" = [380; 243; 322; 119]%N /\
  of_code_points (code_points "żółw") = "żółw".
Proof. repeat split; vm_compute; reflexivity. Qed.

Lemma Qltb_lt x y : Qltb x y = true <-> (x < y)%Q.
Proof.
  unfold Qltb. rewrite negb_true_iff. split.
  - intros Hb. apply Qnot_le_lt. intros Hle.
    apply Qle_bool_iff in Hle. congruence.
  - intros Hlt. destruct (Qle_bool y x) eqn:E; [|reflexivity].
    apply Qle_bool_iff in E. exfalso. exact (Qlt_not_le _ _ Hlt E).
Qed.

Lemma Qgtb_gt x y : Qgtb x y = true <-> (y < x)%Q.
Proof. apply Qltb_lt. Qed.

Lemma Qgeb_ge x y : Qgeb x y = true <-> (y <= x)%Q.
Proof. apply Qle_bool_iff. Qed.

Lemma Qltb_ge x y : Qltb x y = false <-> (y <= x)%Q.
Proof. unfold Qltb. rewrite negb_false_iff. apply Qle_bool_iff. Qed.

Lemma Qle_bool_false x y : Qle_bool x y = false <-> (y < x)%Q.
Proof.
  rewrite <- Qltb_lt. unfold Qltb. now rewrite negb_true_iff.
Qed.

Lemma any_in_first kws s :
  any_in kws s = true -> exists kw, first_in kws s = Some kw.
Proof.
  unfold any_in, first_in.
  induction kws as [|k kws IH]; simpl; [discriminate|].
  destruct (contains k s); [eauto|]. exact IH.
Qed.

Lemma first_in_spec kws s kw :
  first_in kws s = Some kw -> In kw kws /\ contains kw s = true.
Proof.
  unfold first_in. intros Hf. apply List.find_some in Hf. exact Hf.
Qed.

Lemma In_any_in kws s kw :
  In kw kws -> contains kw s = true -> any_in kws s = true.
Proof.
  intros Hin Hc. unfold any_in. apply existsb_exists. eauto.
Qed.

(** [sort_by] rearranges, it neither drops nor invents elements. *)
Lemma insert_by_perm {A} (leb : A -> A -> bool) x l :
  Permutation (x :: l) (insert_by leb x l).
Proof.
  induction l as [|y l IH]; simpl; [reflexivity|].
  destruct (leb x y); [reflexivity|].
  rewrite perm_swap. now apply perm_skip.
Qed.

Lemma sort_by_perm {A} (leb : A -> A -> bool) l :
  Permutation l (sort_by leb l).
Proof.
  induction l as [|x l IH]; simpl; [reflexivity|].
  etransitivity; [apply perm_skip, IH|]. apply insert_by_perm.
Qed.

Lemma sort_by_In {A} (leb : A -> A -> bool) l x :
  In x (sort_by leb l) <-> In x l.
Proof.
  split; apply Permutation_in; [symmetry|]; apply sort_by_perm.
Qed.

End PyFacts.

(** ** Facts about the tables *)
Module ModelsFacts.
Import Py Models.

Lemma get_kwota_has e y :
  has_kwota y = true -> exists v, get_kwota e y = Some v.
Proof.
  unfold has_kwota, get_kwota. intros Hy.
  apply andb_true_iff in Hy as [Hlo Hhi].
  apply Z.leb_le in Hlo, Hhi.
  destruct (y =? 2025) eqn:E5; [eauto|]. destruct (y =? 2026) eqn:E6; [eauto|].
  destruct (y =? 2027) eqn:E7; [eauto|]. destruct (y =? 2028) eqn:E8; [eauto|].
  destruct (y =? 2029) eqn:E9; [eauto|].
  apply Z.eqb_neq in E5, E6, E7, E8, E9. lia.
Qed.

Lemma get_kwota_none e y : has_kwota y = false -> get_kwota e y = None.
Proof.
  unfold has_kwota, get_kwota. intros Hy.
  destruct (y =? 2025) eqn:E5; [apply Z.eqb_eq in E5; subst; discriminate|].
  destruct (y =? 2026) eqn:E6; [apply Z.eqb_eq in E6; subst; discriminate|].
  destruct (y =? 2027) eqn:E7; [apply Z.eqb_eq in E7; subst; discriminate|].
  destruct (y =? 2028) eqn:E8; [apply Z.eqb_eq in E8; subst; discriminate|].
  destruct (y =? 2029) eqn:E9; [apply Z.eqb_eq in E9; subst; discriminate|].
  reflexivity.
Qed.

Lemma first_entry_id i rows e : first_entry i rows = Some e -> id e = i.
Proof.
  unfold first_entry. intros Hf. apply List.find_some in Hf as [_ Hid].
  now apply Z.eqb_eq in Hid.
Qed.

(** Looking up a row after an update that keeps identifiers. *)
Lemma first_entry_update i j f rows :
  (forall e, id (f e) = id e) ->
  first_entry i (update_entry j f rows) =
    if i =? j then option_map f (first_entry i rows) else first_entry i rows.
Proof.
  intros Hf. unfold first_entry, update_entry.
  induction rows as [|e rows IH]; simpl.
  - now destruct (i =? j).
  - destruct (id e =? j) eqn:Ej.
    + rewrite Hf. apply Z.eqb_eq in Ej.
      destruct (id e =? i) eqn:Ei.
      * apply Z.eqb_eq in Ei. assert (i = j) as -> by lia.
        now rewrite Z.eqb_refl.
      * rewrite IH. reflexivity.
    + destruct (id e =? i) eqn:Ei.
      * apply Z.eqb_eq in Ei. apply Z.eqb_neq in Ej.
        assert ((i =? j) = false) as -> by (apply Z.eqb_neq; lia). reflexivity.
      * exact IH.
Qed.

Lemma map_update_entry {B} (g : BudgetEntry -> B) i f rows :
  (forall e, g (f e) = g e) ->
  List.map g (update_entry i f rows) = List.map g rows.
Proof.
  intros Hg. unfold update_entry. rewrite List.map_map.
  apply List.map_ext. intros e. destruct (id e =? i); [apply Hg|reflexivity].
Qed.

(** Marking the row of key [i] with a status: that row carries it, every
    other column of every row stays. *)
Lemma mark_status_spec i v rows entry :
  first_entry i rows = Some entry ->
  (exists entry',
     first_entry i (update_entry i (with_status v) rows) = Some entry' /\
     status entry' = v /\ same_but_status entry entry') /\
  List.map status (update_entry i (with_status v) rows) =
    List.map (fun e => if id e =? i then v else status e) rows /\
  List.Forall2 same_but_status rows (update_entry i (with_status v) rows).
Proof.
  intros Hfirst. split; [|split].
  - exists (with_status v entry). split; [|split].
    + rewrite first_entry_update by reflexivity.
      now rewrite Z.eqb_refl, Hfirst.
    + reflexivity.
    + unfold same_but_status. cbn. repeat split.
  - unfold update_entry. rewrite List.map_map. apply List.map_ext.
    intros e. now destruct (id e =? i).
  - unfold update_entry. clear Hfirst.
    induction rows as [|e rows IH]; cbn [List.map]; constructor; [|exact IH].
    destruct (id e =? i); unfold same_but_status; cbn; repeat split.
Qed.

End ModelsFacts.

(** ** The compliance checker *)
Module ComplianceAgentSpec.
Import Py Models ComplianceAgent.

Example match_bz_pattern_examples :
  match_bz_pattern "16.1.2.1" = true /\ match_bz_pattern "16.1.2.1." = true /\
  match_bz_pattern "16.1.2" = false /\ match_bz_pattern "16.1.2.x" = false /\
  match_bz_pattern "nd" = false.
Proof. repeat split; vm_compute; reflexivity. Qed.

(** [\d] takes the decimal digits of every script, and [$] a final
    newline. *)
Example match_bz_pattern_other_digits :
  match_bz_pattern "١٦.١.٢.١" = true /\
  match_bz_pattern ("16.1.2.1" +:+ nl) = true /\
  match_bz_pattern ("16.1.2.1" +:+ nl +:+ nl) = false.
Proof. repeat split; vm_compute; reflexivity. Qed.

(** Keywords are found in capitals too, the first of the list that
    occurs being the one named. *)
Example validate_entry_capitals :
  validate_entry entry_zakup =
    mkValidation true
      [Zakup_inwestycyjny "zakup sprzętu" "Zakup materiałów i wyposażenia" 4210]
      [mkCorrection "paragraf" (Some 4210) 6060 (Some "zakup sprzętu")]
      (Some 6060) 80 /\
  first_in INVESTMENT_KEYWORDS (_get_entry_content entry_sprzet) =
    Some "sprzęt komputerowy".
Proof. split; vm_compute; reflexivity. Qed.

Lemma classification_never_corrects e :
  cc_auto_corrections (_validate_classification e) = [].
Proof.
  unfold _validate_classification.
  destruct (negb (truthy_int (paragraf e))); [reflexivity|].
  destruct (beneficjent_zadaniowy e) as [bz|]; [|reflexivity].
  destruct (negb (String.eqb bz "")); [|reflexivity].
  destruct (negb (match_bz_pattern bz)); [|reflexivity].
  destruct (_ && _); reflexivity.
Qed.

Lemma field_warnings_le_3 e :
  (length (_validate_required_fields e) <= 3)%nat.
Proof.
  unfold _validate_required_fields.
  repeat match goal with
         | |- context [if ?b then _ else _] => destruct b
         end; simpl; lia.
Qed.

Lemma field_penalty_range e : 0 <= field_penalty e <= 15.
Proof.
  unfold field_penalty. pose proof (field_warnings_le_3 e). lia.
Qed.

Lemma amount_penalty_range e : 0 <= amount_penalty e <= 10.
Proof. unfold amount_penalty. destruct (negb _); lia. Qed.

Lemma paragraf_penalty_range e : 0 <= paragraf_penalty e <= 20.
Proof. unfold paragraf_penalty. destruct (_ && _); lia. Qed.

(** Each step changes the score by its own deduction and only adds
    warnings. *)
Lemma step_paragraf_score e r :
  compliance_score (step_paragraf e r) = compliance_score r - paragraf_penalty e.
Proof.
  unfold step_paragraf, paragraf_penalty.
  destruct (truthy_int (paragraf e)); cbn [andb]; [|lia].
  destruct (truthy_int (pc_suggested_paragraf (_validate_paragraf e)));
    cbn; lia.
Qed.

Lemma step_classification_score e r :
  compliance_score (step_classification e r) = compliance_score r.
Proof.
  unfold step_classification. rewrite (classification_never_corrects e).
  reflexivity.
Qed.

Lemma step_amounts_score e r :
  compliance_score (step_amounts e r) = compliance_score r - amount_penalty e.
Proof.
  unfold step_amounts, amount_penalty.
  destruct (negb (is_nil (_validate_amounts e))); cbn; lia.
Qed.

Lemma step_fields_score e r :
  compliance_score (step_fields e r) = compliance_score r - field_penalty e.
Proof.
  unfold step_fields, field_penalty.
  destruct (_validate_required_fields e) as [|w ws]; cbn [is_nil negb];
    cbn [compliance_score subtract_score extend_warnings]; [cbn; lia|reflexivity].
Qed.

Lemma extend_warnings_In w ws r :
  In w (warnings (extend_warnings ws r)) <-> In w (warnings r) \/ In w ws.
Proof. unfold extend_warnings. cbn [warnings]. apply in_app_iff. Qed.

Lemma step_classification_keeps e r w :
  In w (warnings r) \/ In w (cc_warnings (_validate_classification e)) ->
  In w (warnings (step_classification e r)).
Proof.
  unfold step_classification. rewrite (classification_never_corrects e).
  cbn [is_nil negb]. cbv zeta. now rewrite extend_warnings_In.
Qed.

Lemma step_amounts_keeps e r w :
  In w (warnings r) -> In w (warnings (step_amounts e r)).
Proof.
  unfold step_amounts. cbv zeta. intros Hin.
  destruct (negb _); cbn [subtract_score warnings];
    apply extend_warnings_In; now left.
Qed.

Lemma step_fields_keeps e r w :
  In w (warnings r) -> In w (warnings (step_fields e r)).
Proof.
  unfold step_fields. cbv zeta. intros Hin.
  destruct (negb _); cbn [subtract_score warnings];
    apply extend_warnings_In; now left.
Qed.

Lemma step_amounts_corrections e r :
  auto_corrections (step_amounts e r) = auto_corrections r /\
  suggested_paragraf (step_amounts e r) = suggested_paragraf r.
Proof. unfold step_amounts. cbv zeta. destruct (negb _); split; reflexivity. Qed.

Lemma step_fields_corrections e r :
  auto_corrections (step_fields e r) = auto_corrections r /\
  suggested_paragraf (step_fields e r) = suggested_paragraf r.
Proof. unfold step_fields. cbv zeta. destruct (negb _); split; reflexivity. Qed.

Lemma step_classification_corrections e r :
  auto_corrections (step_classification e r) = auto_corrections r /\
  suggested_paragraf (step_classification e r) = suggested_paragraf r.
Proof.
  unfold step_classification. rewrite (classification_never_corrects e).
  split; reflexivity.
Qed.

(** The score before the final flooring, as the four checks leave it. *)
Lemma validate_entry_score e :
  let raw := 100 - paragraf_penalty e - amount_penalty e - field_penalty e in
  compliance_score (validate_entry e) = Z.max 0 raw /\
  is_valid (validate_entry e) = (70 <=? raw).
Proof.
  unfold validate_entry, step_final. cbv zeta.
  cbn [compliance_score is_valid].
  rewrite step_fields_score, step_amounts_score, step_classification_score,
    step_paragraf_score.
  cbn [compliance_score]. split; reflexivity.
Qed.

(** What reaches the result from the first two steps. *)
Lemma validate_entry_warnings_from e w :
  In w (warnings (step_classification e
                    (step_paragraf e (mkValidation true [] [] None 100)))) ->
  In w (warnings (validate_entry e)).
Proof.
  intros Hin. unfold validate_entry, step_final. cbv zeta. cbn [warnings].
  now apply step_fields_keeps, step_amounts_keeps.
Qed.

Lemma validate_entry_corrections e :
  auto_corrections (validate_entry e) =
    auto_corrections (step_paragraf e (mkValidation true [] [] None 100)) /\
  suggested_paragraf (validate_entry e) =
    suggested_paragraf (step_paragraf e (mkValidation true [] [] None 100)).
Proof.
  unfold validate_entry, step_final. cbv zeta.
  cbn [auto_corrections suggested_paragraf].
  destruct (step_fields_corrections e
              (step_amounts e (step_classification e
                 (step_paragraf e (mkValidation true [] [] None 100)))))
    as [-> ->].
  destruct (step_amounts_corrections e
              (step_classification e
                 (step_paragraf e (mkValidation true [] [] None 100))))
    as [-> ->].
  destruct (step_classification_corrections e
              (step_paragraf e (mkValidation true [] [] None 100)))
    as [-> ->].
  split; reflexivity.
Qed.

(** C2. [validate_entry] returns a compliance score between 0 and 100,
    and [is_valid] is true exactly when that score is at least 70. *)
Theorem validate_entry_score_range e :
  0 <= compliance_score (validate_entry e) <= 100 /\
  (is_valid (validate_entry e) = true <->
   70 <= compliance_score (validate_entry e)).
Proof.
  destruct (validate_entry_score e) as [Hs Hv]. cbv zeta in Hs, Hv.
  pose proof (paragraf_penalty_range e).
  pose proof (amount_penalty_range e).
  pose proof (field_penalty_range e).
  rewrite Hs, Hv. split; [lia|].
  rewrite Z.leb_le. lia.
Qed.

Lemma classification_nonzero p info : classification p = Some info -> p <> 0.
Proof. intros Hc ->. vm_compute in Hc. discriminate. Qed.

(** What the paragraph check returns for a code of the "current" group
    whose entry mentions an investment keyword. *)
Lemma _validate_paragraf_current e p info kw :
  paragraf e = Some p ->
  classification p = Some info ->
  info_group info = current ->
  first_in INVESTMENT_KEYWORDS (_get_entry_content e) = Some kw ->
  _validate_paragraf e =
    mkParagrafCheck [Zakup_inwestycyjny kw (info_name info) p]
      (Some 6060) (Some kw).
Proof.
  intros Hp Hc Hg Hk. unfold _validate_paragraf.
  rewrite Hp. pose proof (classification_nonzero _ _ Hc) as Hnz.
  apply Z.eqb_neq in Hnz. rewrite Hnz, Hc, Hg.
  cbn [group_eqb]. cbv zeta. rewrite Hk. reflexivity.
Qed.

(** C6. For an entry whose paragraph is known and of the "current" group
    and whose text holds an investment keyword, [validate_entry] emits the
    one compliance warning of the first keyword found, suggests paragraph
    6060 and takes exactly 20 points for this check: the score is 100
    less 20 and less what the amount and required-field checks take. *)
Theorem validate_entry_current_with_investment_keyword e p info kw :
  paragraf e = Some p ->
  classification p = Some info ->
  info_group info = current ->
  In kw INVESTMENT_KEYWORDS ->
  contains kw (_get_entry_content e) = true ->
  exists kw0,
    first_in INVESTMENT_KEYWORDS (_get_entry_content e) = Some kw0 /\
    pc_warnings (_validate_paragraf e) =
      [Zakup_inwestycyjny kw0 (info_name info) p] /\
    In (Zakup_inwestycyjny kw0 (info_name info) p)
       (warnings (validate_entry e)) /\
    suggested_paragraf (validate_entry e) = Some 6060 /\
    auto_corrections (validate_entry e) =
      [mkCorrection "paragraf" (Some p) 6060 (Some kw0)] /\
    paragraf_penalty e = 20 /\
    compliance_score (validate_entry e) =
      100 - 20 - amount_penalty e - field_penalty e.
Proof.
  intros Hp Hc Hg Hin Hk.
  destruct (PyFacts.any_in_first _ _ (PyFacts.In_any_in _ _ _ Hin Hk))
    as [kw0 Hf].
  exists kw0.
  pose proof (_validate_paragraf_current e p info kw0 Hp Hc Hg Hf) as Hv.
  pose proof (classification_nonzero _ _ Hc) as Hnz.
  assert (Ht : truthy_int (paragraf e) = true).
  { rewrite Hp. simpl. apply Z.eqb_neq in Hnz. now rewrite Hnz. }
  assert (Hpen : paragraf_penalty e = 20).
  { unfold paragraf_penalty. rewrite Ht, Hv. reflexivity. }
  assert (Hstep : step_paragraf e (mkValidation true [] [] None 100) =
            mkValidation true [Zakup_inwestycyjny kw0 (info_name info) p]
              [mkCorrection "paragraf" (Some p) 6060 (Some kw0)]
              (Some 6060) 80).
  { unfold step_paragraf. rewrite Ht, Hv, Hp. reflexivity. }
  destruct (validate_entry_corrections e) as [Hac Hsp].
  split; [exact Hf|]. split; [now rewrite Hv|].
  split; [|split; [|split; [|split; [exact Hpen|]]]].
  - apply validate_entry_warnings_from, step_classification_keeps.
    left. rewrite Hstep. cbn. now left.
  - now rewrite Hsp, Hstep.
  - now rewrite Hac, Hstep.
  - destruct (validate_entry_score e) as [Hs _]. cbv zeta in Hs.
    rewrite Hs, Hpen.
    pose proof (amount_penalty_range e). pose proof (field_penalty_range e).
    lia.
Qed.

(** The example entry: paragraph 4300 of the "current" group, the word
    "serwer" in its name. *)
Lemma validate_entry_current_with_investment_keyword_witness :
  exists kw0,
    first_in INVESTMENT_KEYWORDS (_get_entry_content entry_serwer) = Some kw0 /\
    pc_warnings (_validate_paragraf entry_serwer) =
      [Zakup_inwestycyjny kw0 "Zakup usług pozostałych" 4300] /\
    In (Zakup_inwestycyjny kw0 "Zakup usług pozostałych" 4300)
       (warnings (validate_entry entry_serwer)) /\
    suggested_paragraf (validate_entry entry_serwer) = Some 6060 /\
    auto_corrections (validate_entry entry_serwer) =
      [mkCorrection "paragraf" (Some 4300) 6060 (Some kw0)] /\
    paragraf_penalty entry_serwer = 20 /\
    compliance_score (validate_entry entry_serwer) =
      100 - 20 - amount_penalty entry_serwer - field_penalty entry_serwer.
Proof.
  apply (validate_entry_current_with_investment_keyword entry_serwer 4300
           (mkInfo "Zakup usług pozostałych" current ["usługi"; "serwis"])
           "server").
  - reflexivity.
  - reflexivity.
  - reflexivity.
  - simpl. tauto.
  - vm_compute. reflexivity.
Defined.

Lemma eqb_neq_str (s t : string) : s <> t -> String.eqb s t = false.
Proof. intros Hn. now apply String.eqb_neq. Qed.

Lemma _validate_classification_malformed e bz :
  bz_malformed e bz ->
  _validate_classification e = mkClassificationCheck [Format_kodu_BZ bz] [].
Proof.
  intros (Ht & Hb & Hne & Hm & H0 & Hs). unfold _validate_classification.
  rewrite Ht, Hb. cbn [negb].
  rewrite (eqb_neq_str _ _ Hne), Hm, (eqb_neq_str _ _ H0).
  cbn [negb andb existsb].
  assert (Hn : forall t, In t ["nd"; "n/d"; "nan"; ""] ->
               String.eqb (lower bz) t = false).
  { intros t Ht' . apply String.eqb_neq. intros Heq. apply Hs.
    rewrite Heq. exact Ht'. }
  rewrite !Hn by (simpl; tauto). reflexivity.
Qed.

(** C7, as the code has it.  For an entry with a paragraph code and a
    non-empty BZ code that neither matches the dotted pattern nor is one
    of the tolerated values, [validate_entry] emits the format warning;
    the check records no correction, so the score loses nothing for it:
    it is 100 less what the paragraph, amount and required-field checks
    take. *)
Theorem validate_entry_malformed_bz_warns e bz :
  bz_malformed e bz ->
  In (Format_kodu_BZ bz) (warnings (validate_entry e)) /\
  cc_auto_corrections (_validate_classification e) = [] /\
  compliance_score (validate_entry e) =
    100 - paragraf_penalty e - amount_penalty e - field_penalty e.
Proof.
  intros Hm. pose proof (_validate_classification_malformed e bz Hm) as Hv.
  split; [|split].
  - apply validate_entry_warnings_from, step_classification_keeps.
    right. rewrite Hv. cbn. now left.
  - now rewrite Hv.
  - destruct (validate_entry_score e) as [Hs _]. cbv zeta in Hs. rewrite Hs.
    pose proof (paragraf_penalty_range e).
    pose proof (amount_penalty_range e). pose proof (field_penalty_range e).
    lia.
Qed.

Lemma entry_bz_abc_malformed : bz_malformed entry_bz_abc "abc".
Proof.
  unfold bz_malformed. repeat split; try reflexivity; try discriminate.
  simpl. intros [H|[H|[H|[H|[]]]]]; discriminate.
Defined.

Lemma validate_entry_malformed_bz_warns_witness :
  In (Format_kodu_BZ "abc") (warnings (validate_entry entry_bz_abc)) /\
  cc_auto_corrections (_validate_classification entry_bz_abc) = [] /\
  compliance_score (validate_entry entry_bz_abc) =
    100 - paragraf_penalty entry_bz_abc - amount_penalty entry_bz_abc
      - field_penalty entry_bz_abc.
Proof.
  apply (validate_entry_malformed_bz_warns entry_bz_abc "abc").
  exact entry_bz_abc_malformed.
Defined.

(** C7 as stated fails: the entry [entry_bz_abc] meets the premises and
    gets the warning, yet its score is 100, not 15 below what the other
    checks leave. *)
Lemma malformed_bz_takes_no_points :
  bz_malformed entry_bz_abc "abc" /\
  In (Format_kodu_BZ "abc") (warnings (validate_entry entry_bz_abc)) /\
  compliance_score (validate_entry entry_bz_abc) = 100 /\
  compliance_score (validate_entry entry_bz_abc) <>
    100 - 15 - paragraf_penalty entry_bz_abc - amount_penalty entry_bz_abc
      - field_penalty entry_bz_abc.
Proof.
  split; [exact entry_bz_abc_malformed|].
  split; [vm_compute; tauto|]. split; [reflexivity|].
  vm_compute. discriminate.
Qed.

End ComplianceAgentSpec.

(** ** The gap optimizer *)
Module OptimizationAgentSpec.
Import Py Models ModelsFacts OptimizationAgent.

(** A protected keyword in capitals protects: the entry is reduced, not
    deferred, for all its low priority. *)
Example protected_in_capitals :
  _is_deferrable (example_entry 4 1 "BEZPIECZEŃSTWO sieci" 1 "niski" false)
    = false /\
  _is_deferrable (example_entry 4 1 "Wyjazd integracyjny" 1 "niski" false)
    = true.
Proof. split; vm_compute; reflexivity. Qed.

Lemma total_amount_perm y l l' :
  Permutation l l' -> (total_amount y l == total_amount y l')%Q.
Proof.
  induction 1 as [|x l l' _ IH|x x' l|l l' l'' _ IH1 _ IH2]; simpl.
  - reflexivity.
  - rewrite IH. reflexivity.
  - ring.
  - rewrite IH1. exact IH2.
Qed.

Lemma total_savings_perm l l' :
  Permutation l l' -> (total_savings l == total_savings l')%Q.
Proof.
  induction 1 as [|x l l' _ IH|x x' l|l l' l'' _ IH1 _ IH2]; simpl.
  - reflexivity.
  - rewrite IH. reflexivity.
  - ring.
  - rewrite IH1. exact IH2.
Qed.

Lemma total_savings_app l l' :
  (total_savings (l ++ l') == total_savings l + total_savings l')%Q.
Proof.
  induction l as [|x l IH]; simpl; [ring|]. rewrite IH. ring.
Qed.

(** A suggestion never saves more than the amount it starts from, and it
    carries the identifier of its entry. *)
Lemma suggest_savings db y e a :
  (0 < a)%Q ->
  (0 <= s_savings (suggest db y e a) <= a)%Q /\
  s_entry_id (suggest db y e a) = id e.
Proof.
  intros Ha. unfold suggest. cbv zeta.
  destruct (_is_deferrable e); cbn [s_savings s_entry_id].
  - split; [lra|reflexivity].
  - destruct (priority_in e ["średni"; "niski"]); split;
      try reflexivity; lra.
Qed.

(** The loop only appends suggestions made from the entries it walks, and
    the savings it adds stay below the positive amounts of those entries. *)
Lemma cut_loop_spec db y target l :
  forall suggestions cumulative_savings,
  exists new total,
    cut_loop db y target l suggestions cumulative_savings =
      (suggestions ++ new, total) /\
    (total == cumulative_savings + total_savings new)%Q /\
    (forall s, In s new -> exists e, In e l /\ s_entry_id s = id e) /\
    (Forall (fun e => (0 < kwota_or0 e y)%Q) l ->
     (0 <= total_savings new <= total_amount y l)%Q).
Proof.
  induction l as [|e l IH]; intros suggestions cum; simpl.
  - exists [], cum. rewrite app_nil_r. simpl. repeat split; try lra.
    intros s [].
  - destruct (Qgeb cum target).
    { exists [], cum. rewrite app_nil_r. simpl. repeat split; try lra.
      - intros s [].
      - inversion H as [|? ? Hpos Hall']; subst.
        destruct (IH suggestions cum) as (new & tot & _ & _ & _ & Hb).
        specialize (Hb Hall'). lra. }
    destruct (Qle_bool (kwota_or0 e y) 0) eqn:Hle.
    { destruct (IH suggestions cum) as (new & tot & Heq & Htot & Hin & Hb).
      exists new, tot. split; [exact Heq|]. split; [exact Htot|]. split.
      - intros s Hs. destruct (Hin s Hs) as (e' & He' & Hid). eauto.
      - intros Hall. inversion Hall as [|? ? Hpos Hall']; subst.
        specialize (Hb Hall'). lra. }
    apply PyFacts.Qle_bool_false in Hle.
    destruct (IH (suggestions ++ [suggest db y e (kwota_or0 e y)])
                 (cum + s_savings (suggest db y e (kwota_or0 e y)))%Q)
      as (new & tot & Heq & Htot & Hin & Hb).
    destruct (suggest_savings db y e (kwota_or0 e y) Hle) as [Hsav Hid].
    exists (suggest db y e (kwota_or0 e y) :: new), tot.
    split; [|split; [|split]].
    + rewrite Heq. rewrite <- app_assoc. reflexivity.
    + rewrite Htot. simpl. ring.
    + intros s [<-|Hs]; [eauto|].
      destruct (Hin s Hs) as (e' & He' & Hid'). eauto.
    + intros Hall. inversion Hall as [|? ? Hpos Hall']; subst.
      specialize (Hb Hall'). simpl. lra.
Qed.

Lemma amount_positive_spec e y :
  amount_positive (get_kwota e y) = true -> (0 < kwota_or0 e y)%Q.
Proof.
  unfold amount_positive, kwota_or0.
  destruct (get_kwota e y) as [[q|]|]; try discriminate.
  intros Hq. now apply PyFacts.Qgtb_gt in Hq.
Qed.

Lemma is_false_spec b : is_false b = true -> b = Some false.
Proof. destruct b as [[|]|]; simpl; congruence. Qed.

Lemma cuttable_entries_spec db y e :
  In e (cuttable_entries db y) ->
  In e (entries db) /\ is_obligatory e = Some false /\ (0 < kwota_or0 e y)%Q.
Proof.
  unfold cuttable_entries. rewrite PyFacts.sort_by_In.
  intros Hin. apply filter_In in Hin as [Hin Hb].
  apply andb_true_iff in Hb as [Hf Hp].
  auto using is_false_spec, amount_positive_spec.
Qed.

(** Summing over more of the positive entries gives no less. *)
Lemma total_amount_filter_mono y (p q : BudgetEntry -> bool) l :
  (forall e, p e = true -> q e = true) ->
  (total_amount y
     (List.filter (fun e => p e && amount_positive (get_kwota e y)) l)
   <= total_amount y
     (List.filter (fun e => q e && amount_positive (get_kwota e y)) l))%Q.
Proof.
  intros Hpq. induction l as [|e l IH]; simpl; [lra|].
  destruct (amount_positive (get_kwota e y)) eqn:Hpos.
  - apply amount_positive_spec in Hpos.
    destruct (p e) eqn:Hp.
    + rewrite (Hpq e Hp). simpl. lra.
    + destruct (q e); simpl; lra.
  - rewrite !andb_false_r. exact IH.
Qed.

(** C1. When the year's total exceeds the global limit,
    [generate_cut_suggestions] returns suggestions; each one is made from an
    entry of the store that is not obligatory, and the achievable reduction
    it reports is the sum of the suggestions' savings and is at most the sum
    of the positive amounts of the non-obligatory entries. *)
Theorem generate_cut_suggestions_spares_obligatory db target_reduction y g :
  List.find (fun g => year g =? y) (global_limits db) = Some g ->
  has_kwota y = true ->
  (total_limit g < year_total db y)%Q ->
  exists gap target achievable can_meet suggestions protected,
    generate_cut_suggestions db target_reduction y =
      inr (Cuts gap target achievable can_meet suggestions protected) /\
    (forall s, In s suggestions ->
       exists e, In e (entries db) /\ id e = s_entry_id s /\
                 is_obligatory e = Some false /\ (0 < kwota_or0 e y)%Q) /\
    (achievable == total_savings suggestions)%Q /\
    (achievable <=
       positive_total (fun e => is_false (is_obligatory e)) db y)%Q /\
    (positive_total (fun e => is_false (is_obligatory e)) db y <=
       positive_total (fun e => negb (is_true (is_obligatory e))) db y)%Q.
Proof.
  intros Hg Hy Hover.
  unfold generate_cut_suggestions, analyze_budget_gap.
  rewrite Hg, Hy. cbn [negb]. cbv zeta. cbn [ga_is_over_limit ga_variance].
  fold (year_total db y).
  assert (Hgt : Qgtb (year_total db y - total_limit g) 0 = true).
  { apply PyFacts.Qgtb_gt. lra. }
  rewrite Hgt. cbn [negb].
  set (target := target_or target_reduction (year_total db y - total_limit g)).
  destruct (cut_loop_spec db y target (cuttable_entries db y) [] 0%Q)
    as (new & tot & Heq & Htot & Hin & Hb).
  rewrite Heq. cbn [app].
  pose proof (PyFacts.sort_by_perm
                (fun a b => s_deferral_score b <=? s_deferral_score a) new)
    as Hperm.
  do 6 eexists. split; [reflexivity|]. split; [|split; [|split]].
  - intros s Hs. apply PyFacts.sort_by_In in Hs.
    destruct (Hin s Hs) as (e & He & Hid).
    destruct (cuttable_entries_spec db y e He) as (H1 & H2 & H3).
    exists e. auto.
  - rewrite Htot, <- (total_savings_perm _ _ Hperm). ring.
  - assert (Hall : Forall (fun e => (0 < kwota_or0 e y)%Q) (cuttable_entries db y)).
    { apply List.Forall_forall. intros e He.
      now destruct (cuttable_entries_spec db y e He) as (_ & _ & H3). }
    specialize (Hb Hall). rewrite Htot. unfold positive_total.
    assert (Hsum : (total_amount y (cuttable_entries db y) ==
              total_amount y
                (List.filter
                   (fun e => is_false (is_obligatory e) &&
                             amount_positive (get_kwota e y))
                   (entries db)))%Q).
    { symmetry. apply total_amount_perm. unfold cuttable_entries.
      apply PyFacts.sort_by_perm. }
    rewrite <- Hsum. lra.
  - unfold positive_total. apply total_amount_filter_mono.
    intros e. destruct (is_obligatory e) as [[|]|]; simpl; congruence.
Qed.

(** The example store: 210 planned for 2025 against a limit of 150. *)
Lemma generate_cut_suggestions_spares_obligatory_witness :
  exists gap target achievable can_meet suggestions protected,
    generate_cut_suggestions example_db None 2025 =
      inr (Cuts gap target achievable can_meet suggestions protected) /\
    (forall s, In s suggestions ->
       exists e, In e (entries example_db) /\ id e = s_entry_id s /\
                 is_obligatory e = Some false /\ (0 < kwota_or0 e 2025)%Q) /\
    (achievable == total_savings suggestions)%Q /\
    (achievable <=
       positive_total (fun e => is_false (is_obligatory e)) example_db 2025)%Q /\
    (positive_total (fun e => is_false (is_obligatory e)) example_db 2025 <=
       positive_total (fun e => negb (is_true (is_obligatory e))) example_db 2025)%Q.
Proof.
  apply (generate_cut_suggestions_spares_obligatory example_db None 2025
           (mkGlobalLimit 2025 (150 # 1))).
  - reflexivity.
  - reflexivity.
  - vm_compute. reflexivity.
Defined.

(** C10. On an existing entry, [apply_suggestion] with action ["reduce"]
    and no new amount returns success with [new_amount] 0; the session it
    commits differs only by the status of that entry, which is
    ["needs_revision"]: every other column of every row, the five yearly
    amounts and the remark among them, is as before. *)
Theorem apply_suggestion_reduce_without_amount
    (format_float : Q -> string) db entry_id y entry :
  first_entry entry_id (entries db) = Some entry ->
  has_kwota y = true ->
  exists old_amount db',
    apply_suggestion format_float db entry_id "reduce" None y =
      inr (Applied entry_id "reduce" old_amount 0%Q, db') /\
    success (Applied entry_id "reduce" old_amount 0%Q) = true /\
    get_kwota entry y = Some old_amount /\
    first_entry entry_id (entries db') =
      Some (with_status (Some "needs_revision") entry) /\
    (exists entry',
       first_entry entry_id (entries db') = Some entry' /\
       status entry' = Some "needs_revision" /\
       same_but_status entry entry') /\
    List.map status (entries db') =
      List.map (fun e => if id e =? entry_id then Some "needs_revision"
                         else status e) (entries db) /\
    List.Forall2 same_but_status (entries db) (entries db') /\
    List.map kwota_2025 (entries db') = List.map kwota_2025 (entries db) /\
    List.map kwota_2026 (entries db') = List.map kwota_2026 (entries db) /\
    List.map kwota_2027 (entries db') = List.map kwota_2027 (entries db) /\
    List.map kwota_2028 (entries db') = List.map kwota_2028 (entries db) /\
    List.map kwota_2029 (entries db') = List.map kwota_2029 (entries db) /\
    List.map uwagi (entries db') = List.map uwagi (entries db) /\
    departments db' = departments db /\
    conflicts db' = conflicts db /\
    global_limits db' = global_limits db.
Proof.
  intros Hfirst Hy.
  destruct (get_kwota_has entry y Hy) as [old Hold].
  exists old,
    (with_entries
       (update_entry entry_id (with_status (Some "needs_revision")) (entries db))
       db).
  split; [|split; [reflexivity|split; [exact Hold|]]].
  - unfold apply_suggestion. rewrite Hfirst, Hold. reflexivity.
  - cbn [entries with_entries].
    destruct (mark_status_spec entry_id (Some "needs_revision") (entries db)
                entry Hfirst) as (Hrow & Hstatus & Hrows).
    split; [|split; [exact Hrow|split; [exact Hstatus|split; [exact Hrows|]]]].
    + rewrite first_entry_update by reflexivity.
      now rewrite Z.eqb_refl, Hfirst.
    + repeat split; try apply map_update_entry; reflexivity.
Qed.

(** For a year without an amount column the call raises instead. *)
Lemma apply_suggestion_unknown_year
    (format_float : Q -> string) db entry_id action new_amount y entry :
  first_entry entry_id (entries db) = Some entry ->
  has_kwota y = false ->
  apply_suggestion format_float db entry_id action new_amount y =
    inl AttributeError.
Proof.
  intros Hfirst Hy. unfold apply_suggestion. rewrite Hfirst.
  now rewrite (get_kwota_none entry y Hy).
Qed.

Lemma apply_suggestion_reduce_without_amount_witness :
  exists old_amount db',
    apply_suggestion (fun _ => "") example_db 2 "reduce" None 2025 =
      inr (Applied 2 "reduce" old_amount 0%Q, db') /\
    success (Applied 2 "reduce" old_amount 0%Q) = true /\
    get_kwota (example_entry 2 1 "Wyjazd integracyjny" (50 # 1) "niski" false)
      2025 = Some old_amount /\
    first_entry 2 (entries db') =
      Some (with_status (Some "needs_revision")
              (example_entry 2 1 "Wyjazd integracyjny" (50 # 1) "niski" false)) /\
    (exists entry',
       first_entry 2 (entries db') = Some entry' /\
       status entry' = Some "needs_revision" /\
       same_but_status
         (example_entry 2 1 "Wyjazd integracyjny" (50 # 1) "niski" false)
         entry') /\
    List.map status (entries db') =
      List.map (fun e => if id e =? 2 then Some "needs_revision"
                         else status e) (entries example_db) /\
    List.Forall2 same_but_status (entries example_db) (entries db') /\
    List.map kwota_2025 (entries db') = List.map kwota_2025 (entries example_db) /\
    List.map kwota_2026 (entries db') = List.map kwota_2026 (entries example_db) /\
    List.map kwota_2027 (entries db') = List.map kwota_2027 (entries example_db) /\
    List.map kwota_2028 (entries db') = List.map kwota_2028 (entries example_db) /\
    List.map kwota_2029 (entries db') = List.map kwota_2029 (entries example_db) /\
    List.map uwagi (entries db') = List.map uwagi (entries example_db) /\
    departments db' = departments example_db /\
    conflicts db' = conflicts example_db /\
    global_limits db' = global_limits example_db.
Proof.
  apply (apply_suggestion_reduce_without_amount (fun _ => "") example_db 2 2025
           (example_entry 2 1 "Wyjazd integracyjny" (50 # 1) "niski" false)).
  - reflexivity.
  - reflexivity.
Defined.

End OptimizationAgentSpec.

(** ** The sequence matcher *)
Module DifflibSpec.
Import Difflib.

(** The worked examples of the library's documentation. *)
Example ratio_tide_diet :
  (ratio_str "tide" "diet" == 25 # 100)%Q /\ (ratio_str "diet" "tide" == 5 # 10)%Q.
Proof. split; vm_compute; reflexivity. Qed.

Example matching_blocks_abxcd :
  get_matching_blocks (Py.code_points "abxcd") (Py.code_points "abcd")
  = [mkMatch 0 0 2; mkMatch 3 2 2; mkMatch 5 4 0].
Proof. vm_compute. reflexivity. Qed.

Section Bounds.
Context {A : Type} `{Countable A}.
Variables a b : list A.

Lemma j2lenget_pred_le (j2len : gmap nat nat) j c :
  (forall j' k, j2len !! j' = Some k -> (k <= c)%nat) ->
  (j2lenget_pred j2len j <= c)%nat.
Proof.
  intros Hle. destruct j as [|j']; simpl; [lia|].
  destruct (j2len !! j') as [k|] eqn:E; simpl; [eauto|lia].
Qed.

Lemma row_loop_bounds alo blo bhi i (j2len : gmap nat nat) js :
  (alo <= i)%nat ->
  (forall j k, j2len !! j = Some k -> (k <= i - alo)%nat) ->
  forall (newj2len : gmap nat nat) best,
  (forall j k, newj2len !! j = Some k -> (k <= i - alo + 1)%nat) ->
  within alo (i + 1) best ->
  (forall j k, (row_loop blo bhi i j2len js newj2len best).1 !! j = Some k ->
     (k <= i - alo + 1)%nat) /\
  within alo (i + 1) (row_loop blo bhi i j2len js newj2len best).2.
Proof.
  intros Hi Hprev. induction js as [|j js IH]; intros newj2len best Hnew Hbest.
  - simpl. auto.
  - simpl. destruct (j <? blo)%nat; [now apply IH|].
    destruct (bhi <=? j)%nat; [simpl; auto|].
    pose proof (j2lenget_pred_le j2len j (i - alo) Hprev) as Hk.
    apply IH.
    + intros j' k Hl. apply lookup_insert_Some in Hl as [[_ <-]|[_ Hl]];
        [lia|eauto].
    + destruct (m_size best <? j2lenget_pred j2len j + 1)%nat; [|exact Hbest].
      unfold within. simpl. lia.
Qed.

Lemma rows_loop_bounds alo blo bhi cnt :
  forall i (j2len : gmap nat nat) best,
  (alo <= i)%nat ->
  (forall j k, j2len !! j = Some k -> (k <= i - alo)%nat) ->
  within alo i best ->
  within alo (i + cnt) (rows_loop a b blo bhi (seq i cnt) j2len best).
Proof.
  induction cnt as [|cnt IH]; intros i j2len best Hi Hprev Hbest; simpl.
  - now rewrite Nat.add_0_r.
  - set (js := match a !! i with
               | Some x => default [] (b2j b !! x)
               | None => []
               end).
    assert (Hb1 : within alo (i + 1) best) by (unfold within in *; lia).
    destruct (row_loop_bounds alo blo bhi i j2len js Hi Hprev ∅ best)
      as [Hnew Hbest']; [intros j k Hl; now rewrite lookup_empty in Hl|exact Hb1|].
    destruct (row_loop blo bhi i j2len js ∅ best) as [newj2len best'].
    simpl in Hnew, Hbest'.
    replace (i + S cnt)%nat with (S i + cnt)%nat by lia.
    apply IH; [lia| |].
    + intros j k Hl. specialize (Hnew j k Hl). lia.
    + unfold within in *. lia.
Qed.

Lemma extend_left_bounds alo blo besti :
  forall bestj bestsize,
  (alo <= besti)%nat ->
  (alo <= m_a (extend_left a b alo blo besti bestj bestsize) /\
   m_a (extend_left a b alo blo besti bestj bestsize) +
     m_size (extend_left a b alo blo besti bestj bestsize) =
   besti + bestsize)%nat.
Proof.
  induction besti as [|i' IH]; intros bestj bestsize Halo; simpl.
  - lia.
  - destruct bestj as [|j']; [simpl; lia|].
    destruct ((alo <? S i')%nat && (blo <? S j')%nat &&
              bool_decide (a !! i' = b !! j')) eqn:E; [|simpl; lia].
    apply andb_true_iff in E as [E _]. apply andb_true_iff in E as [E _].
    apply Nat.ltb_lt in E.
    destruct (IH j' (S bestsize)) as [H1 H2]; [lia|]. lia.
Qed.

Lemma extend_right_bounds n ahi bhi besti bestj :
  forall bestsize,
  (besti + bestsize <= ahi)%nat ->
  (bestsize <= extend_right a b n ahi bhi besti bestj bestsize /\
   besti + extend_right a b n ahi bhi besti bestj bestsize <= ahi)%nat.
Proof.
  induction n as [|n IH]; intros bestsize Hle; simpl; [lia|].
  destruct ((besti + bestsize <? ahi)%nat && (bestj + bestsize <? bhi)%nat &&
            bool_decide (a !! (besti + bestsize)%nat = b !! (bestj + bestsize)%nat))
    eqn:E; [|lia].
  apply andb_true_iff in E as [E _]. apply andb_true_iff in E as [E _].
  apply Nat.ltb_lt in E.
  destruct (IH (S bestsize)) as [H1 H2]; lia.
Qed.

(** With [ahi - (besti + bestsize)] iterations the second [while] runs to
    its end: its condition is false at the size returned. *)
Lemma extend_right_stops n ahi bhi besti bestj :
  forall bestsize,
  (ahi - (besti + bestsize) <= n)%nat ->
  let size := extend_right a b n ahi bhi besti bestj bestsize in
  (besti + size <? ahi)%nat && (bestj + size <? bhi)%nat &&
  bool_decide (a !! (besti + size)%nat = b !! (bestj + size)%nat) = false.
Proof.
  induction n as [|n IH]; intros bestsize Hn; cbn [extend_right]; cbv zeta.
  - assert ((besti + bestsize <? ahi)%nat = false) as ->
      by (apply Nat.ltb_ge; lia).
    reflexivity.
  - destruct ((besti + bestsize <? ahi)%nat && (bestj + bestsize <? bhi)%nat &&
              bool_decide (a !! (besti + bestsize)%nat = b !! (bestj + bestsize)%nat))
      eqn:E; [|exact E].
    apply IH. lia.
Qed.

(** The match [find_longest_match] returns lies in the rows it was asked
    to search. *)
Lemma find_longest_match_bounds alo ahi blo bhi :
  (alo <= ahi)%nat ->
  within alo ahi (find_longest_match a b alo ahi blo bhi).
Proof.
  intros Hle. unfold find_longest_match. cbv zeta.
  pose proof (rows_loop_bounds alo blo bhi (ahi - alo) alo ∅ (mkMatch alo blo 0))
    as Hrows.
  destruct Hrows as [Hr1 Hr2];
    [lia|intros j k Hl; now rewrite lookup_empty in Hl|unfold within; simpl; lia|].
  replace (alo + (ahi - alo))%nat with ahi in Hr2 by lia.
  set (best := rows_loop a b blo bhi (seq alo (ahi - alo)) ∅ (mkMatch alo blo 0)) in *.
  destruct (extend_left_bounds alo blo (m_a best) (m_b best) (m_size best) Hr1)
    as [Hl1 Hl2].
  set (best' := extend_left a b alo blo (m_a best) (m_b best) (m_size best)) in *.
  destruct (extend_right_bounds (ahi - (m_a best' + m_size best')) ahi bhi
              (m_a best') (m_b best') (m_size best')) as [He1 He2]; [lia|].
  unfold within. simpl. lia.
Qed.

Lemma weight_cons alo ahi blo bhi queue :
  weight ((alo, ahi, blo, bhi) :: queue) =
    (2 * (ahi - alo) + 1 + weight queue)%nat.
Proof. reflexivity. Qed.

Lemma blocks_loop_terminates n :
  forall queue matching_blocks,
  Forall ordered queue ->
  (weight queue <= n)%nat ->
  is_Some (blocks_loop a b n queue matching_blocks).
Proof.
  induction n as [|n IH]; intros queue mb Hord Hw.
  - destruct queue as [|[[[alo ahi] blo] bhi] queue]; [simpl; eauto|].
    rewrite weight_cons in Hw. lia.
  - destruct queue as [|[[[alo ahi] blo] bhi] queue]; [simpl; eauto|].
    inversion Hord as [|? ? Ho Hord']; subst. unfold ordered in Ho.
    cbn [fst snd] in Ho.
    pose proof (find_longest_match_bounds alo ahi blo bhi Ho) as [Hb1 Hb2].
    rewrite weight_cons in Hw.
    cbn [blocks_loop]. cbv zeta.
    set (x := find_longest_match a b alo ahi blo bhi) in *.
    destruct (m_size x =? 0)%nat eqn:Ek.
    + apply IH; [exact Hord'|lia].
    + apply Nat.eqb_neq in Ek.
      apply IH.
      * destruct ((m_a x + m_size x <? ahi)%nat && (m_b x + m_size x <? bhi)%nat)
          eqn:E1;
          destruct ((alo <? m_a x)%nat && (blo <? m_b x)%nat) eqn:E2;
          repeat (apply Forall_cons; split);
          try exact Hord'; unfold ordered; cbn [fst snd]; lia.
      * destruct ((m_a x + m_size x <? ahi)%nat && (m_b x + m_size x <? bhi)%nat);
          destruct ((alo <? m_a x)%nat && (blo <? m_b x)%nat);
          rewrite ?weight_cons; lia.
Qed.

(** The loop of [get_matching_blocks] empties its queue within
    [blocks_fuel] iterations: the function returns. *)
Lemma blocks_loop_Some :
  is_Some (blocks_loop a b (blocks_fuel a) [(0, length a, 0, length b)%nat] []).
Proof.
  apply blocks_loop_terminates.
  - apply Forall_cons; split; [|constructor]. unfold ordered. cbn [fst snd]. lia.
  - rewrite weight_cons. change (weight []) with 0%nat. unfold blocks_fuel. lia.
Qed.

End Bounds.

Section Index.
Context {A : Type} `{Countable A}.

Lemma chain_from_lookup (x : A) l :
  forall i (m : gmap A (list nat)),
  chain_from i l m !! x =
    match positions_from i l x with
    | [] => m !! x
    | ps => Some (default [] (m !! x) ++ ps)
    end.
Proof.
  induction l as [|y r IH]; intros i m; simpl; [reflexivity|].
  rewrite IH. unfold setdefault_append.
  destruct (decide (y = x)) as [->|Hne].
  - rewrite lookup_insert_eq. simpl.
    destruct (positions_from (S i) r x) as [|p ps]; [reflexivity|].
    now rewrite <- app_assoc.
  - now rewrite lookup_insert_ne.
Qed.

(** A key of the index maps to all the positions of its element. *)
Lemma b2j_lookup (b : list A) x js :
  b2j b !! x = Some js -> js = positions_from 0 b x.
Proof.
  unfold b2j, __chain_b. cbv zeta.
  assert (Hc : chain_from 0 b ∅ !! x = Some js -> js = positions_from 0 b x).
  { rewrite chain_from_lookup, lookup_empty. simpl.
    destruct (positions_from 0 b x); congruence. }
  destruct (200 <=? length b)%nat; [|exact Hc].
  intros Hf. apply map_lookup_filter_Some in Hf as [Hf _]. auto.
Qed.

Lemma positions_from_app (x : A) l1 :
  forall i l2,
  positions_from i (l1 ++ l2) x =
    positions_from i l1 x ++ positions_from (i + length l1) l2 x.
Proof.
  induction l1 as [|y l1 IH]; intros i l2; simpl.
  - now rewrite Nat.add_0_r.
  - rewrite IH. replace (S i + length l1)%nat with (i + S (length l1))%nat by lia.
    now destruct (decide (y = x)).
Qed.

Lemma positions_from_spec (x : A) l :
  forall i j, In j (positions_from i l x) ->
  (i <= j < i + length l)%nat /\ l !! (j - i)%nat = Some x.
Proof.
  induction l as [|y l IH]; intros i j; simpl; [tauto|].
  intros Hin.
  assert (Hrec : In j (positions_from (S i) l x) ->
            (i <= j < i + S (length l))%nat /\
            (y :: l) !! (j - i)%nat = Some x).
  { intros Hin'. destruct (IH (S i) j Hin') as [Hr Hl]. split; [lia|].
    replace (j - i)%nat with (S (j - S i)) by lia. exact Hl. }
  destruct (decide (y = x)) as [->|Hne]; [|auto].
  destruct Hin as [<-|Hin]; [|auto].
  split; [lia|]. now rewrite Nat.sub_diag.
Qed.

(** The positions of the element at [i]: those before [i], [i] itself,
    those after [i]. *)
Lemma positions_split (a : list A) i x :
  a !! i = Some x ->
  exists lt gt,
    positions_from 0 a x = lt ++ i :: gt /\
    Forall (fun j => (j < i)%nat /\ a !! j = Some x) lt /\
    Forall (fun j => (i < j < length a)%nat /\ a !! j = Some x) gt.
Proof.
  intros Hi. pose proof (lookup_lt_Some _ _ _ Hi) as Hlt.
  exists (positions_from 0 (take i a) x),
         (positions_from (S i) (drop (S i) a) x).
  assert (Hlen : length (take i a) = i) by (rewrite length_take; lia).
  split; [|split].
  - rewrite <- (take_drop_middle a i x Hi) at 1.
    rewrite positions_from_app, Hlen. simpl.
    destruct (decide (x = x)); [reflexivity|congruence].
  - apply List.Forall_forall. intros j Hj.
    apply positions_from_spec in Hj as [Hr Hl]. rewrite Hlen in Hr.
    rewrite Nat.sub_0_r in Hl. split; [lia|].
    rewrite lookup_take_lt in Hl by lia. exact Hl.
  - apply List.Forall_forall. intros j Hj.
    apply positions_from_spec in Hj as [Hr Hl].
    rewrite length_drop in Hr. split; [lia|].
    rewrite lookup_drop in Hl.
    replace (S i + (j - S i))%nat with j in Hl by lia. exact Hl.
Qed.

End Index.

Section Diagonal.
Context {A : Type} `{Countable A}.
Variable a : list A.

Lemma run_indexed p : indexed_at a p = true -> run a p = S (prun a p).
Proof. intros Hi. destruct p; simpl; now rewrite Hi. Qed.

Lemma run_not_indexed p : indexed_at a p = false -> run a p = 0%nat.
Proof. intros Hi. destruct p; simpl; now rewrite Hi. Qed.

Lemma indexed_at_lookup p x js :
  a !! p = Some x -> b2j a !! x = Some js -> indexed_at a p = true.
Proof.
  intros Hp Hx. unfold indexed_at. rewrite Hp, Hx.
  apply bool_decide_eq_true. eauto.
Qed.

Lemma step_le_prun i (j2len : gmap nat nat) j :
  row_dict_ok a i j2len -> (j2lenget_pred j2len j <= prun a i)%nat.
Proof.
  intros [Hd _]. apply j2lenget_pred_le. intros j' k Hl.
  now destruct (Hd j' k Hl) as (_ & _ & ?).
Qed.

Lemma step_le_run i (j2len : gmap nat nat) j :
  row_dict_ok a i j2len -> indexed_at a j = true ->
  (j2lenget_pred j2len j + 1 <= run a j)%nat.
Proof.
  intros [Hd _] Hj. rewrite (run_indexed j Hj).
  destruct j as [|j']; simpl; [lia|].
  destruct (j2len !! j') as [k|] eqn:E; simpl; [|lia].
  destruct (Hd j' k E) as (_ & ? & _). lia.
Qed.

Lemma step_diag i (j2len : gmap nat nat) :
  row_dict_ok a i j2len -> indexed_at a i = true ->
  (j2lenget_pred j2len i + 1)%nat = run a i.
Proof.
  intros [Hd Hdiag] Hi. rewrite (run_indexed i Hi).
  destruct i as [|i']; simpl; [reflexivity|].
  destruct (indexed_at a i') eqn:Ei'.
  - rewrite (Hdiag i' eq_refl Ei'). simpl. lia.
  - pose proof (run_not_indexed i' Ei') as Hr. rewrite Hr.
    destruct (j2len !! i') as [k|] eqn:E; simpl; [|reflexivity].
    destruct (Hd i' k E) as (? & ? & _). lia.
Qed.

(** Positions whose step does not beat the best match only fill the
    dictionary. *)
Lemma row_loop_quiet bhi i (j2len : gmap nat nat) js :
  forall (newj2len : gmap nat nat) best,
  Forall (fun j => (j < bhi)%nat /\
                   (j2lenget_pred j2len j + 1 <= m_size best)%nat) js ->
  row_loop 0 bhi i j2len js newj2len best =
    (fold_left (fun m j => <[ j := (j2lenget_pred j2len j + 1)%nat ]> m)
       js newj2len, best).
Proof.
  induction js as [|j js IH]; intros newj2len best Hall; simpl; [reflexivity|].
  inversion Hall as [|? ? [Hj Hk] Hall']; subst.
  assert ((bhi <=? j)%nat = false) as -> by (apply Nat.leb_gt; lia).
  assert ((m_size best <? j2lenget_pred j2len j + 1)%nat = false) as ->
    by (apply Nat.ltb_ge; lia).
  now apply IH.
Qed.

Lemma row_loop_app blo bhi i (j2len : gmap nat nat) l1 l2 :
  forall (newj2len : gmap nat nat) best,
  Forall (fun j => (j < bhi)%nat) l1 ->
  row_loop blo bhi i j2len (l1 ++ l2) newj2len best =
    row_loop blo bhi i j2len l2
      (row_loop blo bhi i j2len l1 newj2len best).1
      (row_loop blo bhi i j2len l1 newj2len best).2.
Proof.
  induction l1 as [|j l1 IH]; intros newj2len best Hall; simpl; [reflexivity|].
  inversion Hall as [|? ? Hj Hall']; subst.
  destruct (j <? blo)%nat; [now apply IH|].
  assert ((bhi <=? j)%nat = false) as -> by (apply Nat.leb_gt; lia).
  now apply IH.
Qed.

Lemma fold_insert_prop (P : nat -> nat -> Prop) (g : nat -> nat) js :
  forall (m : gmap nat nat),
  (forall j k, m !! j = Some k -> P j k) ->
  Forall (fun j => P j (g j)) js ->
  forall j k,
  fold_left (fun m j => <[ j := g j ]> m) js m !! j = Some k -> P j k.
Proof.
  induction js as [|j0 js IH]; intros m Hm Hall j k; simpl; [apply Hm|].
  inversion Hall as [|? ? H0 Hall']; subst.
  apply IH; [|exact Hall'].
  intros j' k' Hl. apply lookup_insert_Some in Hl as [[<- <-]|[_ Hl]]; auto.
Qed.

Lemma fold_insert_other (g : nat -> nat) js i :
  forall (m : gmap nat nat),
  ~ In i js ->
  fold_left (fun m j => <[ j := g j ]> m) js m !! i = m !! i.
Proof.
  induction js as [|j0 js IH]; intros m Hni; simpl; [reflexivity|].
  rewrite IH by (intros Hin; apply Hni; now right).
  apply lookup_insert_ne. intros ->. apply Hni. now left.
Qed.

(** One row of the self-match, for an element that is a key of the index. *)
Lemma row_loop_indexed i x js (j2len : gmap nat nat) best :
  a !! i = Some x ->
  b2j a !! x = Some js ->
  row_dict_ok a i j2len ->
  best_ok a i best ->
  row_dict_ok a (S i) (row_loop 0 (length a) i j2len js ∅ best).1 /\
  best_ok a (S i) (row_loop 0 (length a) i j2len js ∅ best).2.
Proof.
  intros Hi Hx Hdict [Hdiag Hbest].
  pose proof (lookup_lt_Some _ _ _ Hi) as Hlt.
  pose proof (indexed_at_lookup i x js Hi Hx) as Hix.
  pose proof (step_diag i j2len Hdict Hix) as Hki.
  pose proof (run_indexed i Hix) as Hrun.
  rewrite (b2j_lookup a x js Hx).
  destruct (positions_split a i x Hi) as (lt & gt & -> & Hlt_all & Hgt_all).
  set (g := fun j => (j2lenget_pred j2len j + 1)%nat).
  (* the positions before [i] *)
  assert (Hq1 : Forall (fun j => (j < length a)%nat /\ (g j <= m_size best)%nat) lt).
  { eapply List.Forall_impl; [|exact Hlt_all]. intros j [Hj Haj]. split; [lia|].
    pose proof (step_le_run i j2len j Hdict (indexed_at_lookup j x js Haj Hx)).
    specialize (Hbest j Hj). unfold g. lia. }
  rewrite row_loop_app
    by (eapply List.Forall_impl; [|exact Hq1]; intros j [? _]; lia).
  rewrite (row_loop_quiet (length a) i j2len lt ∅ best Hq1).
  cbn [fst snd]. fold g.
  set (m1 := fold_left (fun (m : gmap nat nat) j => <[ j := g j ]> m) lt
               (∅ : gmap nat nat)).
  (* the position [i] itself *)
  cbn [row_loop]. cbv zeta.
  assert ((length a <=? i)%nat = false) as -> by (apply Nat.leb_gt; lia).
  cbn [Nat.ltb Nat.leb]. fold g. change (j2lenget_pred j2len i + 1)%nat with (g i).
  set (best1 := if (m_size best <? g i)%nat
                then mkMatch (i + 1 - g i) (i + 1 - g i) (g i) else best).
  assert (Hb1 : (m_size best <= m_size best1 /\ run a i <= m_size best1)%nat /\
                m_a best1 = m_b best1).
  { unfold best1. destruct (m_size best <? g i)%nat eqn:E.
    - apply Nat.ltb_lt in E. simpl. unfold g in *. lia.
    - apply Nat.ltb_ge in E. unfold g in *. split; [lia|exact Hdiag]. }
  destruct Hb1 as [[Hge Hri] Hdiag1].
  (* the positions after [i] *)
  assert (Hq2 : Forall (fun j => (j < length a)%nat /\ (g j <= m_size best1)%nat) gt).
  { eapply List.Forall_impl; [|exact Hgt_all]. intros j [Hj Haj]. split; [lia|].
    pose proof (step_le_prun i j2len j Hdict). unfold g. lia. }
  rewrite (row_loop_quiet (length a) i j2len gt (<[ i := g i ]> m1) best1 Hq2).
  cbn [fst snd]. fold g.
  split; [split|split].
  - (* the entries of the new dictionary *)
    apply (fold_insert_prop
             (fun j k => (1 <= k /\ k <= run a j /\ k <= prun a (S i))%nat) g gt).
    + intros j k Hl. apply lookup_insert_Some in Hl as [[<- <-]|[_ Hl]].
      * unfold g. simpl. lia.
      * revert j k Hl.
        apply (fold_insert_prop
                 (fun j k => (1 <= k /\ k <= run a j /\ k <= prun a (S i))%nat) g lt).
        -- intros j k Hl. now rewrite lookup_empty in Hl.
        -- eapply List.Forall_impl; [|exact Hlt_all]. intros j [Hj Haj].
           pose proof (step_le_run i j2len j Hdict (indexed_at_lookup j x js Haj Hx)).
           pose proof (step_le_prun i j2len j Hdict).
           unfold g. simpl. lia.
    + eapply List.Forall_impl; [|exact Hgt_all]. intros j [Hj Haj].
      pose proof (step_le_run i j2len j Hdict (indexed_at_lookup j x js Haj Hx)).
      pose proof (step_le_prun i j2len j Hdict).
      unfold g. simpl. lia.
  - (* the diagonal entry *)
    intros i' Heq _. injection Heq as <-.
    rewrite fold_insert_other.
    + rewrite lookup_insert_eq. unfold g. now rewrite Hki.
    + intros Hin. rewrite List.Forall_forall in Hgt_all.
      destruct (Hgt_all i Hin) as [? _]. lia.
  - exact Hdiag1.
  - intros p Hp. destruct (decide (p = i)) as [->|Hne]; [exact Hri|].
    assert (p < i)%nat as Hpi by lia. specialize (Hbest p Hpi). lia.
Qed.

(** All rows of the self-match: the best match stays on the diagonal. *)
Lemma rows_loop_diag cnt :
  forall i (j2len : gmap nat nat) best,
  (i + cnt <= length a)%nat ->
  row_dict_ok a i j2len ->
  best_ok a i best ->
  best_ok a (i + cnt)
    (rows_loop a a 0 (length a) (seq i cnt) j2len best).
Proof.
  induction cnt as [|cnt IH]; intros i j2len best Hle Hdict Hbest.
  - simpl. now rewrite Nat.add_0_r.
  - cbn [seq rows_loop].
    destruct (lookup_lt_is_Some_2 a i) as [x Hx]; [lia|].
    rewrite Hx.
    replace (i + S cnt)%nat with (S i + cnt)%nat by lia.
    destruct (b2j a !! x) as [js|] eqn:Hjs.
    + change (default [] (Some js)) with js.
      destruct (row_loop_indexed i x js j2len best Hx Hjs Hdict Hbest)
        as [Hd' Hb'].
      destruct (row_loop 0 (length a) i j2len js ∅ best) as [nj best'].
      apply IH; [lia|exact Hd'|exact Hb'].
    + change (default [] (@None (list nat))) with (@nil nat). cbn [row_loop].
      assert (Hni : indexed_at a i = false).
      { unfold indexed_at. rewrite Hx, Hjs. apply bool_decide_eq_false.
        intros [? ?]. discriminate. }
      apply IH; [lia| |].
      * split.
        -- intros j k Hl. now rewrite lookup_empty in Hl.
        -- intros i' Heq Hi'. injection Heq as <-. congruence.
      * destruct Hbest as [Hdiag Hbest]. split; [exact Hdiag|].
        intros p Hp. destruct (decide (p = i)) as [->|Hne].
        -- rewrite (run_not_indexed i Hni). lia.
        -- apply Hbest. lia.
Qed.

Lemma extend_left_diag besti :
  forall bestsize,
  extend_left a a 0 0 besti besti bestsize = mkMatch 0 0 (besti + bestsize).
Proof.
  induction besti as [|i' IH]; intros bestsize; [reflexivity|].
  cbn [extend_left]. cbn [Nat.ltb Nat.leb andb].
  rewrite bool_decide_eq_true_2 by reflexivity.
  rewrite IH. f_equal. lia.
Qed.

Lemma extend_right_diag n :
  forall bestsize,
  (bestsize <= length a)%nat ->
  (length a - bestsize <= n)%nat ->
  extend_right a a n (length a) (length a) 0 0 bestsize = length a.
Proof.
  induction n as [|n IH]; intros bestsize Hle Hn; cbn [extend_right]; [lia|].
  cbn [Nat.add].
  destruct (bestsize <? length a)%nat eqn:E.
  - cbn [andb]. rewrite bool_decide_eq_true_2 by reflexivity.
    apply Nat.ltb_lt in E. apply IH; lia.
  - cbn [andb]. apply Nat.ltb_ge in E. lia.
Qed.

(** Matching a sequence against itself finds the whole sequence. *)
Lemma find_longest_match_self :
  find_longest_match a a 0 (length a) 0 (length a) = mkMatch 0 0 (length a).
Proof.
  unfold find_longest_match. cbv zeta. rewrite Nat.sub_0_r.
  pose proof (rows_loop_diag (length a) 0 ∅ (mkMatch 0 0 0)) as Hd.
  destruct Hd as [Hdiag _].
  { simpl. lia. }
  { split.
    - intros j k Hl. now rewrite lookup_empty in Hl.
    - intros i' Heq. discriminate. }
  { split; [reflexivity|]. intros p Hp. lia. }
  pose proof (rows_loop_bounds a a 0 0 (length a) (length a) 0 ∅ (mkMatch 0 0 0))
    as Hb.
  destruct Hb as [_ Hb].
  { lia. }
  { intros j k Hl. now rewrite lookup_empty in Hl. }
  { unfold within. simpl. lia. }
  set (best := rows_loop a a 0 (length a) (seq 0 (length a)) ∅ (mkMatch 0 0 0)) in *.
  rewrite <- Hdiag. rewrite extend_left_diag. cbn [m_a m_b m_size].
  rewrite extend_right_diag; [reflexivity|simpl in Hb; lia|lia].
Qed.

Lemma get_matching_blocks_self :
  get_matching_blocks a a =
    if (length a =? 0)%nat then [mkMatch 0 0 0]
    else [mkMatch 0 0 (length a); mkMatch (length a) (length a) 0].
Proof.
  unfold get_matching_blocks, blocks_fuel. cbv zeta.
  replace (2 * length a + 1)%nat with (S (2 * length a)) by lia.
  cbn [blocks_loop]. rewrite find_longest_match_self. cbn [m_a m_b m_size].
  destruct (length a =? 0)%nat eqn:E.
  - apply Nat.eqb_eq in E. rewrite E. reflexivity.
  - cbn [Nat.add]. rewrite !Nat.ltb_irrefl. cbn [andb].
    assert (Hloop : forall n,
              blocks_loop a a n [] ([] ++ [mkMatch 0 0 (length a)]) =
                Some [mkMatch 0 0 (length a)]) by (intros []; reflexivity).
    rewrite Hloop. change (default [] (Some ?l)) with l.
    change (Py.sort_by Match_leb [mkMatch 0 0 (length a)])
      with [mkMatch 0 0 (length a)].
    cbn [collapse m_a m_b m_size Nat.add Nat.eqb andb]. rewrite E. reflexivity.
Qed.

(** The similarity ratio of a sequence with itself is 1. *)
Lemma ratio_self : (ratio a a == 1)%Q.
Proof.
  unfold ratio. cbv zeta. rewrite get_matching_blocks_self.
  destruct (length a =? 0)%nat eqn:E.
  - apply Nat.eqb_eq in E. rewrite E. reflexivity.
  - apply Nat.eqb_neq in E. cbn [List.map m_size list_sum fold_right].
    unfold _calculate_ratio.
    assert ((length a + length a =? 0)%nat = false) as ->
      by (apply Nat.eqb_neq; lia).
    rewrite Nat.add_0_r, Nat2Z.inj_add, inject_Z_plus.
    assert (Hnz : ~ (inject_Z (Z.of_nat (length a)) == 0)%Q).
    { intros Hq. apply (inject_Z_injective (Z.of_nat (length a)) 0) in Hq. lia. }
    field. intros Hq. apply Hnz. lra.
Qed.

End Diagonal.

End DifflibSpec.

(** ** The conflict detector *)
Module ConflictAgentSpec.
Import Py Models ModelsFacts ConflictAgent.

Example _normalize_content_example :
  _normalize_content
    (OptimizationAgent.example_entry 1 1 "  Zakup: SERWER-a,  (x2)! " 1 "niski" false)
  = "zakup serwer a x2".
Proof. vm_compute. reflexivity. Qed.

(** Two identical names in capitals carry the tag "security". *)
Example identical_capitals_tagged :
  _normalize_content entry_ochrona_a = "bezpieczeństwo" /\
  categories_of (_normalize_content entry_ochrona_a) = {["security"]} /\
  (_calculate_similarity entry_ochrona_a entry_ochrona_b == 1)%Q.
Proof. repeat split; vm_compute; reflexivity. Qed.

Lemma opt_eqb_sym x y : opt_eqb x y = opt_eqb y x.
Proof. destruct x, y; simpl; try reflexivity. apply Z.eqb_sym. Qed.

Lemma opt_eqb_refl x : opt_eqb x x = true.
Proof. destruct x; simpl; [apply Z.eqb_refl|reflexivity]. Qed.

Lemma opt_eqb_false x y : opt_eqb x y = false -> x <> y.
Proof. intros Hf ->. rewrite opt_eqb_refl in Hf. discriminate. Qed.

(** The category component does not depend on the order of the two
    contents. *)
Lemma _category_similarity_sym content_a content_b :
  _category_similarity content_a content_b =
  _category_similarity content_b content_a.
Proof.
  unfold _category_similarity. cbv zeta.
  rewrite (orb_comm (bool_decide (categories_of content_a = ∅))).
  assert (categories_of content_a ∩ categories_of content_b =
          categories_of content_b ∩ categories_of content_a) as ->
    by apply (comm_L (∩)).
  assert (categories_of content_a ∪ categories_of content_b =
          categories_of content_b ∪ categories_of content_a) as ->
    by apply (comm_L (∪)).
  reflexivity.
Qed.

(** With equal tag sets that are not empty, the category component is 1. *)
Lemma _category_similarity_same content :
  categories_of content <> ∅ ->
  (_category_similarity content content == 1)%Q.
Proof.
  intros Hne. unfold _category_similarity. cbv zeta.
  rewrite bool_decide_eq_false_2 by exact Hne. cbn [orb].
  assert (categories_of content ∩ categories_of content = categories_of content)
    as -> by apply (idemp_L (∩)).
  assert (categories_of content ∪ categories_of content = categories_of content)
    as -> by apply (idemp_L (∪)).
  assert (Hsz : size (categories_of content) <> 0%nat).
  { intros Hz. apply size_empty_iff in Hz. apply Hne.
    now apply leibniz_equiv. }
  assert ((0 <? size (categories_of content))%nat = true) as ->
    by (apply Nat.ltb_lt; lia).
  assert (Hq : ~ (inject_Z (Z.of_nat (size (categories_of content))) == 0)%Q).
  { intros Hq.
    apply (inject_Z_injective (Z.of_nat (size (categories_of content))) 0) in Hq.
    lia. }
  field. exact Hq.
Qed.

Lemma _create_conflict_ids db entry_a entry_b similarity y :
  cf_entry_a_id (_create_conflict db entry_a entry_b similarity y) = id entry_a /\
  cf_entry_b_id (_create_conflict db entry_a entry_b similarity y) = id entry_b.
Proof.
  unfold _create_conflict. cbv zeta.
  destruct (Qgeb similarity (85 # 100)); [split; reflexivity|].
  destruct (Qgeb similarity (7 # 10)); split; reflexivity.
Qed.

Lemma detect_pair_pairs y l entry_a entry_b st :
  In entry_a l -> In entry_b l ->
  (forall c, In c (ds_conflicts st) -> pair_of l c) ->
  forall c, In c (ds_conflicts (detect_pair y entry_a entry_b st)) -> pair_of l c.
Proof.
  intros Ha Hb Hst c. unfold detect_pair.
  destruct (opt_eqb (department_id entry_a) (department_id entry_b)) eqn:Hd;
    [apply Hst|].
  cbv zeta.
  destruct (bool_decide _); [apply Hst|].
  destruct (Qgeb _ SIMILARITY_THRESHOLD); cbn [ds_conflicts]; [|apply Hst].
  rewrite in_app_iff. intros [Hc|[<-|[]]]; [now apply Hst|].
  destruct (_create_conflict_ids (ds_db st) entry_a entry_b
              (_calculate_similarity entry_a entry_b) y) as [Hia Hib].
  exists entry_a, entry_b. rewrite Hia, Hib.
  repeat split; try assumption. now apply opt_eqb_false.
Qed.

Lemma detect_inner_pairs y l entry_a r :
  forall st,
  In entry_a l -> (forall e, In e r -> In e l) ->
  (forall c, In c (ds_conflicts st) -> pair_of l c) ->
  forall c,
  In c (ds_conflicts
          (fold_left (fun st entry_b => detect_pair y entry_a entry_b st) r st)) ->
  pair_of l c.
Proof.
  induction r as [|entry_b r IH]; intros st Ha Hr Hst; simpl; [exact Hst|].
  apply IH; [exact Ha|intros e He; apply Hr; now right|].
  apply detect_pair_pairs; [exact Ha|apply Hr; now left|exact Hst].
Qed.

Lemma detect_loop_pairs y l r :
  forall st,
  (forall e, In e r -> In e l) ->
  (forall c, In c (ds_conflicts st) -> pair_of l c) ->
  forall c, In c (ds_conflicts (detect_loop y r st)) -> pair_of l c.
Proof.
  induction r as [|entry_a r IH]; intros st Hr Hst; simpl; [exact Hst|].
  apply IH; [intros e He; apply Hr; now right|].
  apply detect_inner_pairs;
    [apply Hr; now left|intros e He; apply Hr; now right|exact Hst].
Qed.

(** C3, as the code has it.  The category and paragraph components of the
    similarity are symmetric, so the similarities of (A, B) and (B, A)
    differ exactly by 0.4 times the difference of the two text ratios, and
    agree when the normalized texts are equal; and every pair
    [detect_conflicts] reports is made of two entries of the store whose
    departments differ. *)
Theorem similarity_symmetric_up_to_text_ratio db y entry_a entry_b :
  (_calculate_similarity entry_a entry_b
     - Difflib.ratio_str (_normalize_content entry_a) (_normalize_content entry_b)
       * (4 # 10)
   == _calculate_similarity entry_b entry_a
     - Difflib.ratio_str (_normalize_content entry_b) (_normalize_content entry_a)
       * (4 # 10))%Q /\
  (_normalize_content entry_a = _normalize_content entry_b ->
   (_calculate_similarity entry_a entry_b ==
    _calculate_similarity entry_b entry_a)%Q) /\
  match detect_conflicts db y with
  | inl _ => has_kwota y = false
  | inr (reported, _) =>
      forall c, In c reported ->
        exists ea eb,
          In ea (entries db) /\ In eb (entries db) /\
          id ea = cf_entry_a_id c /\ id eb = cf_entry_b_id c /\
          department_id ea <> department_id eb
  end.
Proof.
  split; [|split].
  - unfold _calculate_similarity. cbv zeta.
    rewrite (_category_similarity_sym (_normalize_content entry_a)).
    rewrite (opt_eqb_sym (paragraf entry_a)). ring.
  - intros Heq. unfold _calculate_similarity. cbv zeta. rewrite Heq.
    rewrite (opt_eqb_sym (paragraf entry_a)). reflexivity.
  - unfold detect_conflicts.
    destruct (has_kwota y); cbn [negb]; [|reflexivity].
    intros c Hc. apply PyFacts.sort_by_In in Hc.
    set (l := List.filter
                (fun e => OptimizationAgent.amount_positive (get_kwota e y))
                (entries db)) in *.
    assert (Hp : pair_of l c).
    { apply (detect_loop_pairs y l l (mkDetect [] ∅ db)); [auto|intros c' []|exact Hc]. }
    destruct Hp as (ea & eb & Ha & Hb & Hr).
    exists ea, eb. unfold l in Ha, Hb.
    apply filter_In in Ha as [Ha _]. apply filter_In in Hb as [Hb _]. auto.
Qed.

(** C3 as stated fails: the texts "tide" and "diet" give 0.3 in one order
    and 0.4 in the other. *)
Lemma similarity_depends_on_order :
  (_calculate_similarity entry_tide entry_diet == 3 # 10)%Q /\
  (_calculate_similarity entry_diet entry_tide == 4 # 10)%Q /\
  ~ (_calculate_similarity entry_tide entry_diet ==
     _calculate_similarity entry_diet entry_tide)%Q.
Proof.
  assert (H1 : (_calculate_similarity entry_tide entry_diet == 3 # 10)%Q)
    by (vm_compute; reflexivity).
  assert (H2 : (_calculate_similarity entry_diet entry_tide == 4 # 10)%Q)
    by (vm_compute; reflexivity).
  split; [exact H1|]. split; [exact H2|].
  rewrite H1, H2. intros Hq. vm_compute in Hq. discriminate.
Qed.


(** C4, as the code has it.  Two entries from different departments with
    the same name, description and justification, whose text carries at
    least one category keyword (so that their common tag set is not empty),
    and with equal paragraph codes have similarity 1. *)
Theorem identical_tagged_entries_similarity_one entry_a entry_b :
  department_id entry_a <> department_id entry_b ->
  nazwa_zadania entry_a = nazwa_zadania entry_b ->
  opis_projektu entry_a = opis_projektu entry_b ->
  szczegolowe_uzasadnienie entry_a = szczegolowe_uzasadnienie entry_b ->
  paragraf entry_a = paragraf entry_b ->
  categories_of (_normalize_content entry_a) <> ∅ ->
  categories_of (_normalize_content entry_a) =
    categories_of (_normalize_content entry_b) /\
  (_calculate_similarity entry_a entry_b == 1)%Q.
Proof.
  intros _ Hn Ho Hu Hp Hc.
  assert (Heq : _normalize_content entry_b = _normalize_content entry_a).
  { unfold _normalize_content. now rewrite Hn, Ho, Hu. }
  split; [now rewrite Heq|].
  unfold _calculate_similarity. cbv zeta. rewrite Heq, Hp, opt_eqb_refl.
  unfold Difflib.ratio_str.
  rewrite (DifflibSpec.ratio_self
             (Py.code_points (_normalize_content entry_a))).
  rewrite (_category_similarity_same _ Hc). reflexivity.
Qed.

Lemma identical_tagged_entries_similarity_one_witness :
  categories_of (_normalize_content entry_office_a) =
    categories_of (_normalize_content entry_office_b) /\
  (_calculate_similarity entry_office_a entry_office_b == 1)%Q.
Proof.
  apply (identical_tagged_entries_similarity_one entry_office_a entry_office_b).
  - discriminate.
  - reflexivity.
  - reflexivity.
  - reflexivity.
  - reflexivity.
  - apply (bool_decide_eq_false_1 _). vm_compute. reflexivity.
Defined.

(** C4 as stated fails: the two entries "Zakup papieru" come from
    different departments, have the same texts, the same (empty) tag sets
    and the same paragraph, yet their similarity is 0.6. *)
Lemma identical_untagged_entries_similarity :
  department_id entry_papier_a <> department_id entry_papier_b /\
  nazwa_zadania entry_papier_a = nazwa_zadania entry_papier_b /\
  opis_projektu entry_papier_a = opis_projektu entry_papier_b /\
  szczegolowe_uzasadnienie entry_papier_a =
    szczegolowe_uzasadnienie entry_papier_b /\
  paragraf entry_papier_a = paragraf entry_papier_b /\
  categories_of (_normalize_content entry_papier_a) =
    categories_of (_normalize_content entry_papier_b) /\
  (_calculate_similarity entry_papier_a entry_papier_b == 6 # 10)%Q /\
  ~ (_calculate_similarity entry_papier_a entry_papier_b == 1)%Q.
Proof.
  assert (Hs : (_calculate_similarity entry_papier_a entry_papier_b == 6 # 10)%Q)
    by (vm_compute; reflexivity).
  split; [discriminate|]. do 5 (split; [reflexivity|]).
  split; [exact Hs|]. rewrite Hs. intros Hq. vm_compute in Hq. discriminate.
Qed.

Lemma consolidate_amounts_id remove e : id (consolidate_amounts remove e) = id e.
Proof. reflexivity. Qed.



End ConflictAgentSpec.

(** ** The forecaster *)
Module ForecasterAgentSpec.
Import Py Models ModelsFacts ForecasterAgent.

(** Rounding a rational that is an integer gives that integer. *)
Lemma round_half_even_Z q z : (q == inject_Z z)%Q -> round_half_even q = z.
Proof.
  intros Hq. unfold round_half_even. cbv zeta.
  assert (Hf : Qfloor q = z) by (rewrite Hq; apply Qfloor_Z).
  rewrite Hf.
  assert (Hlt : (q - inject_Z z < 1 # 2)%Q) by (rewrite Hq; lra).
  destruct (Qcompare (q - inject_Z z) (1 # 2)) eqn:E; [| reflexivity |].
  - apply Qeq_alt in E. lra.
  - apply Qgt_alt in E. lra.
Qed.

(** A value with at most two decimals is its own rounding to two digits. *)
Lemma round_ndigits_2 q z :
  (q * 100 == inject_Z z)%Q -> (round_ndigits q 2 == q)%Q.
Proof.
  intros Hq. unfold round_ndigits. cbv zeta.
  change (inject_Z (10 ^ Z.of_nat 2)) with (inject_Z 100).
  assert (Hr : round_half_even (q * inject_Z 100) = z).
  { apply round_half_even_Z. rewrite <- Hq. reflexivity. }
  rewrite Hr, <- Hq. change (inject_Z 100) with 100%Q. field.
Qed.

Lemma confidence_at_cases offset :
  (offset <= 3 /\ (confidence_at offset == 1 - inject_Z offset * (15 # 100))%Q) \/
  (4 <= offset /\ confidence_at offset = (1 # 2)%Q).
Proof.
  unfold confidence_at, Qmax.
  destruct (Qltb (1 # 2) (1 - inject_Z offset * (15 # 100))) eqn:E.
  - left. apply PyFacts.Qltb_lt in E. split; [|reflexivity].
    destruct (Z_le_gt_dec offset 3) as [Hle|Hgt]; [exact Hle|exfalso].
    assert (Hq : (inject_Z 4 <= inject_Z offset)%Q)
      by (rewrite <- Zle_Qle; lia).
    change (inject_Z 4) with 4%Q in Hq. lra.
  - right. apply PyFacts.Qltb_ge in E. split; [|reflexivity].
    destruct (Z_le_gt_dec 4 offset) as [Hle|Hgt]; [exact Hle|exfalso].
    assert (Hq : (inject_Z offset <= inject_Z 3)%Q)
      by (rewrite <- Zle_Qle; lia).
    change (inject_Z 3) with 3%Q in Hq. lra.
Qed.

Lemma confidence_at_rounded offset :
  (round_ndigits (confidence_at offset) 2 == confidence_at offset)%Q.
Proof.
  destruct (confidence_at_cases offset) as [[_ Hc]|[_ Hc]].
  - apply (round_ndigits_2 _ (100 - 15 * offset)).
    rewrite Hc. unfold Zminus. rewrite inject_Z_plus, inject_Z_opp, inject_Z_mult.
    change (inject_Z 100) with 100%Q. change (inject_Z 15) with 15%Q. field.
  - rewrite Hc. reflexivity.
Qed.

Lemma confidence_at_mono o1 o2 :
  o1 < o2 ->
  (confidence_at o2 <= confidence_at o1)%Q /\
  (o1 <= 3 -> (confidence_at o2 < confidence_at o1)%Q) /\
  (4 <= o1 -> (confidence_at o2 == confidence_at o1)%Q).
Proof.
  intros Hlt.
  assert (Hq : (inject_Z o1 + 1 <= inject_Z o2)%Q).
  { change 1%Q with (inject_Z 1). rewrite <- inject_Z_plus, <- Zle_Qle. lia. }
  destruct (confidence_at_cases o1) as [[H1 Hc1]|[H1 Hc1]];
    destruct (confidence_at_cases o2) as [[H2 Hc2]|[H2 Hc2]];
    rewrite Hc1, Hc2.
  - split; [lra|]. split; [intros _; lra|intros; lia].
  - assert (Hq3 : (inject_Z o1 <= inject_Z 3)%Q) by (rewrite <- Zle_Qle; lia).
    change (inject_Z 3) with 3%Q in Hq3.
    split; [lra|]. split; [intros _; lra|intros; lia].
  - lia.
  - split; [lra|]. split; [intros; lia|intros _; reflexivity].
Qed.

Lemma nth_error_map_seq {B} (f : nat -> B) s n i y :
  nth_error (List.map f (seq s n)) i = Some y -> (i < n)%nat /\ y = f (s + i)%nat.
Proof.
  revert s i. induction n as [|n IH]; intros s i; simpl.
  - destruct i; discriminate.
  - destruct i as [|i]; simpl.
    + intros [= <-]. split; [lia|]. now rewrite Nat.add_0_r.
    + intros Hn. destruct (IH (S s) i Hn) as [Hlt ->]. split; [lia|].
      f_equal. lia.
Qed.

(** The confidences [forecast_budget] returns, offset by offset. *)
Lemma forecast_budget_confidences db base_year forecast_years :
  has_kwota base_year = true ->
  exists r,
    forecast_budget db base_year forecast_years = inr r /\
    confidences r =
      List.map (fun k => round_ndigits (confidence_at (Z.of_nat k)) 2)
        (seq 1 (Z.to_nat forecast_years)).
Proof.
  intros Hy. unfold forecast_budget, _get_year_data. rewrite Hy. cbn [negb].
  destruct (fold_left _ _ _) as [categorized by_department].
  eexists. split; [reflexivity|].
  unfold confidences. cbn [bf_forecasts]. unfold range1.
  rewrite !List.map_map. reflexivity.
Qed.

Lemma confidence_at_ge_half offset : (1 # 2 <= confidence_at offset)%Q.
Proof.
  unfold confidence_at, Qmax.
  destruct (Qltb (1 # 2) (1 - inject_Z offset * (15 # 100))) eqn:E.
  - apply PyFacts.Qltb_lt in E. lra.
  - lra.
Qed.

(** C8, as the code has it.  For a base year that has an amount column,
    [forecast_budget] returns one forecast per offset 1, ..., n; the
    confidence at an offset is max(0.5, 1 - 0.15 x offset), is at least 0.5
    and never increases with the offset; it decreases strictly from each of
    the offsets 1, 2 and 3 to any later one, and stays at 0.5 from offset 4
    on. *)
Theorem forecast_confidence_profile db base_year forecast_years :
  has_kwota base_year = true ->
  exists r,
    forecast_budget db base_year forecast_years = inr r /\
    length (confidences r) = Z.to_nat forecast_years /\
    forall i c, nth_error (confidences r) i = Some c ->
      (c == Qmax (1 # 2) (1 - inject_Z (Z.of_nat (S i)) * (15 # 100)))%Q /\
      (1 # 2 <= c)%Q /\
      forall j c', (i < j)%nat -> nth_error (confidences r) j = Some c' ->
        (c' <= c)%Q /\
        ((S i <= 3)%nat -> (c' < c)%Q) /\
        ((4 <= S i)%nat -> (c' == c)%Q).
Proof.
  intros Hy.
  destruct (forecast_budget_confidences db base_year forecast_years Hy)
    as (r & Hr & Hc).
  exists r. split; [exact Hr|]. rewrite Hc.
  split; [now rewrite length_map, length_seq|].
  intros i c Hi. apply nth_error_map_seq in Hi as [_ ->].
  change (1 + i)%nat with (S i).
  pose proof (confidence_at_rounded (Z.of_nat (S i))) as Hri.
  split; [exact Hri|]. split.
  { rewrite Hri. apply confidence_at_ge_half. }
  intros j c' Hij Hj. apply nth_error_map_seq in Hj as [_ ->].
  change (1 + j)%nat with (S j).
  rewrite Hri, (confidence_at_rounded (Z.of_nat (S j))).
  destruct (confidence_at_mono (Z.of_nat (S i)) (Z.of_nat (S j))) as (H1 & H2 & H3);
    [lia|].
  split; [exact H1|]. split; intros Hle; [apply H2|apply H3]; lia.
Qed.

Lemma forecast_confidence_profile_witness :
  exists r,
    forecast_budget OptimizationAgent.example_db 2025 5 = inr r /\
    length (confidences r) = Z.to_nat 5 /\
    forall i c, nth_error (confidences r) i = Some c ->
      (c == Qmax (1 # 2) (1 - inject_Z (Z.of_nat (S i)) * (15 # 100)))%Q /\
      (1 # 2 <= c)%Q /\
      forall j c', (i < j)%nat -> nth_error (confidences r) j = Some c' ->
        (c' <= c)%Q /\
        ((S i <= 3)%nat -> (c' < c)%Q) /\
        ((4 <= S i)%nat -> (c' == c)%Q).
Proof.
  apply (forecast_confidence_profile OptimizationAgent.example_db 2025 5).
  reflexivity.
Defined.

(** C8 as stated fails: over five forecast years the confidences at
    offsets 4 and 5 are both 0.5, so the confidence is not strictly
    decreasing. *)
Lemma confidence_flat_from_offset_4 :
  exists r c4 c5,
    forecast_budget OptimizationAgent.example_db 2025 5 = inr r /\
    nth_error (confidences r) 3 = Some c4 /\
    nth_error (confidences r) 4 = Some c5 /\
    (c4 == 1 # 2)%Q /\ (c5 == 1 # 2)%Q /\ ~ (c5 < c4)%Q.
Proof.
  destruct (forecast_budget_confidences OptimizationAgent.example_db 2025 5
              eq_refl) as (r & Hr & Hc).
  exists r, (round_ndigits (confidence_at 4) 2), (round_ndigits (confidence_at 5) 2).
  split; [exact Hr|]. rewrite Hc.
  split; [reflexivity|]. split; [reflexivity|].
  assert (H4 : (round_ndigits (confidence_at 4) 2 == 1 # 2)%Q)
    by (vm_compute; reflexivity).
  assert (H5 : (round_ndigits (confidence_at 5) 2 == 1 # 2)%Q)
    by (vm_compute; reflexivity).
  split; [exact H4|]. split; [exact H5|].
  rewrite H4, H5. apply Qlt_irrefl.
Qed.

Section Anomalies.
Variable sqrt : Q -> Q.

(** What the loop body appends for an entry, as far as outliers go. *)
Lemma anomalies_of_outlier y mean std_dev e :
  let z := z_score_of mean std_dev (kwota_or0 e y) in
  ((3 < Qabs z)%Q ->
   In (outlier_of e (if Qgtb z 4 then "high" else "medium"))
      (anomalies_of y mean std_dev e)) /\
  ((Qabs z <= 3)%Q ->
   forall a, In a (anomalies_of y mean std_dev e) -> a_type a <> "outlier").
Proof.
  cbv zeta. unfold anomalies_of. cbv zeta.
  fold (task_of e).
  set (z := z_score_of mean std_dev (kwota_or0 e y)).
  split.
  - intros Hz. apply PyFacts.Qgtb_gt in Hz. rewrite Hz.
    apply in_or_app. left. now left.
  - intros Hz. apply PyFacts.Qltb_ge in Hz. unfold Qgtb. rewrite Hz.
    intros a Ha. cbn [app] in Ha. apply in_app_or in Ha as [Ha|Ha].
    + destruct (Qltb 10000 (kwota_or0 e y) &&
                negb (truthy_str (szczegolowe_uzasadnienie e)));
        [destruct Ha as [<-|[]]; discriminate|destruct Ha].
    + destruct (paragraf e) as [p|]; [|destruct Ha].
      destruct (negb (p =? 0)); [|destruct Ha].
      destruct (_ && _); [destruct Ha as [<-|[]]; discriminate|destruct Ha].
Qed.


End Anomalies.



End ForecasterAgentSpec.

(** ** More on the compliance checker *)
Module ComplianceAgentFacts.
Import Py Models ComplianceAgent ComplianceAgentSpec Notions.

Lemma step_paragraf_warnings e r :
  warnings (step_paragraf e r) =
    warnings r ++
    (if truthy_int (paragraf e) then pc_warnings (_validate_paragraf e) else []).
Proof.
  unfold step_paragraf.
  destruct (truthy_int (paragraf e)); [|now rewrite app_nil_r].
  cbv zeta. destruct (truthy_int (pc_suggested_paragraf _)); reflexivity.
Qed.

Lemma step_classification_warnings e r :
  warnings (step_classification e r) =
    warnings r ++ cc_warnings (_validate_classification e).
Proof.
  unfold step_classification. rewrite (classification_never_corrects e).
  reflexivity.
Qed.

Lemma step_amounts_warnings e r :
  warnings (step_amounts e r) = warnings r ++ _validate_amounts e.
Proof. unfold step_amounts. cbv zeta. destruct (negb _); reflexivity. Qed.

Lemma step_fields_warnings e r :
  warnings (step_fields e r) = warnings r ++ _validate_required_fields e.
Proof. unfold step_fields. cbv zeta. destruct (negb _); reflexivity. Qed.

(** The warnings of [validate_entry]: those of the four checks, in the
    order of the calls; the paragraph check runs only for an entry that
    has a paragraph. *)
Lemma validate_entry_warnings e :
  warnings (validate_entry e) =
    (if truthy_int (paragraf e) then pc_warnings (_validate_paragraf e) else [])
    ++ cc_warnings (_validate_classification e)
    ++ _validate_amounts e ++ _validate_required_fields e.
Proof.
  unfold validate_entry, step_final. cbv zeta. cbn [warnings].
  rewrite step_fields_warnings, step_amounts_warnings,
    step_classification_warnings, step_paragraf_warnings.
  cbn [warnings app]. now rewrite <- !app_assoc.
Qed.

(** The two shapes of the paragraph check on an entry that has a
    paragraph: no suggestion, or the suggestion of 6060 for a code of the
    "current" group whose entry mentions an investment keyword. *)
Lemma _validate_paragraf_cases e :
  truthy_int (paragraf e) = true ->
  (pc_suggested_paragraf (_validate_paragraf e) = None /\
   exists p, paragraf e = Some p /\ p <> 0 /\
     (pc_warnings (_validate_paragraf e) = [] \/
      (classification p = None /\
       pc_warnings (_validate_paragraf e) = [Nieznany_paragraf p]) \/
      exists kw, pc_warnings (_validate_paragraf e) = [Wydatek_biezacy kw])) \/
  (exists p info kw,
     paragraf e = Some p /\ classification p = Some info /\
     info_group info = current /\
     first_in INVESTMENT_KEYWORDS (_get_entry_content e) = Some kw /\
     _validate_paragraf e =
       mkParagrafCheck [Zakup_inwestycyjny kw (info_name info) p]
         (Some 6060) (Some kw)).
Proof.
  intros Ht. unfold _validate_paragraf.
  destruct (paragraf e) as [p|] eqn:Hp; [|discriminate].
  cbn [truthy_int] in Ht. apply negb_true_iff in Ht. rewrite Ht.
  apply Z.eqb_neq in Ht.
  destruct (classification p) as [info|] eqn:Hc.
  - cbv zeta. destruct (info_group info) eqn:Hg; cbn [group_eqb].
    + left. destruct (first_in CURRENT_KEYWORDS _) as [kw|];
        cbn [pc_suggested_paragraf pc_warnings app].
      * split; [reflexivity|]. exists p.
        split; [reflexivity|]. split; [exact Ht|]. right. right. now exists kw.
      * split; [reflexivity|]. exists p.
        split; [reflexivity|]. split; [exact Ht|]. now left.
    + destruct (first_in INVESTMENT_KEYWORDS _) as [kw|] eqn:Hk.
      * right. exists p, info, kw. repeat split; try reflexivity; assumption.
      * left. split; [reflexivity|]. exists p.
        split; [reflexivity|]. split; [exact Ht|]. now left.
    + left. split; [reflexivity|]. exists p.
      split; [reflexivity|]. split; [exact Ht|]. now left.
  - left. split; [reflexivity|]. exists p.
    split; [reflexivity|]. split; [exact Ht|]. right. left. split; [exact Hc|reflexivity].
Qed.

Lemma paragraf_penalty_cases e : paragraf_penalty e = 0 \/ paragraf_penalty e = 20.
Proof. unfold paragraf_penalty. destruct (_ && _); auto. Qed.

Lemma amount_penalty_cases e : amount_penalty e = 0 \/ amount_penalty e = 10.
Proof. unfold amount_penalty. destruct (negb _); auto. Qed.

Lemma validate_entry_score_min e : 55 <= compliance_score (validate_entry e).
Proof.
  destruct (validate_entry_score e) as [Hs _]. cbv zeta in Hs.
  pose proof (paragraf_penalty_range e).
  pose proof (amount_penalty_range e). pose proof (field_penalty_range e).
  lia.
Qed.

(** X1. The compliance score is never below 55 and always a multiple of
    5: the paragraph check takes 0 or 20 points, the amount check 0 or 10,
    the required-field check 5 for each of at most three warnings, and the
    classification check none. *)
Theorem validate_entry_score_floor e :
  55 <= compliance_score (validate_entry e) <= 100 /\
  exists k, compliance_score (validate_entry e) = 5 * k.
Proof.
  destruct (validate_entry_score e) as [Hs _]. cbv zeta in Hs.
  pose proof (field_warnings_le_3 e) as Hf.
  destruct (paragraf_penalty_cases e) as [Hp|Hp];
    destruct (amount_penalty_cases e) as [Ha|Ha];
    rewrite Hs, Hp, Ha; unfold field_penalty;
    (split; [lia|]).
  - exists (20 - Z.of_nat (length (_validate_required_fields e))). lia.
  - exists (18 - Z.of_nat (length (_validate_required_fields e))). lia.
  - exists (16 - Z.of_nat (length (_validate_required_fields e))). lia.
  - exists (14 - Z.of_nat (length (_validate_required_fields e))). lia.
Qed.

Lemma cc_warnings_format e w :
  In w (cc_warnings (_validate_classification e)) ->
  exists bz, w = Format_kodu_BZ bz.
Proof.
  unfold _validate_classification.
  repeat match goal with
         | |- context [if ?b then _ else _] => destruct b
         | |- context [match ?b with Some _ => _ | None => _ end] => destruct b
         end; cbn; intros Hin; try tauto.
  destruct Hin as [<-|[]]. eauto.
Qed.

Lemma _validate_amounts_kinds e w :
  In w (_validate_amounts e) ->
  (exists q, w = Wysokie_wydatki q) \/ w = Spadek_finansowania \/
  w = Inwestycja_bez_planowania.
Proof.
  unfold _validate_amounts. cbv zeta.
  repeat match goal with
         | |- context [if ?b then _ else _] => destruct b
         end; cbn; intros Hin;
    repeat match goal with
           | H : _ \/ _ |- _ => destruct H as [H|H]
           | H : False |- _ => destruct H
           end; subst; eauto.
Qed.

Lemma _validate_required_fields_kinds e w :
  In w (_validate_required_fields e) ->
  w = Brak_nazwy \/ w = Brak_departamentu \/ w = Brak_zadania_inwestycyjnego.
Proof.
  unfold _validate_required_fields. cbv zeta.
  repeat match goal with
         | |- context [if ?b then _ else _] => destruct b
         end; cbn; intros Hin;
    repeat match goal with
           | H : _ \/ _ |- _ => destruct H as [H|H]
           | H : False |- _ => destruct H
           end; subst; eauto.
Qed.

(** X2. [validate_entry] never reports a missing paragraph: it calls the
    paragraph check only when the entry has one, although the check itself
    answers "Brak paragrafu" for an entry without. *)
Theorem validate_entry_never_reports_missing_paragraf e :
  ~ In Brak_paragrafu (warnings (validate_entry e)) /\
  (truthy_int (paragraf e) = false ->
   pc_warnings (_validate_paragraf e) = [Brak_paragrafu] /\
   warnings (validate_entry e) =
     _validate_amounts e ++ _validate_required_fields e).
Proof.
  split.
  - rewrite validate_entry_warnings, !in_app_iff.
    intros [H|[H|[H|H]]].
    + destruct (truthy_int (paragraf e)) eqn:Ht; [|destruct H].
      destruct (_validate_paragraf_cases e Ht)
        as [(_ & p & _ & _ & [Hw|[[_ Hw]|[kw Hw]]])|(p & info & kw & _ & _ & _ & _ & Hw)];
        rewrite Hw in H; cbn in H; intuition discriminate.
    + apply cc_warnings_format in H as [bz H]. discriminate.
    + apply _validate_amounts_kinds in H as [[q H]|[H|H]]; discriminate.
    + apply _validate_required_fields_kinds in H as [H|[H|H]]; discriminate.
  - intros Ht. split.
    + unfold _validate_paragraf. destruct (paragraf e) as [p|]; [|reflexivity].
      cbn [truthy_int] in Ht. apply negb_false_iff in Ht. now rewrite Ht.
    + rewrite validate_entry_warnings, Ht.
      unfold _validate_classification. rewrite Ht. reflexivity.
Qed.

(** X3. The only correction [validate_entry] ever proposes is the move of
    the paragraph to 6060: either there is no correction and no suggested
    paragraph, and then the entry is valid with a score of at least 75; or
    there is exactly one, for a known paragraph of the "current" group
    whose entry mentions an investment keyword. *)
Theorem validate_entry_corrections_shape e :
  (auto_corrections (validate_entry e) = [] /\
   suggested_paragraf (validate_entry e) = None /\
   is_valid (validate_entry e) = true /\
   75 <= compliance_score (validate_entry e)) \/
  (exists p info kw,
     paragraf e = Some p /\ classification p = Some info /\
     info_group info = current /\ In kw INVESTMENT_KEYWORDS /\
     contains kw (_get_entry_content e) = true /\
     auto_corrections (validate_entry e) =
       [mkCorrection "paragraf" (Some p) 6060 (Some kw)] /\
     suggested_paragraf (validate_entry e) = Some 6060 /\
     compliance_score (validate_entry e) <= 80).
Proof.
  destruct (validate_entry_corrections e) as [Hac Hsp].
  destruct (validate_entry_score e) as [Hs Hv]. cbv zeta in Hs, Hv.
  pose proof (amount_penalty_range e). pose proof (field_penalty_range e).
  assert (Hnone : paragraf_penalty e = 0 ->
            step_paragraf e (mkValidation true [] [] None 100) =
              mkValidation true
                (if truthy_int (paragraf e)
                 then pc_warnings (_validate_paragraf e) else [])
                [] None 100 ->
            auto_corrections (validate_entry e) = [] /\
            suggested_paragraf (validate_entry e) = None /\
            is_valid (validate_entry e) = true /\
            75 <= compliance_score (validate_entry e)).
  { intros Hp Hstep. rewrite Hac, Hsp, Hs, Hv, Hstep, Hp. cbn.
    repeat split; try lia; apply Z.leb_le; lia. }
  destruct (truthy_int (paragraf e)) eqn:Ht.
  - destruct (_validate_paragraf_cases e Ht)
      as [(Hnos & _)|(p & info & kw & Hp & Hc & Hg & Hk & Hw)].
    + left. apply Hnone.
      * unfold paragraf_penalty. now rewrite Ht, Hnos.
      * unfold step_paragraf. rewrite Ht. cbv zeta. now rewrite Hnos.
    + right. exists p, info, kw.
      destruct (PyFacts.first_in_spec _ _ _ Hk) as [Hin Hcont].
      assert (Hstep : step_paragraf e (mkValidation true [] [] None 100) =
                mkValidation true [Zakup_inwestycyjny kw (info_name info) p]
                  [mkCorrection "paragraf" (Some p) 6060 (Some kw)]
                  (Some 6060) 80).
      { unfold step_paragraf. rewrite Ht, Hw, Hp. reflexivity. }
      assert (Hpen : paragraf_penalty e = 20).
      { unfold paragraf_penalty. rewrite Ht, Hw. reflexivity. }
      rewrite Hac, Hsp, Hs, Hstep, Hpen. cbn [auto_corrections suggested_paragraf].
      repeat split; try assumption; try reflexivity. lia.
  - left. apply Hnone.
    + unfold paragraf_penalty. now rewrite Ht.
    + unfold step_paragraf. now rewrite Ht.
Qed.

(** X4. A paragraph code that the classification table does not know is
    reported and costs nothing: no correction, no suggestion, and the
    entry stays valid with the score the amount and required-field checks
    leave. *)
Theorem validate_entry_unknown_paragraf e p :
  paragraf e = Some p -> p <> 0 -> classification p = None ->
  In (Nieznany_paragraf p) (warnings (validate_entry e)) /\
  auto_corrections (validate_entry e) = [] /\
  suggested_paragraf (validate_entry e) = None /\
  is_valid (validate_entry e) = true /\
  compliance_score (validate_entry e) =
    100 - amount_penalty e - field_penalty e.
Proof.
  intros Hp Hnz Hc.
  assert (Ht : truthy_int (paragraf e) = true).
  { rewrite Hp. cbn. apply Z.eqb_neq in Hnz. now rewrite Hnz. }
  assert (Hw : _validate_paragraf e = mkParagrafCheck [Nieznany_paragraf p] None None).
  { unfold _validate_paragraf. rewrite Hp. apply Z.eqb_neq in Hnz.
    now rewrite Hnz, Hc. }
  destruct (validate_entry_corrections e) as [Hac Hsp].
  destruct (validate_entry_score e) as [Hs Hv]. cbv zeta in Hs, Hv.
  pose proof (amount_penalty_range e). pose proof (field_penalty_range e).
  assert (Hpen : paragraf_penalty e = 0).
  { unfold paragraf_penalty. now rewrite Ht, Hw. }
  assert (Hstep : step_paragraf e (mkValidation true [] [] None 100) =
            mkValidation true [Nieznany_paragraf p] [] None 100).
  { unfold step_paragraf. rewrite Ht, Hw. reflexivity. }
  rewrite validate_entry_warnings, Ht, Hw, Hac, Hsp, Hs, Hv, Hstep, Hpen.
  cbn [pc_warnings auto_corrections suggested_paragraf].
  repeat split; try reflexivity.
  - cbn. now left.
  - apply Z.leb_le. lia.
  - lia.
Qed.

Lemma validate_entry_unknown_paragraf_witness :
  In (Nieznany_paragraf 9999) (warnings (validate_entry entry_unknown_paragraf)) /\
  auto_corrections (validate_entry entry_unknown_paragraf) = [] /\
  suggested_paragraf (validate_entry entry_unknown_paragraf) = None /\
  is_valid (validate_entry entry_unknown_paragraf) = true /\
  compliance_score (validate_entry entry_unknown_paragraf) =
    100 - amount_penalty entry_unknown_paragraf
      - field_penalty entry_unknown_paragraf.
Proof.
  apply (validate_entry_unknown_paragraf entry_unknown_paragraf 9999).
  - reflexivity.
  - lia.
  - vm_compute. reflexivity.
Defined.

End ComplianceAgentFacts.

(** ** The submission checks of main.py *)
Module MainFacts.
Import Py Models ComplianceAgent Main.

(** X5. The compliance score never decides a submission, as it is never
    below the threshold of 50.  Submitting one entry fails only for missing
    fields; the submit-all loop accepts every entry that has a name or a
    description and a paragraph, also one without any amount, which the
    single submission refuses. *)
Theorem submission_never_blocked_by_score e :
  submit_entry_checks e =
    (if negb (is_nil (submit_errors e)) then Missing_fields (submit_errors e)
     else Submitted (compliance_score (validate_entry e))) /\
  submit_all_accepts e =
    (truthy_str (nazwa_zadania e) || truthy_str (opis_projektu e)) &&
    truthy_int (paragraf e) /\
  (submit_all_accepts e = true ->
   submit_entry_checks e = Submitted (compliance_score (validate_entry e)) \/
   submit_entry_checks e = Missing_fields [Brak_kwot_finansowych]).
Proof.
  pose proof (ComplianceAgentFacts.validate_entry_score_min e) as Hmin.
  assert (Hlt : (compliance_score (validate_entry e) <? 50) = false)
    by (apply Z.ltb_ge; lia).
  assert (Hle : (50 <=? compliance_score (validate_entry e)) = true)
    by (apply Z.leb_le; lia).
  assert (H1 : submit_entry_checks e =
            (if negb (is_nil (submit_errors e))
             then Missing_fields (submit_errors e)
             else Submitted (compliance_score (validate_entry e)))).
  { unfold submit_entry_checks. cbv zeta. now rewrite Hlt. }
  assert (H2 : submit_all_accepts e =
            (truthy_str (nazwa_zadania e) || truthy_str (opis_projektu e)) &&
            truthy_int (paragraf e)).
  { unfold submit_all_accepts. cbv zeta. now rewrite Hle. }
  split; [exact H1|]. split; [exact H2|].
  rewrite H1, H2. unfold submit_errors. intros Hacc.
  apply andb_true_iff in Hacc as [Hname Hpar]. rewrite Hpar.
  assert (Hn : negb (truthy_str (nazwa_zadania e)) &&
               negb (truthy_str (opis_projektu e)) = false).
  { destruct (truthy_str (nazwa_zadania e)), (truthy_str (opis_projektu e));
      try reflexivity; discriminate. }
  rewrite Hn. cbn [negb app].
  destruct (negb (truthy_num (kwota_2025 e)) && negb (truthy_num (kwota_2026 e)) &&
            negb (truthy_num (kwota_2027 e))); cbn [is_nil negb].
  - now right.
  - now left.
Qed.

End MainFacts.

(** ** Sorting *)
Module SortFacts.
Import Py Notions.

Lemma insert_by_sorted {A} (leb : A -> A -> bool) x l :
  (forall u v, leb u v = false -> leb v u = true) ->
  sorted_by leb l -> sorted_by leb (insert_by leb x l).
Proof.
  intros Htot. induction l as [|y l IH]; [intros _; exact I|].
  intros Hs. cbn [insert_by]. destruct (leb x y) eqn:E.
  - split; [exact E|exact Hs].
  - destruct l as [|z l'].
    + split; [now apply Htot|exact I].
    + destruct Hs as [Hyz Hs]. specialize (IH Hs).
      cbn [insert_by] in IH |- *. destruct (leb x z) eqn:E2.
      * split; [now apply Htot|exact IH].
      * split; [exact Hyz|exact IH].
Qed.

Lemma sort_by_sorted {A} (leb : A -> A -> bool) l :
  (forall u v, leb u v = false -> leb v u = true) ->
  sorted_by leb (sort_by leb l).
Proof.
  intros Htot. induction l as [|x l IH]; [exact I|].
  apply insert_by_sorted; assumption.
Qed.

End SortFacts.

(** ** More on the gap optimizer *)
Module OptimizationAgentFacts.
Import Py Models ModelsFacts OptimizationAgent OptimizationAgentSpec Notions.

Lemma cuttable_entries_positive db y :
  Forall (fun e => (0 < kwota_or0 e y)%Q) (cuttable_entries db y).
Proof.
  apply List.Forall_forall. intros e He.
  now destruct (cuttable_entries_spec db y e He) as (_ & _ & H3).
Qed.

(** The loop takes a prefix of the entries it walks: it stops at the first
    entry before which the savings reach the target. *)
Lemma cut_loop_prefix db y target l :
  Forall (fun e => (0 < kwota_or0 e y)%Q) l ->
  forall suggestions cumulative_savings,
  exists k total,
    (k <= length l)%nat /\
    cut_loop db y target l suggestions cumulative_savings =
      (suggestions ++
         List.map (fun e => suggest db y e (kwota_or0 e y)) (firstn k l),
       total) /\
    (total ==
       cumulative_savings +
       total_savings
         (List.map (fun e => suggest db y e (kwota_or0 e y)) (firstn k l)))%Q /\
    (Qgeb total target = false -> k = length l) /\
    (forall j, (j < k)%nat ->
       (cumulative_savings +
        total_savings
          (List.map (fun e => suggest db y e (kwota_or0 e y)) (firstn j l))
        < target)%Q).
Proof.
  induction l as [|e r IH]; intros Hall suggestions cum.
  - exists 0%nat, cum. split; [cbn; lia|].
    split; [cbn; now rewrite app_nil_r|]. split; [cbn; ring|].
    split; [reflexivity|]. intros j Hj. lia.
  - cbn [cut_loop]. destruct (Qgeb cum target) eqn:Hge.
    + exists 0%nat, cum. split; [cbn; lia|].
      split; [cbn; now rewrite app_nil_r|]. split; [cbn; ring|].
      split; [congruence|]. intros j Hj. lia.
    + inversion Hall as [|? ? Hpos Hall']; subst.
      assert (Hle : Qle_bool (kwota_or0 e y) 0 = false)
        by now apply PyFacts.Qle_bool_false.
      cbv zeta. rewrite Hle.
      destruct (IH Hall' (suggestions ++ [suggest db y e (kwota_or0 e y)])
                  (cum + s_savings (suggest db y e (kwota_or0 e y)))%Q)
        as (k & total & Hk & Heq & Htot & Hall_used & Hmin).
      exists (S k), total. cbn [firstn List.map length].
      split; [lia|]. split; [|split; [|split]].
      * rewrite Heq. now rewrite <- app_assoc.
      * rewrite Htot. cbn [total_savings fold_right].
        fold (total_savings
                (List.map (fun e => suggest db y e (kwota_or0 e y)) (firstn k r))).
        ring.
      * intros Hn. now rewrite (Hall_used Hn).
      * intros [|j] Hj.
        -- cbn. apply PyFacts.Qle_bool_false in Hge. lra.
        -- cbn [firstn List.map total_savings fold_right].
           fold (total_savings
                   (List.map (fun e => suggest db y e (kwota_or0 e y))
                      (firstn j r))).
           assert (Hj' : (j < k)%nat) by lia.
           specialize (Hmin j Hj'). lra.
Qed.

(** What [generate_cut_suggestions] returns when the year's total exceeds
    its limit. *)
Lemma generate_cut_suggestions_over db target_reduction y g :
  List.find (fun g => year g =? y) (global_limits db) = Some g ->
  has_kwota y = true ->
  (total_limit g < year_total db y)%Q ->
  let gap := mkGap y (total_limit g) (year_total db y)
               (year_total db y - total_limit g)%Q true in
  let target := target_or target_reduction (year_total db y - total_limit g)%Q in
  let loop := cut_loop db y target (cuttable_entries db y) [] 0%Q in
  generate_cut_suggestions db target_reduction y =
    inr (Cuts gap target (snd loop) (Qgeb (snd loop) target)
           (sort_by (fun a b => s_deferral_score b <=? s_deferral_score a)
              (fst loop))
           (_get_protected_items db y)).
Proof.
  intros Hg Hy Hover. cbv zeta.
  unfold generate_cut_suggestions, analyze_budget_gap.
  rewrite Hg, Hy. cbn [negb]. cbv zeta. cbn [ga_is_over_limit ga_variance].
  fold (year_total db y).
  assert (Hgt : Qgtb (year_total db y - total_limit g) 0 = true).
  { apply PyFacts.Qgtb_gt. lra. }
  rewrite Hgt. cbn [negb].
  destruct (cut_loop db y _ (cuttable_entries db y) [] 0%Q) as [l c].
  reflexivity.
Qed.

(** The four outcomes of [generate_cut_suggestions], by the state of the
    store. *)
Lemma generate_cut_suggestions_cases db target_reduction y :
  (List.find (fun g => year g =? y) (global_limits db) = None /\
   generate_cut_suggestions db target_reduction y = inr (Within_limit None)) \/
  (exists g,
     List.find (fun g => year g =? y) (global_limits db) = Some g /\
     ((has_kwota y = false /\
       generate_cut_suggestions db target_reduction y = inl AttributeError) \/
      (has_kwota y = true /\ (year_total db y <= total_limit g)%Q /\
       generate_cut_suggestions db target_reduction y =
         inr (Within_limit
                (Some (mkGap y (total_limit g) (year_total db y)
                         (year_total db y - total_limit g)%Q false)))) \/
      (has_kwota y = true /\ (total_limit g < year_total db y)%Q))).
Proof.
  destruct (List.find (fun g => year g =? y) (global_limits db)) as [g|] eqn:Hg.
  - right. exists g. split; [reflexivity|].
    destruct (has_kwota y) eqn:Hy.
    + destruct (Qgtb (year_total db y - total_limit g) 0) eqn:Hgt.
      * right. right. split; [reflexivity|].
        apply PyFacts.Qgtb_gt in Hgt. lra.
      * right. left. split; [reflexivity|].
        assert (Hle : (year_total db y <= total_limit g)%Q).
        { apply PyFacts.Qltb_ge in Hgt. lra. }
        split; [exact Hle|].
        unfold generate_cut_suggestions, analyze_budget_gap.
        rewrite Hg, Hy. cbn [negb]. cbv zeta.
        cbn [ga_is_over_limit ga_variance]. fold (year_total db y).
        rewrite Hgt. reflexivity.
    + left. split; [reflexivity|].
      unfold generate_cut_suggestions, analyze_budget_gap.
      now rewrite Hg, Hy.
  - left. split; [reflexivity|].
    unfold generate_cut_suggestions, analyze_budget_gap. now rewrite Hg.
Qed.

(** Every suggestion is the loop body's answer for a cuttable entry. *)
Lemma result_suggestions_from db target_reduction y s :
  In s (result_suggestions (generate_cut_suggestions db target_reduction y)) ->
  exists e, In e (cuttable_entries db y) /\ s = suggest db y e (kwota_or0 e y).
Proof.
  destruct (generate_cut_suggestions_cases db target_reduction y)
    as [[_ Heq]|(g & Hg & [[_ Heq]|[(_ & _ & Heq)|[Hy Hover]]])];
    try (rewrite Heq; intros []).
  rewrite (generate_cut_suggestions_over db target_reduction y g Hg Hy Hover).
  cbn [result_suggestions suggestions_of]. rewrite PyFacts.sort_by_In.
  destruct (cut_loop_prefix db y
              (target_or target_reduction (year_total db y - total_limit g))
              (cuttable_entries db y) (cuttable_entries_positive db y) [] 0%Q)
    as (k & total & _ & Heq & _).
  rewrite Heq. cbn [fst app]. intros Hin.
  apply in_map_iff in Hin as (e & <- & He). exists e. split; [|reflexivity].
  rewrite <- (firstn_skipn k (cuttable_entries db y)).
  apply in_or_app. now left.
Qed.

Lemma _calculate_deferral_score_range e :
  0 <= _calculate_deferral_score e <= 100.
Proof. unfold _calculate_deferral_score. cbv zeta. lia. Qed.

Lemma priority_in_spec e l :
  priority_in e l = true -> exists p, priority e = Some p /\ In p l.
Proof.
  unfold priority_in. destruct (priority e) as [p|]; [|discriminate].
  intros Hex. apply existsb_exists in Hex as (q & Hq & Heq).
  apply String.eqb_eq in Heq. subst. eauto.
Qed.

Lemma _is_deferrable_priority e :
  _is_deferrable e = true ->
  priority e = Some "niski" \/ priority e = Some "uznaniowy".
Proof.
  unfold _is_deferrable.
  destruct (_ && _); [discriminate|].
  destruct (_ && _); [discriminate|].
  destruct (any_in _ _); [discriminate|].
  intros Hp. apply priority_in_spec in Hp as (p & -> & [<-|[<-|[]]]); auto.
Qed.

(** X6. Every suggestion splits the current amount of its entry into the
    suggested amount and the savings; the savings are positive.  A
    deferral keeps nothing and is only proposed for an entry of priority
    "niski" or "uznaniowy"; a reduction saves 30% or 20%.  The deferral
    score lies between 0 and 100. *)
Theorem suggestion_amounts db target_reduction y s :
  In s (result_suggestions (generate_cut_suggestions db target_reduction y)) ->
  (0 < s_current_amount s)%Q /\
  (s_suggested_amount s + s_savings s == s_current_amount s)%Q /\
  (0 < s_savings s <= s_current_amount s)%Q /\
  0 <= s_deferral_score s <= 100 /\
  match s_action s with
  | defer =>
      s_is_deferrable s = true /\ (s_suggested_amount s == 0)%Q /\
      s_reason s = Przelozenie (y + 1) /\
      (s_priority s = "niski" \/ s_priority s = "uznaniowy")
  | reduce =>
      s_is_deferrable s = false /\
      ((s_savings s == (3 # 10) * s_current_amount s)%Q \/
       (s_savings s == (2 # 10) * s_current_amount s)%Q)
  end.
Proof.
  intros Hin.
  destruct (result_suggestions_from db target_reduction y s Hin)
    as (e & He & ->).
  destruct (cuttable_entries_spec db y e He) as (_ & _ & Hpos).
  pose proof (_calculate_deferral_score_range e) as Hsc.
  unfold suggest. cbv zeta.
  destruct (_is_deferrable e) eqn:Hd;
    cbn [s_current_amount s_suggested_amount s_savings s_deferral_score
         s_action s_is_deferrable s_reason s_priority].
  - split; [exact Hpos|]. split; [ring|]. split; [lra|]. split; [exact Hsc|].
    split; [reflexivity|]. split; [reflexivity|]. split; [reflexivity|].
    destruct (_is_deferrable_priority e Hd) as [-> | ->]; cbn; auto.
  - split; [exact Hpos|]. split; [ring|].
    destruct (priority_in e ["średni"; "niski"]).
    + split; [lra|]. split; [exact Hsc|]. split; [reflexivity|]. left. ring.
    + split; [lra|]. split; [exact Hsc|]. split; [reflexivity|]. right. ring.
Qed.

Lemma suggestion_amounts_witness :
  let s := suggest example_db 2025
             (example_entry 2 1 "Wyjazd integracyjny" (50 # 1) "niski" false)
             (50 # 1) in
  (0 < s_current_amount s)%Q /\
  (s_suggested_amount s + s_savings s == s_current_amount s)%Q /\
  (0 < s_savings s <= s_current_amount s)%Q /\
  0 <= s_deferral_score s <= 100 /\
  match s_action s with
  | defer =>
      s_is_deferrable s = true /\ (s_suggested_amount s == 0)%Q /\
      s_reason s = Przelozenie (2025 + 1) /\
      (s_priority s = "niski" \/ s_priority s = "uznaniowy")
  | reduce =>
      s_is_deferrable s = false /\
      ((s_savings s == (3 # 10) * s_current_amount s)%Q \/
       (s_savings s == (2 # 10) * s_current_amount s)%Q)
  end.
Proof.
  apply (suggestion_amounts example_db None 2025).
  vm_compute. tauto.
Defined.

(** X7. The suggestions come sorted by deferral score, highest first. *)
Theorem suggestions_sorted_by_score db target_reduction y :
  sorted_by (fun a b => s_deferral_score b <=? s_deferral_score a)
    (result_suggestions (generate_cut_suggestions db target_reduction y)).
Proof.
  destruct (generate_cut_suggestions_cases db target_reduction y)
    as [[_ Heq]|(g & Hg & [[_ Heq]|[(_ & _ & Heq)|[Hy Hover]]])];
    try (rewrite Heq; exact I).
  rewrite (generate_cut_suggestions_over db target_reduction y g Hg Hy Hover).
  cbn [result_suggestions suggestions_of].
  apply SortFacts.sort_by_sorted.
  intros u v Huv. apply Z.leb_gt in Huv. apply Z.leb_le. lia.
Qed.

(** X8. The cuts go down the priority order.  When the total exceeds the
    limit, the suggestions are those of a prefix of the cuttable entries in
    priority order; [can_meet_target] tells whether the savings reached the
    target, and when they did not the prefix is all the cuttable entries.
    A target of zero or less gives no suggestion, a positive one at least
    one when an entry can be cut. *)
Theorem cut_suggestions_greedy db target_reduction y g :
  List.find (fun g => year g =? y) (global_limits db) = Some g ->
  has_kwota y = true ->
  (total_limit g < year_total db y)%Q ->
  exists gap target achievable can_meet suggestions protected k,
    generate_cut_suggestions db target_reduction y =
      inr (Cuts gap target achievable can_meet suggestions protected) /\
    target = target_or target_reduction (year_total db y - total_limit g)%Q /\
    (k <= length (cuttable_entries db y))%nat /\
    Permutation suggestions
      (List.map (fun e => suggest db y e (kwota_or0 e y))
         (firstn k (cuttable_entries db y))) /\
    (can_meet = true <-> (target <= achievable)%Q) /\
    (can_meet = false -> k = length (cuttable_entries db y)) /\
    ((target <= 0)%Q -> suggestions = []) /\
    ((0 < target)%Q -> cuttable_entries db y <> [] -> suggestions <> []).
Proof.
  intros Hg Hy Hover.
  rewrite (generate_cut_suggestions_over db target_reduction y g Hg Hy Hover).
  cbv zeta.
  destruct (cut_loop_prefix db y
              (target_or target_reduction (year_total db y - total_limit g))
              (cuttable_entries db y) (cuttable_entries_positive db y) [] 0%Q)
    as (k & total & Hk & Heq & Htot & Hall & Hmin).
  rewrite Heq. cbn [fst snd app].
  do 6 eexists. exists k. split; [reflexivity|]. split; [reflexivity|].
  split; [exact Hk|]. split; [|split; [|split; [|split]]].
  - symmetry. apply PyFacts.sort_by_perm.
  - apply PyFacts.Qgeb_ge.
  - exact Hall.
  - intros Hle. destruct k as [|k].
    + reflexivity.
    + exfalso. assert (H0 : (0 < S k)%nat) by lia.
      specialize (Hmin 0%nat H0). unfold total_savings in Hmin.
      rewrite firstn_O in Hmin. cbn [List.map fold_right] in Hmin. lra.
  - intros Hpos Hne Hnil.
    assert (Hk0 : k = 0%nat).
    { destruct k as [|k]; [reflexivity|]. exfalso.
      destruct (cuttable_entries db y) as [|e r]; [cbn in Hk; lia|].
      cbn [firstn List.map] in Hnil.
      assert (Hin : In (suggest db y e (kwota_or0 e y)) []).
      { rewrite <- Hnil. apply PyFacts.sort_by_In. now left. }
      exact Hin. }
    subst k. unfold total_savings in Htot.
    rewrite firstn_O in Htot. cbn [List.map fold_right] in Htot.
    assert (Hlt : Qgeb total
                    (target_or target_reduction
                       (year_total db y - total_limit g)) = false).
    { unfold Qgeb. apply PyFacts.Qle_bool_false. lra. }
    specialize (Hall Hlt). symmetry in Hall.
    apply length_zero_iff_nil in Hall. contradiction.
Qed.

Lemma cut_suggestions_greedy_witness :
  exists gap target achievable can_meet suggestions protected k,
    generate_cut_suggestions example_db None 2025 =
      inr (Cuts gap target achievable can_meet suggestions protected) /\
    target = target_or None (year_total example_db 2025 - (150 # 1))%Q /\
    (k <= length (cuttable_entries example_db 2025))%nat /\
    Permutation suggestions
      (List.map (fun e => suggest example_db 2025 e (kwota_or0 e 2025))
         (firstn k (cuttable_entries example_db 2025))) /\
    (can_meet = true <-> (target <= achievable)%Q) /\
    (can_meet = false -> k = length (cuttable_entries example_db 2025)) /\
    ((target <= 0)%Q -> suggestions = []) /\
    ((0 < target)%Q -> cuttable_entries example_db 2025 <> [] ->
     suggestions <> []).
Proof.
  apply (cut_suggestions_greedy example_db None 2025 (mkGlobalLimit 2025 (150 # 1))).
  - reflexivity.
  - reflexivity.
  - vm_compute. reflexivity.
Defined.

Lemma NoDup_map_inj {A B} (f : A -> B) (l : list A) x x' :
  List.NoDup (List.map f l) -> In x l -> In x' l -> f x = f x' -> x = x'.
Proof.
  induction l as [|a l IH]; [intros _ []|].
  cbn [List.map]. intros Hnd. inversion Hnd as [|? ? Hnot Hnd']; subst.
  intros [->|Hx] [->|Hx'] Heq.
  - reflexivity.
  - exfalso. apply Hnot. rewrite Heq. now apply in_map.
  - exfalso. apply Hnot. rewrite <- Heq. now apply in_map.
  - now apply IH.
Qed.

(** X9. With unique entry identifiers, no entry is both suggested for a
    cut and listed among the protected items. *)
Theorem protected_never_suggested db target_reduction y s p :
  List.NoDup (List.map id (entries db)) ->
  In s (result_suggestions (generate_cut_suggestions db target_reduction y)) ->
  In p (result_protected (generate_cut_suggestions db target_reduction y)) ->
  s_entry_id s <> p_entry_id p.
Proof.
  intros Hnd Hs Hp.
  destruct (result_suggestions_from db target_reduction y s Hs)
    as (e & He & ->).
  destruct (cuttable_entries_spec db y e He) as (Hin & Hobl & Hpos).
  destruct (suggest_savings db y e (kwota_or0 e y) Hpos) as [_ ->].
  destruct (generate_cut_suggestions_cases db target_reduction y)
    as [[_ Heq]|(g & Hg & [[_ Heq]|[(_ & _ & Heq)|[Hy Hover]]])];
    try (rewrite Heq in Hp; destruct Hp).
  rewrite (generate_cut_suggestions_over db target_reduction y g Hg Hy Hover)
    in Hp.
  cbn [result_protected] in Hp. unfold _get_protected_items in Hp.
  apply in_map_iff in Hp as (e' & <- & He').
  apply filter_In in He' as [Hin' Hb]. apply andb_true_iff in Hb as [Ht _].
  cbn [p_entry_id]. intros Heq.
  assert (e = e') as <- by exact (NoDup_map_inj id _ _ _ Hnd Hin Hin' Heq).
  rewrite Hobl in Ht. discriminate.
Qed.

Lemma protected_never_suggested_witness :
  s_entry_id
    (suggest example_db 2025
       (example_entry 2 1 "Wyjazd integracyjny" (50 # 1) "niski" false) (50 # 1))
  <> p_entry_id (mkProtected 1 (Some "Utrzymanie rejestru") (Some (100 # 1)%Q)).
Proof.
  apply (protected_never_suggested example_db None 2025).
  - repeat constructor; cbn; intuition lia.
  - vm_compute. tauto.
  - vm_compute. tauto.
Defined.

(** *** [apply_suggestion] *)

Lemma set_kwota_id y v e : id (set_kwota y v e) = id e.
Proof.
  unfold set_kwota.
  repeat match goal with
         | |- context [if ?b then _ else _] => destruct b
         end; reflexivity.
Qed.

Lemma get_kwota_set_kwota_same y v e :
  has_kwota y = true -> get_kwota (set_kwota y v e) y = Some v.
Proof.
  intros Hy. destruct (get_kwota_has e y Hy) as [old Hold].
  unfold get_kwota, set_kwota in *.
  destruct (y =? 2025); [reflexivity|]. destruct (y =? 2026); [reflexivity|].
  destruct (y =? 2027); [reflexivity|]. destruct (y =? 2028); [reflexivity|].
  destruct (y =? 2029); [reflexivity|]. discriminate.
Qed.

Lemma get_kwota_set_kwota_other y z v e :
  z <> y -> get_kwota (set_kwota y v e) z = get_kwota e z.
Proof.
  intros Hzy. unfold get_kwota, set_kwota.
  destruct (y =? 2025) eqn:E5.
  { apply Z.eqb_eq in E5. subst y. apply Z.eqb_neq in Hzy. now rewrite Hzy. }
  destruct (y =? 2026) eqn:E6.
  { apply Z.eqb_eq in E6. subst y. apply Z.eqb_neq in Hzy. now rewrite Hzy. }
  destruct (y =? 2027) eqn:E7.
  { apply Z.eqb_eq in E7. subst y. apply Z.eqb_neq in Hzy. now rewrite Hzy. }
  destruct (y =? 2028) eqn:E8.
  { apply Z.eqb_eq in E8. subst y. apply Z.eqb_neq in Hzy. now rewrite Hzy. }
  destruct (y =? 2029) eqn:E9.
  { apply Z.eqb_eq in E9. subst y. apply Z.eqb_neq in Hzy. now rewrite Hzy. }
  reflexivity.
Qed.

Lemma first_entry_update_same i f rows e :
  (forall e, id (f e) = id e) ->
  first_entry i rows = Some e ->
  first_entry i (update_entry i f rows) = Some (f e).
Proof.
  intros Hf He. rewrite first_entry_update by exact Hf.
  now rewrite Z.eqb_refl, He.
Qed.

Lemma first_entry_update_other i j f rows :
  (forall e, id (f e) = id e) -> j <> i ->
  first_entry j (update_entry i f rows) = first_entry j rows.
Proof.
  intros Hf Hji. rewrite first_entry_update by exact Hf.
  apply Z.eqb_neq in Hji. now rewrite Hji.
Qed.

(** The entry a deferral leaves. *)
Lemma apply_suggestion_defer_eq
    (format_float : Q -> string) db entry_id new_amount y entry a :
  first_entry entry_id (entries db) = Some entry ->
  get_kwota entry y = Some (Some a) ->
  exists db',
    apply_suggestion format_float db entry_id "defer" new_amount y =
      inr (Applied entry_id "defer" (Some a) (num_or0 new_amount), db') /\
    first_entry entry_id (entries db') =
      Some (with_status (Some "needs_revision")
              (append_uwagi (nl +:+ "[ODROCZONO z " +:+ pretty y +:+ "]")
                 (set_kwota (y + 1) (Some (kwota_or0 entry (y + 1) + a)%Q)
                    (set_kwota y (Some 0%Q) entry)))) /\
    (forall j, j <> entry_id ->
       first_entry j (entries db') = first_entry j (entries db)) /\
    departments db' = departments db /\ conflicts db' = conflicts db /\
    global_limits db' = global_limits db.
Proof.
  intros Hfirst Hget. eexists. split; [|split; [|split]].
  - unfold apply_suggestion. rewrite Hfirst, Hget. reflexivity.
  - cbn [entries with_entries].
    repeat (apply first_entry_update_same;
            [first [reflexivity | intros; apply set_kwota_id]|]).
    exact Hfirst.
  - intros j Hj. cbn [entries with_entries].
    rewrite !first_entry_update_other;
      first [reflexivity | exact Hj | intros; apply set_kwota_id | idtac].
  - repeat split.
Qed.

(** X10. Deferring an amount of a year from 2025 to 2028 moves it: the
    year's amount becomes 0, the next year's grows by it, the other years
    and the other entries stay, so the entry's five-year total is kept;
    the entry goes to [needs_revision] and gets the remark. *)
Theorem apply_suggestion_defer_carries_over
    (format_float : Q -> string) db entry_id new_amount y entry a :
  first_entry entry_id (entries db) = Some entry ->
  2025 <= y <= 2028 ->
  get_kwota entry y = Some (Some a) ->
  exists db' entry',
    apply_suggestion format_float db entry_id "defer" new_amount y =
      inr (Applied entry_id "defer" (Some a) (num_or0 new_amount), db') /\
    first_entry entry_id (entries db') = Some entry' /\
    get_kwota entry' y = Some (Some 0%Q) /\
    get_kwota entry' (y + 1) = Some (Some (kwota_or0 entry (y + 1) + a)%Q) /\
    (forall z, z <> y -> z <> y + 1 -> get_kwota entry' z = get_kwota entry z) /\
    (five_year_total entry' == five_year_total entry)%Q /\
    status entry' = Some "needs_revision" /\
    uwagi entry' =
      Some (str_or (uwagi entry) "" +:+ nl +:+ "[ODROCZONO z " +:+ pretty y +:+ "]") /\
    (forall j, j <> entry_id ->
       first_entry j (entries db') = first_entry j (entries db)).
Proof.
  intros Hfirst Hy Hget.
  destruct (apply_suggestion_defer_eq format_float db entry_id new_amount y
              entry a Hfirst Hget) as (db' & Heq & Hrow & Hothers & _).
  exists db'. eexists. split; [exact Heq|]. split; [exact Hrow|].
  assert (Hy1 : has_kwota (y + 1) = true).
  { unfold has_kwota. apply andb_true_iff. split; apply Z.leb_le; lia. }
  assert (Hy0 : has_kwota y = true).
  { unfold has_kwota. apply andb_true_iff. split; apply Z.leb_le; lia. }
  assert (Hsame : get_kwota
            (with_status (Some "needs_revision")
               (append_uwagi (nl +:+ "[ODROCZONO z " +:+ pretty y +:+ "]")
                  (set_kwota (y + 1) (Some (kwota_or0 entry (y + 1) + a)%Q)
                     (set_kwota y (Some 0%Q) entry)))) y = Some (Some 0%Q)).
  { change (get_kwota
              (set_kwota (y + 1) (Some (kwota_or0 entry (y + 1) + a)%Q)
                 (set_kwota y (Some 0%Q) entry)) y = Some (Some 0%Q)).
    rewrite get_kwota_set_kwota_other by lia.
    now apply get_kwota_set_kwota_same. }
  assert (Hnext : get_kwota
            (with_status (Some "needs_revision")
               (append_uwagi (nl +:+ "[ODROCZONO z " +:+ pretty y +:+ "]")
                  (set_kwota (y + 1) (Some (kwota_or0 entry (y + 1) + a)%Q)
                     (set_kwota y (Some 0%Q) entry)))) (y + 1) =
            Some (Some (kwota_or0 entry (y + 1) + a)%Q)).
  { change (get_kwota
              (set_kwota (y + 1) (Some (kwota_or0 entry (y + 1) + a)%Q)
                 (set_kwota y (Some 0%Q) entry)) (y + 1) =
            Some (Some (kwota_or0 entry (y + 1) + a)%Q)).
    now apply get_kwota_set_kwota_same. }
  assert (Hrest : forall z, z <> y -> z <> y + 1 ->
            get_kwota
              (with_status (Some "needs_revision")
                 (append_uwagi (nl +:+ "[ODROCZONO z " +:+ pretty y +:+ "]")
                    (set_kwota (y + 1) (Some (kwota_or0 entry (y + 1) + a)%Q)
                       (set_kwota y (Some 0%Q) entry)))) z = get_kwota entry z).
  { intros z Hz Hz1.
    change (get_kwota
              (set_kwota (y + 1) (Some (kwota_or0 entry (y + 1) + a)%Q)
                 (set_kwota y (Some 0%Q) entry)) z = get_kwota entry z).
    rewrite !get_kwota_set_kwota_other by assumption. reflexivity. }
  split; [exact Hsame|]. split; [exact Hnext|]. split; [exact Hrest|].
  split; [|split; [|split]].
  - assert (Ha : kwota_or0 entry y = a)
      by (unfold kwota_or0; rewrite Hget; reflexivity).
    remember (with_status (Some "needs_revision")
                (append_uwagi (nl +:+ "[ODROCZONO z " +:+ pretty y +:+ "]")
                   (set_kwota (y + 1) (Some (kwota_or0 entry (y + 1) + a)%Q)
                      (set_kwota y (Some 0%Q) entry)))) as entry' eqn:He'.
    assert (K : forall z,
              kwota_or0 entry' z =
                if z =? y then 0%Q
                else if z =? y + 1 then (kwota_or0 entry (y + 1) + a)%Q
                else kwota_or0 entry z).
    { intros z. unfold kwota_or0 at 1.
      destruct (z =? y) eqn:E; [apply Z.eqb_eq in E; subst z; now rewrite Hsame|].
      destruct (z =? y + 1) eqn:E1;
        [apply Z.eqb_eq in E1; subst z; now rewrite Hnext|].
      apply Z.eqb_neq in E, E1. now rewrite Hrest. }
    clear He' Hsame Hnext Hrest Hrow.
    unfold five_year_total. rewrite !K.
    repeat match goal with
           | |- context [?u =? ?v] =>
               let E := fresh "E" in
               destruct (u =? v) eqn:E;
               [ apply Z.eqb_eq in E; try lia;
                 first [subst y | rewrite <- E | idtac]
               | apply Z.eqb_neq in E; try lia ]
           end;
      rewrite ?Ha; ring.
  - reflexivity.
  - unfold set_kwota.
    repeat match goal with
           | |- context [if ?b then _ else _] => destruct b
           end; reflexivity.
  - exact Hothers.
Qed.

Lemma apply_suggestion_defer_carries_over_witness :
  exists db' entry',
    apply_suggestion (fun _ => "") example_db 2 "defer" None 2025 =
      inr (Applied 2 "defer" (Some (50 # 1)%Q) (num_or0 None), db') /\
    first_entry 2 (entries db') = Some entry' /\
    get_kwota entry' 2025 = Some (Some 0%Q) /\
    get_kwota entry' (2025 + 1) =
      Some (Some (kwota_or0
                    (example_entry 2 1 "Wyjazd integracyjny" (50 # 1) "niski" false)
                    (2025 + 1) + (50 # 1))%Q) /\
    (forall z, z <> 2025 -> z <> 2025 + 1 ->
       get_kwota entry' z =
         get_kwota
           (example_entry 2 1 "Wyjazd integracyjny" (50 # 1) "niski" false) z) /\
    (five_year_total entry' ==
       five_year_total
         (example_entry 2 1 "Wyjazd integracyjny" (50 # 1) "niski" false))%Q /\
    status entry' = Some "needs_revision" /\
    uwagi entry' =
      Some (str_or
              (uwagi (example_entry 2 1 "Wyjazd integracyjny" (50 # 1) "niski" false))
              "" +:+ nl +:+ "[ODROCZONO z " +:+ pretty 2025 +:+ "]") /\
    (forall j, j <> 2 ->
       first_entry j (entries db') = first_entry j (entries example_db)).
Proof.
  apply (apply_suggestion_defer_carries_over (fun _ => "") example_db 2 None 2025
           (example_entry 2 1 "Wyjazd integracyjny" (50 # 1) "niski" false)
           (50 # 1)).
  - reflexivity.
  - lia.
  - reflexivity.
Defined.

(** X11. Deferring an amount of 2029 drops it: the amount of 2029 becomes
    0 and nothing else changes in the entry's amounts, as there is no
    column for 2030; the entry's five-year total falls by the amount. *)
Theorem apply_suggestion_defer_last_year
    (format_float : Q -> string) db entry_id new_amount entry a :
  first_entry entry_id (entries db) = Some entry ->
  kwota_2029 entry = Some a ->
  exists db' entry',
    apply_suggestion format_float db entry_id "defer" new_amount 2029 =
      inr (Applied entry_id "defer" (Some a) (num_or0 new_amount), db') /\
    first_entry entry_id (entries db') = Some entry' /\
    kwota_2029 entry' = Some 0%Q /\
    kwota_2025 entry' = kwota_2025 entry /\
    kwota_2026 entry' = kwota_2026 entry /\
    kwota_2027 entry' = kwota_2027 entry /\
    kwota_2028 entry' = kwota_2028 entry /\
    (five_year_total entry' == five_year_total entry - a)%Q.
Proof.
  intros Hfirst Ha.
  assert (Hget : get_kwota entry 2029 = Some (Some a)).
  { unfold get_kwota. cbn [Z.eqb Pos.eqb]. now rewrite Ha. }
  destruct (apply_suggestion_defer_eq format_float db entry_id new_amount 2029
              entry a Hfirst Hget) as (db' & Heq & Hrow & _).
  change (set_kwota (2029 + 1) (Some (kwota_or0 entry (2029 + 1) + a)%Q)
            (set_kwota 2029 (Some 0%Q) entry))
    with (with_kwota_2029 (Some 0%Q) entry) in Hrow.
  exists db'. eexists. split; [exact Heq|]. split; [exact Hrow|].
  repeat (split; [reflexivity|]).
  unfold five_year_total, kwota_or0, get_kwota.
  cbn [Z.eqb Pos.eqb default Datatypes.id
       kwota_2025 kwota_2026 kwota_2027 kwota_2028 kwota_2029
       with_status append_uwagi with_uwagi with_kwota_2029 num_or0].
  rewrite Ha. cbn [num_or0]. ring.
Qed.

Lemma apply_suggestion_defer_last_year_witness :
  exists db' entry',
    apply_suggestion (fun _ => "") deferral_db 1 "defer" None 2029 =
      inr (Applied 1 "defer" (Some (40 # 1)%Q) (num_or0 None), db') /\
    first_entry 1 (entries db') = Some entry' /\
    kwota_2029 entry' = Some 0%Q /\
    kwota_2025 entry' = None /\
    kwota_2026 entry' = None /\
    kwota_2027 entry' = None /\
    kwota_2028 entry' = Some (30 # 1)%Q /\
    (five_year_total entry' == (30 # 1) + (40 # 1) - (40 # 1))%Q.
Proof.
  destruct (apply_suggestion_defer_last_year (fun _ => "") deferral_db 1 None
              (mkBudgetEntry 1 (Some 4300) None (Some 1) None (Some "Szkolenie")
                 None None None None (Some (30 # 1)%Q) (Some (40 # 1)%Q)
                 (Some "niski") (Some "draft") (Some false) None None None None)
              (40 # 1) eq_refl eq_refl)
    as (db' & entry' & H1 & H2 & H3 & H4 & H5 & H6 & H7 & H8).
  exists db', entry'. repeat (split; [assumption|]).
  rewrite H8. vm_compute. reflexivity.
Defined.

(** X12. A reduction to a given amount writes exactly that amount into
    the year's column, whatever the old amount was: other years stay, the
    entry goes to [needs_revision], and the call reports the old and the
    new amount. *)
Theorem apply_suggestion_reduce_sets_amount
    (format_float : Q -> string) db entry_id new y entry :
  first_entry entry_id (entries db) = Some entry ->
  has_kwota y = true ->
  exists old_amount db' entry',
    apply_suggestion format_float db entry_id "reduce" (Some new) y =
      inr (Applied entry_id "reduce" old_amount new, db') /\
    get_kwota entry y = Some old_amount /\
    first_entry entry_id (entries db') = Some entry' /\
    get_kwota entry' y = Some (Some new) /\
    (forall z, z <> y -> get_kwota entry' z = get_kwota entry z) /\
    status entry' = Some "needs_revision" /\
    uwagi entry' =
      Some (str_or (uwagi entry) "" +:+ nl +:+ "[ZREDUKOWANO z "
              +:+ format_amount format_float old_amount +:+ " do "
              +:+ format_float new +:+ "]") /\
    (forall j, j <> entry_id ->
       first_entry j (entries db') = first_entry j (entries db)).
Proof.
  intros Hfirst Hy.
  destruct (get_kwota_has entry y Hy) as [old Hold].
  exists old. eexists. eexists.
  split; [unfold apply_suggestion; rewrite Hfirst, Hold; reflexivity|].
  split; [exact Hold|]. cbn [entries with_entries].
  split.
  { repeat (apply first_entry_update_same;
            [first [reflexivity | intros; apply set_kwota_id]|]).
    exact Hfirst. }
  split.
  { change (get_kwota (set_kwota y (Some new) entry) y = Some (Some new)).
    now apply get_kwota_set_kwota_same. }
  split.
  { intros z Hz.
    change (get_kwota (set_kwota y (Some new) entry) z = get_kwota entry z).
    now apply get_kwota_set_kwota_other. }
  split; [reflexivity|]. split.
  { unfold set_kwota.
    repeat match goal with
           | |- context [if ?b then _ else _] => destruct b
           end; reflexivity. }
  intros j Hj.
  rewrite !first_entry_update_other;
    first [reflexivity | exact Hj | intros; apply set_kwota_id | idtac].
Qed.

Lemma apply_suggestion_reduce_sets_amount_witness :
  exists old_amount db' entry',
    apply_suggestion (fun _ => "") example_db 2 "reduce" (Some (999 # 1)%Q) 2025 =
      inr (Applied 2 "reduce" old_amount (999 # 1)%Q, db') /\
    get_kwota (example_entry 2 1 "Wyjazd integracyjny" (50 # 1) "niski" false) 2025
      = Some old_amount /\
    first_entry 2 (entries db') = Some entry' /\
    get_kwota entry' 2025 = Some (Some (999 # 1)%Q) /\
    (forall z, z <> 2025 ->
       get_kwota entry' z =
         get_kwota
           (example_entry 2 1 "Wyjazd integracyjny" (50 # 1) "niski" false) z) /\
    status entry' = Some "needs_revision" /\
    uwagi entry' =
      Some (str_or
              (uwagi (example_entry 2 1 "Wyjazd integracyjny" (50 # 1) "niski" false))
              "" +:+ nl +:+ "[ZREDUKOWANO z "
              +:+ format_amount (fun _ => "") old_amount +:+ " do "
              +:+ (fun _ : Q => "") (999 # 1)%Q +:+ "]") /\
    (forall j, j <> 2 ->
       first_entry j (entries db') = first_entry j (entries example_db)).
Proof.
  apply (apply_suggestion_reduce_sets_amount (fun _ => "") example_db 2 (999 # 1)
           2025 (example_entry 2 1 "Wyjazd integracyjny" (50 # 1) "niski" false)).
  - reflexivity.
  - reflexivity.
Defined.

(** X13. [apply_suggestion] with an action other than ["defer"] and
    ["reduce"] on a known entry succeeds and echoes the action, the old
    amount and [new_amount or 0]; in the session it commits that entry has
    the status ["needs_revision"], and every other column of every row (the
    amounts and the remark among them), the statuses of the other rows and
    the other tables are as before. *)
Theorem apply_suggestion_other_action
    (format_float : Q -> string) db entry_id action new_amount y entry :
  first_entry entry_id (entries db) = Some entry ->
  has_kwota y = true ->
  action <> "defer" -> action <> "reduce" ->
  exists old_amount db',
    apply_suggestion format_float db entry_id action new_amount y =
      inr (Applied entry_id action old_amount (num_or0 new_amount), db') /\
    db' = with_entries
            (update_entry entry_id (with_status (Some "needs_revision"))
               (entries db)) db /\
    get_kwota entry y = Some old_amount /\
    success (Applied entry_id action old_amount (num_or0 new_amount)) = true /\
    (exists entry',
       first_entry entry_id (entries db') = Some entry' /\
       status entry' = Some "needs_revision" /\
       same_but_status entry entry') /\
    List.map status (entries db') =
      List.map (fun e => if id e =? entry_id then Some "needs_revision"
                         else status e) (entries db) /\
    List.Forall2 same_but_status (entries db) (entries db') /\
    departments db' = departments db /\
    conflicts db' = conflicts db /\
    global_limits db' = global_limits db.
Proof.
  intros Hfirst Hy Hd Hr.
  destruct (get_kwota_has entry y Hy) as [old Hold].
  destruct (mark_status_spec entry_id (Some "needs_revision") (entries db)
              entry Hfirst) as (Hrow & Hstatus & Hrows).
  exists old. eexists. split; [|split; [reflexivity|]].
  - unfold apply_suggestion. rewrite Hfirst, Hold.
    apply String.eqb_neq in Hd, Hr. rewrite Hd, Hr.
    destruct new_amount; reflexivity.
  - cbn [entries with_entries departments conflicts global_limits].
    repeat split; assumption.
Qed.

Lemma apply_suggestion_other_action_witness :
  exists old_amount db',
    apply_suggestion (fun _ => "") example_db 2 "approve" None 2025 =
      inr (Applied 2 "approve" old_amount (num_or0 None), db') /\
    db' = with_entries
            (update_entry 2 (with_status (Some "needs_revision"))
               (entries example_db)) example_db /\
    get_kwota (example_entry 2 1 "Wyjazd integracyjny" (50 # 1) "niski" false) 2025
      = Some old_amount /\
    success (Applied 2 "approve" old_amount (num_or0 None)) = true /\
    (exists entry',
       first_entry 2 (entries db') = Some entry' /\
       status entry' = Some "needs_revision" /\
       same_but_status
         (example_entry 2 1 "Wyjazd integracyjny" (50 # 1) "niski" false)
         entry') /\
    List.map status (entries db') =
      List.map (fun e => if id e =? 2 then Some "needs_revision"
                         else status e) (entries example_db) /\
    List.Forall2 same_but_status (entries example_db) (entries db') /\
    departments db' = departments example_db /\
    conflicts db' = conflicts example_db /\
    global_limits db' = global_limits example_db.
Proof.
  apply (apply_suggestion_other_action (fun _ => "") example_db 2 "approve" None
           2025 (example_entry 2 1 "Wyjazd integracyjny" (50 # 1) "niski" false)).
  - reflexivity.
  - reflexivity.
  - discriminate.
  - discriminate.
Defined.

(** X14. The ways [apply_suggestion] fails, for an identifier the database
    driver can bind.  An unknown entry gives the "not found" answer and
    leaves the store as it is, whatever the year; for a known entry a year
    without a column raises [AttributeError], and deferring an amount that
    is NULL raises [TypeError]; every other call on a known entry
    succeeds. *)
Theorem apply_suggestion_failures
    (format_float : Q -> string) db entry_id action new_amount y :
  int64 entry_id ->
  match first_entry entry_id (entries db) with
  | None =>
      apply_suggestion format_float db entry_id action new_amount y =
        inr (Not_found, db)
  | Some entry =>
      (has_kwota y = false ->
       apply_suggestion format_float db entry_id action new_amount y =
         inl AttributeError) /\
      (get_kwota entry y = Some None ->
       apply_suggestion format_float db entry_id "defer" new_amount y =
         inl TypeError) /\
      (has_kwota y = true ->
       (action = "defer" -> get_kwota entry y <> Some None) ->
       exists r db', 
         apply_suggestion format_float db entry_id action new_amount y =
           inr (r, db') /\ success r = true)
  end.
Proof.
  intros _.
  destruct (first_entry entry_id (entries db)) as [entry|] eqn:Hfirst.
  - split; [|split].
    + intros Hy. unfold apply_suggestion.
      now rewrite Hfirst, (get_kwota_none entry y Hy).
    + intros Hn. unfold apply_suggestion. now rewrite Hfirst, Hn.
    + intros Hy Hdefer. destruct (get_kwota_has entry y Hy) as [old Hold].
      unfold apply_suggestion. rewrite Hfirst, Hold.
      destruct (String.eqb action "defer") eqn:Hd.
      * apply String.eqb_eq in Hd. destruct old as [old|].
        -- eauto.
        -- exfalso. now apply (Hdefer Hd).
      * destruct new_amount as [new|]; [destruct (String.eqb action "reduce")|];
          eauto.
  - unfold apply_suggestion. now rewrite Hfirst.
Qed.

(** The example store holds no entry 7, and its entry 2 has a NULL amount
    for 2027. *)
Lemma apply_suggestion_failures_witness :
  apply_suggestion (fun _ => "") example_db 7 "defer" None 2025 =
    inr (Not_found, example_db) /\
  apply_suggestion (fun _ => "") example_db 2 "defer" None 2027 =
    inl TypeError /\
  apply_suggestion (fun _ => "") example_db 2 "defer" None 2030 =
    inl AttributeError.
Proof.
  split; [|split].
  - apply (apply_suggestion_failures (fun _ => "") example_db 7 "defer" None
             2025).
    unfold int64. lia.
  - apply (apply_suggestion_failures (fun _ => "") example_db 2 "defer" None
             2027); [unfold int64; lia|reflexivity].
  - apply (apply_suggestion_failures (fun _ => "") example_db 2 "defer" None
             2030); [unfold int64; lia|reflexivity].
Defined.

End OptimizationAgentFacts.

(** ** Rounding *)
Module RoundFacts.
Import Py.

Lemma round_half_even_bounds q :
  Qfloor q <= round_half_even q <= Qfloor q + 1.
Proof.
  unfold round_half_even. cbv zeta.
  destruct (Qcompare _ _); [destruct (Z.even _)| |]; lia.
Qed.

Lemma round_half_even_ge q k : (inject_Z k <= q)%Q -> k <= round_half_even q.
Proof.
  intros Hk. pose proof (round_half_even_bounds q) as Hb.
  apply Qfloor_resp_le in Hk. rewrite Qfloor_Z in Hk. lia.
Qed.

Lemma round_half_even_le q k : (q <= inject_Z k)%Q -> round_half_even q <= k.
Proof.
  intros Hk. destruct (Qlt_le_dec q (inject_Z k)) as [Hlt|Hge].
  - pose proof (round_half_even_bounds q) as Hb.
    pose proof (Qfloor_le q) as Hf.
    assert (Hz : (inject_Z (Qfloor q) < inject_Z k)%Q) by lra.
    rewrite <- Zlt_Qlt in Hz. lia.
  - assert (Heq : (q == inject_Z k)%Q) by lra.
    rewrite (ForecasterAgentSpec.round_half_even_Z q k Heq). lia.
Qed.

Lemma round_ndigits_2_scaled q :
  (round_ndigits q 2 * 100 == inject_Z (round_half_even (q * 100)))%Q.
Proof.
  unfold round_ndigits. cbv zeta.
  change (inject_Z (10 ^ Z.of_nat 2)) with 100%Q. field.
Qed.

(** Rounding to two digits does not cross a value with two digits. *)
Lemma round_ndigits_2_ge q k :
  (inject_Z k <= q * 100)%Q -> (inject_Z k <= round_ndigits q 2 * 100)%Q.
Proof.
  intros Hk. rewrite round_ndigits_2_scaled. rewrite <- Zle_Qle.
  now apply round_half_even_ge.
Qed.

Lemma round_ndigits_2_le q k :
  (q * 100 <= inject_Z k)%Q -> (round_ndigits q 2 * 100 <= inject_Z k)%Q.
Proof.
  intros Hk. rewrite round_ndigits_2_scaled. rewrite <- Zle_Qle.
  now apply round_half_even_le.
Qed.

(** Rounding moves a number by a half at most. *)
Lemma round_half_even_near q :
  (q - (1 # 2) <= inject_Z (round_half_even q) <= q + (1 # 2))%Q.
Proof.
  pose proof (Qfloor_le q) as Hlo. pose proof (Qlt_floor q) as Hhi.
  rewrite inject_Z_plus in Hhi. change (inject_Z 1) with 1%Q in Hhi.
  unfold round_half_even. cbv zeta.
  destruct (Qcompare (q - inject_Z (Qfloor q)) (1 # 2)) eqn:E.
  - apply Qeq_alt in E.
    destruct (Z.even (Qfloor q)); [lra|].
    rewrite inject_Z_plus. change (inject_Z 1) with 1%Q. lra.
  - apply Qlt_alt in E. lra.
  - apply Qgt_alt in E. rewrite inject_Z_plus.
    change (inject_Z 1) with 1%Q. lra.
Qed.

Lemma round_ndigits_0_near q :
  (q - (1 # 2) <= round_ndigits q 0 <= q + (1 # 2))%Q.
Proof.
  unfold round_ndigits. cbv zeta.
  change (inject_Z (10 ^ Z.of_nat 0)) with 1%Q.
  pose proof (round_half_even_near (q * 1)) as H.
  set (r := inject_Z (round_half_even (q * 1))) in *.
  assert (E : (r / 1 == r)%Q) by field.
  split; rewrite E; lra.
Qed.

(** A share of 15%, rounded to two digits, lies between nothing and the
    whole. *)
Lemma round_share_bounds s :
  (0 < s)%Q -> (0 <= round_ndigits (s * (15 # 100)) 2 <= s)%Q.
Proof.
  intros Hs.
  pose proof (round_ndigits_2_scaled (s * (15 # 100))) as Hr.
  pose proof (round_half_even_near (s * (15 # 100) * 100)) as [_ Hup].
  pose proof (round_ndigits_2_ge (s * (15 # 100)) 0) as Hlo.
  change (inject_Z 0) with 0%Q in Hlo.
  split; [assert (0 <= round_ndigits (s * (15 # 100)) 2 * 100)%Q
            by (apply Hlo; lra); lra|].
  destruct (Qlt_le_dec s (1 # 170)) as [Hsmall|Hbig].
  - assert (Hlt : (inject_Z (round_half_even (s * (15 # 100) * 100))
                   < inject_Z 1)%Q)
      by (change (inject_Z 1) with 1%Q; lra).
    rewrite <- Zlt_Qlt in Hlt.
    assert (Hle : (inject_Z (round_half_even (s * (15 # 100) * 100))
                   <= inject_Z 0)%Q) by (rewrite <- Zle_Qle; lia).
    change (inject_Z 0) with 0%Q in Hle. lra.
  - lra.
Qed.

End RoundFacts.

(** ** The sequence matcher: the ratio lies between 0 and 1 *)
Module DifflibFacts.
Import Difflib DifflibSpec Notions.

Section Sizes.
Context {A : Type} `{Countable A}.
Variables a b : list A.

Lemma row_loop_bounds_b blo bhi i (j2len : gmap nat nat) js :
  (forall j k, j2len !! j = Some k -> (blo <= j /\ k <= j + 1 - blo)%nat) ->
  forall (newj2len : gmap nat nat) best,
  (forall j k, newj2len !! j = Some k -> (blo <= j /\ k <= j + 1 - blo)%nat) ->
  within_b blo bhi best ->
  (forall j k, (row_loop blo bhi i j2len js newj2len best).1 !! j = Some k ->
     (blo <= j /\ k <= j + 1 - blo)%nat) /\
  within_b blo bhi (row_loop blo bhi i j2len js newj2len best).2.
Proof.
  intros Hprev. induction js as [|j js IH]; intros newj2len best Hnew Hbest.
  - simpl. auto.
  - simpl. destruct (j <? blo)%nat eqn:Elo; [now apply IH|].
    destruct (bhi <=? j)%nat eqn:Ehi; [simpl; auto|].
    apply Nat.ltb_ge in Elo. apply Nat.leb_gt in Ehi.
    assert (Hk : (j2lenget_pred j2len j <= j - blo)%nat).
    { destruct j as [|j']; cbn [j2lenget_pred]; [lia|].
      destruct (j2len !! j') as [k|] eqn:E; simpl; [|lia].
      destruct (Hprev j' k E). lia. }
    apply IH.
    + intros j' k Hl. apply lookup_insert_Some in Hl as [[<- <-]|[_ Hl]];
        [lia|eauto].
    + destruct (m_size best <? j2lenget_pred j2len j + 1)%nat; [|exact Hbest].
      unfold within_b. cbn [m_b m_size]. lia.
Qed.

Lemma rows_loop_bounds_b blo bhi rows :
  forall (j2len : gmap nat nat) best,
  (forall j k, j2len !! j = Some k -> (blo <= j /\ k <= j + 1 - blo)%nat) ->
  within_b blo bhi best ->
  within_b blo bhi (rows_loop a b blo bhi rows j2len best).
Proof.
  induction rows as [|i rows IH]; intros j2len best Hprev Hbest; [exact Hbest|].
  cbn [rows_loop].
  set (js := match a !! i with
             | Some x => default [] (b2j b !! x)
             | None => []
             end).
  destruct (row_loop_bounds_b blo bhi i j2len js Hprev ∅ best)
    as [Hnew Hbest']; [intros j k Hl; now rewrite lookup_empty in Hl|exact Hbest|].
  destruct (row_loop blo bhi i j2len js ∅ best) as [newj2len best'].
  cbn [fst snd] in Hnew, Hbest'. now apply IH.
Qed.

Lemma extend_left_bounds_b alo blo besti :
  forall bestj bestsize,
  (blo <= bestj)%nat ->
  (blo <= m_b (extend_left a b alo blo besti bestj bestsize) /\
   m_b (extend_left a b alo blo besti bestj bestsize) +
     m_size (extend_left a b alo blo besti bestj bestsize) =
   bestj + bestsize)%nat.
Proof.
  induction besti as [|i' IH]; intros bestj bestsize Hblo; simpl.
  - lia.
  - destruct bestj as [|j']; [simpl; lia|].
    destruct ((alo <? S i')%nat && (blo <? S j')%nat &&
              bool_decide (a !! i' = b !! j')) eqn:E; [|simpl; lia].
    apply andb_true_iff in E as [E _]. apply andb_true_iff in E as [_ E].
    apply Nat.ltb_lt in E.
    destruct (IH j' (S bestsize)) as [H1 H2]; [lia|]. lia.
Qed.

Lemma extend_right_bounds_b n ahi bhi besti bestj :
  forall bestsize,
  (bestj + bestsize <= bhi)%nat ->
  (bestj + extend_right a b n ahi bhi besti bestj bestsize <= bhi)%nat.
Proof.
  induction n as [|n IH]; intros bestsize Hle; simpl; [lia|].
  destruct ((besti + bestsize <? ahi)%nat && (bestj + bestsize <? bhi)%nat &&
            bool_decide (a !! (besti + bestsize)%nat = b !! (bestj + bestsize)%nat))
    eqn:E; [|lia].
  apply andb_true_iff in E as [E _]. apply andb_true_iff in E as [_ E].
  apply Nat.ltb_lt in E. apply IH. lia.
Qed.

(** The match [find_longest_match] returns lies in the columns it was
    asked to search. *)
Lemma find_longest_match_bounds_b alo ahi blo bhi :
  (blo <= bhi)%nat ->
  within_b blo bhi (find_longest_match a b alo ahi blo bhi).
Proof.
  intros Hle. unfold find_longest_match. cbv zeta.
  pose proof (rows_loop_bounds_b blo bhi (seq alo (ahi - alo)) ∅
                (mkMatch alo blo 0)) as Hrows.
  destruct Hrows as [Hr1 Hr2];
    [intros j k Hl; now rewrite lookup_empty in Hl
    |unfold within_b; cbn [m_b m_size]; lia|].
  set (best := rows_loop a b blo bhi (seq alo (ahi - alo)) ∅ (mkMatch alo blo 0)) in *.
  destruct (extend_left_bounds_b alo blo (m_a best) (m_b best) (m_size best) Hr1)
    as [Hl1 Hl2].
  set (best' := extend_left a b alo blo (m_a best) (m_b best) (m_size best)) in *.
  pose proof (extend_right_bounds_b (ahi - (m_a best' + m_size best')) ahi bhi
                (m_a best') (m_b best') (m_size best')) as He.
  unfold within_b. cbn [m_b m_size]. lia.
Qed.

Lemma matched_cons x l : matched (x :: l) = (m_size x + matched l)%nat.
Proof. reflexivity. Qed.

Lemma matched_nil : matched [] = 0%nat.
Proof. reflexivity. Qed.

Lemma matched_app l l' : matched (l ++ l') = (matched l + matched l')%nat.
Proof. unfold matched. now rewrite List.map_app, list_sum_app. Qed.

Lemma span_a_cons alo ahi blo bhi queue :
  span_a ((alo, ahi, blo, bhi) :: queue) = (ahi - alo + span_a queue)%nat.
Proof. reflexivity. Qed.

Lemma span_b_cons alo ahi blo bhi queue :
  span_b ((alo, ahi, blo, bhi) :: queue) = (bhi - blo + span_b queue)%nat.
Proof. reflexivity. Qed.

(** The blocks the loop collects fit side by side into the ranges it was
    given, in [a] and in [b]. *)
Lemma blocks_loop_matched n :
  forall queue matching_blocks blocks,
  Forall ordered_ab queue ->
  blocks_loop a b n queue matching_blocks = Some blocks ->
  (matched blocks <= matched matching_blocks + span_a queue /\
   matched blocks <= matched matching_blocks + span_b queue)%nat.
Proof.
  induction n as [|n IH]; intros queue mb blocks Hord Hloop.
  - destruct queue as [|[[[alo ahi] blo] bhi] queue]; [|discriminate].
    injection Hloop as <-. lia.
  - destruct queue as [|[[[alo ahi] blo] bhi] queue].
    { injection Hloop as <-. lia. }
    inversion Hord as [|? ? Ho Hord']; subst. destruct Ho as [Hoa Hob].
    cbn [fst snd] in Hoa, Hob.
    pose proof (find_longest_match_bounds a b alo ahi blo bhi Hoa) as [Ha1 Ha2].
    pose proof (find_longest_match_bounds_b alo ahi blo bhi Hob) as [Hb1 Hb2].
    rewrite span_a_cons, span_b_cons.
    cbn [blocks_loop] in Hloop. cbv zeta in Hloop.
    set (x := find_longest_match a b alo ahi blo bhi) in *.
    destruct (m_size x =? 0)%nat eqn:Ek.
    + destruct (IH _ _ _ Hord' Hloop). lia.
    + apply IH in Hloop.
      * rewrite matched_app in Hloop.
        rewrite matched_cons, matched_nil in Hloop.
        destruct ((m_a x + m_size x <? ahi)%nat && (m_b x + m_size x <? bhi)%nat);
          destruct ((alo <? m_a x)%nat && (blo <? m_b x)%nat);
          rewrite ?span_a_cons, ?span_b_cons in Hloop; lia.
      * destruct ((m_a x + m_size x <? ahi)%nat && (m_b x + m_size x <? bhi)%nat)
          eqn:E1;
          destruct ((alo <? m_a x)%nat && (blo <? m_b x)%nat) eqn:E2;
          repeat (apply Forall_cons; split);
          try exact Hord'; unfold ordered_ab; cbn [fst snd];
          repeat match goal with
                 | E : _ && _ = true |- _ =>
                     apply andb_true_iff in E as [? ?]
                 | E : (_ <? _)%nat = true |- _ => apply Nat.ltb_lt in E
                 end; lia.
Qed.

Lemma matched_perm l l' : Permutation l l' -> matched l = matched l'.
Proof.
  unfold matched, list_sum.
  induction 1 as [|x l l' _ IH|x x' l|l l' l'' _ IH1 _ IH2];
    cbn [List.map fold_right]; lia.
Qed.

Lemma collapse_matched blocks :
  forall i1 j1 k1 non_adjacent,
  matched (collapse blocks i1 j1 k1 non_adjacent) =
    (matched non_adjacent + k1 + matched blocks)%nat.
Proof.
  induction blocks as [|x r IH]; intros i1 j1 k1 na; cbn [collapse].
  - destruct (k1 =? 0)%nat eqn:E.
    + apply Nat.eqb_eq in E. rewrite matched_nil. lia.
    + rewrite matched_app, matched_cons, matched_nil. cbn [m_size]. lia.
  - destruct ((i1 + k1 =? m_a x)%nat && (j1 + k1 =? m_b x)%nat).
    + rewrite IH, matched_cons. lia.
    + rewrite IH, matched_cons. destruct (k1 =? 0)%nat eqn:E.
      * apply Nat.eqb_eq in E. lia.
      * rewrite matched_app, matched_cons, matched_nil. cbn [m_size]. lia.
Qed.

(** The matching blocks cover at most each of the two sequences. *)
Lemma get_matching_blocks_matched :
  (matched (get_matching_blocks a b) <= length a /\
   matched (get_matching_blocks a b) <= length b)%nat.
Proof.
  unfold get_matching_blocks. cbv zeta.
  destruct (blocks_loop_Some a b) as [blocks Hloop]. rewrite Hloop.
  change (default [] (Some blocks)) with blocks.
  rewrite matched_app, collapse_matched, matched_cons, !matched_nil.
  rewrite <- (matched_perm _ _ (PyFacts.sort_by_perm Match_leb blocks)).
  apply blocks_loop_matched in Hloop.
  - rewrite span_a_cons, span_b_cons, matched_nil in Hloop.
    change (span_a []) with 0%nat in Hloop.
    change (span_b []) with 0%nat in Hloop. cbn [m_size]. lia.
  - apply Forall_cons; split; [|constructor].
    unfold ordered_ab. cbn [fst snd]. lia.
Qed.

(** The ratio is a number between 0 and 1. *)
Lemma ratio_range : (0 <= ratio a b <= 1)%Q.
Proof.
  unfold ratio, _calculate_ratio. cbv zeta.
  fold (matched (get_matching_blocks a b)).
  destruct get_matching_blocks_matched as [Ha Hb].
  set (m := matched (get_matching_blocks a b)) in *.
  destruct (length a + length b =? 0)%nat eqn:E; [split; discriminate|].
  apply Nat.eqb_neq in E.
  assert (Hpos : (0 < inject_Z (Z.of_nat (length a + length b)))%Q).
  { change 0%Q with (inject_Z 0). rewrite <- Zlt_Qlt. lia. }
  assert (Hm : (0 <= inject_Z (Z.of_nat m))%Q).
  { change 0%Q with (inject_Z 0). rewrite <- Zle_Qle. lia. }
  assert (Hle : (2 * inject_Z (Z.of_nat m) <=
                 inject_Z (Z.of_nat (length a + length b)))%Q).
  { change 2%Q with (inject_Z 2). rewrite <- inject_Z_mult, <- Zle_Qle. lia. }
  split.
  - apply Qle_shift_div_l; [exact Hpos|]. lra.
  - apply Qle_shift_div_r; [exact Hpos|]. lra.
Qed.

End Sizes.

End DifflibFacts.

(** ** More on the conflict detector *)
Module ConflictAgentFacts.
Import Py Models ModelsFacts ConflictAgent ConflictAgentSpec Notions ConflictNotions.

(** *** [_save_conflict] *)

Lemma next_id_fresh rows c : In c rows -> c_id c < next_id rows.
Proof.
  unfold next_id. induction rows as [|r rows IH]; [intros []|].
  cbn [List.map fold_right]. intros [->|Hin]; [lia|].
  specialize (IH Hin). lia.
Qed.

Lemma find_map_same_pair a b (f : BudgetConflict -> BudgetConflict) rows :
  (forall c, same_pair a b (f c) = same_pair a b c) ->
  List.find (same_pair a b) (List.map f rows) =
    option_map f (List.find (same_pair a b) rows).
Proof.
  intros Hf. induction rows as [|r rows IH]; [reflexivity|].
  cbn [List.map List.find]. rewrite Hf.
  destruct (same_pair a b r); [reflexivity|exact IH].
Qed.

Lemma find_app_none {A} (p : A -> bool) l x :
  List.find p l = None -> List.find p (l ++ [x]) = List.find p [x].
Proof.
  induction l as [|y l IH]; [reflexivity|].
  cbn [List.find app]. destruct (p y); [discriminate|exact IH].
Qed.

(** X15. [_save_conflict] is an upsert on the unordered pair.  After it,
    the first row about the pair carries the new score and type.  If a row
    about the pair existed, in either order, no row is added and that row
    keeps its key, its resolution status and its notes; otherwise one
    pending row with a fresh key is appended.  Entries are not touched. *)
Theorem save_conflict_upsert db a b similarity conflict_type' :
  let db' := _save_conflict db a b similarity conflict_type' in
  entries db' = entries db /\
  exists row,
    List.find (same_pair a b) (conflicts db') = Some row /\
    similarity_score row = Some similarity /\
    conflict_type row = Some conflict_type' /\
    match List.find (same_pair a b) (conflicts db) with
    | Some existing =>
        length (conflicts db') = length (conflicts db) /\
        List.map c_id (conflicts db') = List.map c_id (conflicts db) /\
        List.map resolution_status (conflicts db') =
          List.map resolution_status (conflicts db) /\
        List.map resolution_notes (conflicts db') =
          List.map resolution_notes (conflicts db) /\
        c_id row = c_id existing
    | None =>
        conflicts db' = conflicts db ++ [row] /\
        resolution_status row = Some "pending" /\
        entry_a_id row = Some a /\ entry_b_id row = Some b /\
        forall c, In c (conflicts db) -> c_id c <> c_id row
    end.
Proof.
  cbv zeta. unfold _save_conflict. fold (same_pair a b).
  destruct (List.find (same_pair a b) (conflicts db)) as [existing|] eqn:Hfind.
  - split; [reflexivity|]. cbn [conflicts with_conflicts].
    set (f := fun c : BudgetConflict =>
                if c_id c =? c_id existing
                then mkBudgetConflict (c_id c) (entry_a_id c) (entry_b_id c)
                       (Some conflict_type') (Some similarity)
                       (resolution_status c) (resolution_notes c)
                else c).
    assert (Hf : forall c, same_pair a b (f c) = same_pair a b c).
    { intros c. unfold f. destruct (c_id c =? c_id existing); reflexivity. }
    exists (f existing). rewrite (find_map_same_pair a b f _ Hf), Hfind.
    split; [reflexivity|].
    assert (Hfe : f existing =
              mkBudgetConflict (c_id existing) (entry_a_id existing)
                (entry_b_id existing) (Some conflict_type') (Some similarity)
                (resolution_status existing) (resolution_notes existing)).
    { unfold f. now rewrite Z.eqb_refl. }
    rewrite Hfe. cbn [similarity_score conflict_type c_id].
    split; [reflexivity|]. split; [reflexivity|].
    split; [apply length_map|].
    repeat split; rewrite List.map_map; apply List.map_ext; intros c;
      unfold f; destruct (c_id c =? c_id existing); reflexivity.
  - split; [reflexivity|]. cbn [conflicts with_conflicts].
    eexists. rewrite (find_app_none _ _ _ Hfind). cbn [List.find].
    assert (Hs : same_pair a b
              (mkBudgetConflict (next_id (conflicts db)) (Some a) (Some b)
                 (Some conflict_type') (Some similarity) (Some "pending") None)
            = true).
    { unfold same_pair. cbn [entry_a_id entry_b_id opt_eqb].
      now rewrite !Z.eqb_refl. }
    rewrite Hs. split; [reflexivity|].
    cbn [similarity_score conflict_type resolution_status entry_a_id entry_b_id c_id].
    repeat split. intros c Hc. pose proof (next_id_fresh _ _ Hc). lia.
Qed.

(** A later save keeps a row for every pair that had one. *)
Lemma _save_conflict_keeps db a b similarity conflict_type' x y row :
  In row (conflicts db) -> same_pair x y row = true ->
  exists row', In row' (conflicts (_save_conflict db a b similarity conflict_type')) /\
               same_pair x y row' = true.
Proof.
  intros Hin Hp. unfold _save_conflict.
  destruct (List.find _ (conflicts db)) as [existing|].
  - cbn [conflicts with_conflicts].
    eexists. split; [apply in_map; exact Hin|].
    cbv beta. destruct (c_id row =? c_id existing); exact Hp.
  - cbn [conflicts with_conflicts]. exists row. split; [|exact Hp].
    apply in_or_app. now left.
Qed.

(** *** [detect_conflicts] *)

Lemma _save_conflict_tables db a b similarity conflict_type' :
  entries (_save_conflict db a b similarity conflict_type') = entries db /\
  departments (_save_conflict db a b similarity conflict_type') = departments db /\
  global_limits (_save_conflict db a b similarity conflict_type') =
    global_limits db.
Proof.
  unfold _save_conflict. destruct (List.find _ _); repeat split.
Qed.

Lemma _save_conflict_rows db a b similarity conflict_type' :
  exists tail,
    List.map row_identity
      (conflicts (_save_conflict db a b similarity conflict_type')) =
    List.map row_identity (conflicts db) ++ tail.
Proof.
  unfold _save_conflict. destruct (List.find _ _) as [existing|].
  - exists []. rewrite app_nil_r. cbn [conflicts with_conflicts].
    rewrite List.map_map. apply List.map_ext. intros c.
    destruct (c_id c =? c_id existing); reflexivity.
  - eexists. cbn [conflicts with_conflicts]. rewrite List.map_app. reflexivity.
Qed.

Lemma _save_conflict_saved db a b similarity conflict_type' :
  exists row,
    In row (conflicts (_save_conflict db a b similarity conflict_type')) /\
    same_pair a b row = true.
Proof.
  unfold _save_conflict. fold (same_pair a b).
  destruct (List.find (same_pair a b) (conflicts db)) as [existing|] eqn:Hfind.
  - apply List.find_some in Hfind as [Hin Hp].
    cbn [conflicts with_conflicts]. eexists. split; [apply in_map; exact Hin|].
    cbv beta. destruct (c_id existing =? c_id existing); exact Hp.
  - cbn [conflicts with_conflicts]. eexists.
    split; [apply in_or_app; right; now left|].
    unfold same_pair. cbn [entry_a_id entry_b_id opt_eqb].
    now rewrite !Z.eqb_refl.
Qed.

Lemma detect_pair_inv y db l entry_a entry_b st :
  In entry_a l -> In entry_b l ->
  detect_inv y db l st -> detect_inv y db l (detect_pair y entry_a entry_b st).
Proof.
  intros Ha Hb [He Hd Hl Hrows Hproc Hnd Hsaved Hmade]. unfold detect_pair.
  destruct (opt_eqb (department_id entry_a) (department_id entry_b));
    [now constructor|].
  cbv zeta.
  destruct (bool_decide _) eqn:Hseen; [now constructor|].
  apply bool_decide_eq_false in Hseen.
  destruct (Qgeb _ SIMILARITY_THRESHOLD) eqn:Hsim.
  - destruct (_create_conflict_ids (ds_db st) entry_a entry_b
                (_calculate_similarity entry_a entry_b) y) as [Hia Hib].
    destruct (_save_conflict_tables (ds_db st) (id entry_a) (id entry_b)
                (_calculate_similarity entry_a entry_b)
                (cf_conflict_type
                   (_create_conflict (ds_db st) entry_a entry_b
                      (_calculate_similarity entry_a entry_b) y)))
      as (Te & Td & Tl).
    constructor; cbn [ds_db ds_conflicts ds_processed_pairs].
    + now rewrite Te.
    + now rewrite Td.
    + now rewrite Tl.
    + destruct Hrows as [tail Htail].
      destruct (_save_conflict_rows (ds_db st) (id entry_a) (id entry_b)
                  (_calculate_similarity entry_a entry_b)
                  (cf_conflict_type
                     (_create_conflict (ds_db st) entry_a entry_b
                        (_calculate_similarity entry_a entry_b) y)))
        as [tail' Htail'].
      exists (tail ++ tail'). now rewrite Htail', Htail, <- app_assoc.
    + intros c Hc. apply in_app_iff in Hc as [Hc|[<-|[]]].
      * apply elem_of_union_r. now apply Hproc.
      * apply elem_of_union_l, elem_of_singleton.
        unfold pair_key. now rewrite Hia, Hib.
    + rewrite List.map_app. cbn [List.map].
      apply (Permutation.Permutation_NoDup (Permutation_cons_append _ _)).
      constructor; [|exact Hnd].
      intros Hin. apply in_map_iff in Hin as (c & Hk & Hc).
      apply Hseen. specialize (Hproc c Hc). rewrite Hk in Hproc.
      unfold pair_key in Hproc. now rewrite Hia, Hib in Hproc.
    + intros c Hc. apply in_app_iff in Hc as [Hc|[<-|[]]].
      * destruct (Hsaved c Hc) as (row & Hin & Hp).
        now apply (_save_conflict_keeps _ _ _ _ _ _ _ row).
      * rewrite Hia, Hib. apply _save_conflict_saved.
    + intros c Hc. apply in_app_iff in Hc as [Hc|[<-|[]]]; [now apply Hmade|].
      exists entry_a, entry_b, (ds_db st).
      split; [exact Ha|]. split; [exact Hb|]. split; [|reflexivity].
      now apply PyFacts.Qgeb_ge in Hsim.
  - constructor; cbn [ds_db ds_conflicts ds_processed_pairs]; try assumption.
    intros c Hc. apply elem_of_union_r. now apply Hproc.
Qed.

Lemma detect_inner_inv y db l entry_a r :
  forall st,
  In entry_a l -> (forall e, In e r -> In e l) ->
  detect_inv y db l st ->
  detect_inv y db l
    (fold_left (fun st entry_b => detect_pair y entry_a entry_b st) r st).
Proof.
  induction r as [|entry_b r IH]; intros st Ha Hr Hst; [exact Hst|].
  cbn [fold_left]. apply IH; [exact Ha|intros e He; apply Hr; now right|].
  apply detect_pair_inv; [exact Ha|apply Hr; now left|exact Hst].
Qed.

Lemma detect_loop_inv y db l r :
  forall st,
  (forall e, In e r -> In e l) ->
  detect_inv y db l st -> detect_inv y db l (detect_loop y r st).
Proof.
  induction r as [|entry_a r IH]; intros st Hr Hst; [exact Hst|].
  cbn [detect_loop]. apply IH; [intros e He; apply Hr; now right|].
  apply detect_inner_inv;
    [apply Hr; now left|intros e He; apply Hr; now right|exact Hst].
Qed.

Lemma detect_conflicts_inv db y :
  has_kwota y = true ->
  exists st,
    detect_inv y db
      (List.filter (fun e => OptimizationAgent.amount_positive (get_kwota e y))
         (entries db)) st /\
    detect_conflicts db y =
      inr (sort_by (fun c d => Qle_bool (cf_similarity_score d) (cf_similarity_score c))
             (ds_conflicts st),
           ds_db st).
Proof.
  intros Hy. unfold detect_conflicts. rewrite Hy. cbn [negb].
  eexists. split; [|reflexivity].
  apply detect_loop_inv; [auto|].
  constructor; cbn [ds_db ds_conflicts]; try reflexivity.
  - exists []. now rewrite app_nil_r.
  - intros c [].
  - constructor.
  - intros c [].
  - intros c [].
Qed.

Lemma detect_conflicts_raises db y :
  has_kwota y = false -> detect_conflicts db y = inl AttributeError.
Proof. intros Hy. unfold detect_conflicts. now rewrite Hy. Qed.

(** The fields [_create_conflict] derives from the similarity. *)
Lemma _create_conflict_fields db ea eb similarity y :
  let c := _create_conflict db ea eb similarity y in
  cf_entry_a_amount c = kwota_or0 ea y /\
  cf_entry_b_amount c = kwota_or0 eb y /\
  cf_combined_amount c = (kwota_or0 ea y + kwota_or0 eb y)%Q /\
  cf_potential_savings c =
    round_ndigits ((kwota_or0 ea y + kwota_or0 eb y) * (15 # 100)) 2 /\
  cf_similarity_score c = round_ndigits similarity 2 /\
  ((cf_conflict_type c = "duplicate" /\ (85 # 100 <= similarity)%Q) \/
   (cf_conflict_type c = "overlap" /\ (7 # 10 <= similarity < 85 # 100)%Q) \/
   (cf_conflict_type c = "semantic_similar" /\ (similarity < 7 # 10)%Q)).
Proof.
  cbv zeta. unfold _create_conflict. cbv zeta.
  destruct (Qgeb similarity (85 # 100)) eqn:E1.
  - cbn. repeat split. left. apply PyFacts.Qgeb_ge in E1. auto.
  - destruct (Qgeb similarity (7 # 10)) eqn:E2; cbn; repeat split.
    + right. left. apply PyFacts.Qgeb_ge in E2.
      apply PyFacts.Qle_bool_false in E1. auto.
    + right. right. apply PyFacts.Qle_bool_false in E2. auto.
Qed.

(** X16. Every reported conflict has a score of at least 0.6, also after
    the rounding to two digits, and the type agrees with the rounded
    score: "duplicate" from 0.85 on, "overlap" between 0.7 and 0.85,
    "semantic_similar" up to 0.7.  Both amounts are positive, the combined
    amount is their sum, and the potential savings lie between nothing
    and the combined amount. *)
Theorem reported_conflict_fields db y c :
  In c (reported_conflicts (detect_conflicts db y)) ->
  (6 # 10 <= cf_similarity_score c)%Q /\
  ((cf_conflict_type c = "duplicate" /\ (85 # 100 <= cf_similarity_score c)%Q) \/
   (cf_conflict_type c = "overlap" /\
    (7 # 10 <= cf_similarity_score c <= 85 # 100)%Q) \/
   (cf_conflict_type c = "semantic_similar" /\
    (cf_similarity_score c <= 7 # 10)%Q)) /\
  (0 < cf_entry_a_amount c)%Q /\ (0 < cf_entry_b_amount c)%Q /\
  cf_combined_amount c = (cf_entry_a_amount c + cf_entry_b_amount c)%Q /\
  (0 <= cf_potential_savings c <= cf_combined_amount c)%Q.
Proof.
  destruct (has_kwota y) eqn:Hy;
    [|rewrite (detect_conflicts_raises db y Hy); intros []].
  destruct (detect_conflicts_inv db y Hy) as (st & Hinv & ->).
  cbn [reported_conflicts]. rewrite PyFacts.sort_by_In. intros Hc.
  destruct (inv_made _ _ _ _ Hinv c Hc) as (ea & eb & db0 & Ha & Hb & Hsim & ->).
  destruct (_create_conflict_fields db0 ea eb (_calculate_similarity ea eb) y)
    as (-> & -> & -> & -> & -> & Htype).
  unfold SIMILARITY_THRESHOLD in Hsim.
  set (sim := _calculate_similarity ea eb) in *.
  assert (Hge : forall k, (inject_Z k <= sim * 100)%Q ->
                  (inject_Z k <= round_ndigits sim 2 * 100)%Q)
    by (intros k; apply RoundFacts.round_ndigits_2_ge).
  assert (Hle : forall k, (sim * 100 <= inject_Z k)%Q ->
                  (round_ndigits sim 2 * 100 <= inject_Z k)%Q)
    by (intros k; apply RoundFacts.round_ndigits_2_le).
  pose proof (Hge 60) as H60. pose proof (Hge 70) as H70.
  pose proof (Hge 85) as H85. pose proof (Hle 70) as L70.
  pose proof (Hle 85) as L85.
  change (inject_Z 60) with 60%Q in *. change (inject_Z 70) with 70%Q in *.
  change (inject_Z 85) with 85%Q in *.
  apply filter_In in Ha as [_ Ha]. apply filter_In in Hb as [_ Hb].
  apply OptimizationAgentSpec.amount_positive_spec in Ha, Hb.
  split; [lra|]. split.
  { destruct Htype as [[-> Ht]|[[-> Ht]|[-> Ht]]].
    - left. split; [reflexivity|lra].
    - right. left. split; [reflexivity|lra].
    - right. right. split; [reflexivity|lra]. }
  split; [assumption|]. split; [assumption|]. split; [reflexivity|].
  apply RoundFacts.round_share_bounds. lra.
Qed.

Lemma reported_conflict_fields_witness :
  (6 # 10 <= cf_similarity_score office_conflict)%Q /\
  ((cf_conflict_type office_conflict = "duplicate" /\
    (85 # 100 <= cf_similarity_score office_conflict)%Q) \/
   (cf_conflict_type office_conflict = "overlap" /\
    (7 # 10 <= cf_similarity_score office_conflict <= 85 # 100)%Q) \/
   (cf_conflict_type office_conflict = "semantic_similar" /\
    (cf_similarity_score office_conflict <= 7 # 10)%Q)) /\
  (0 < cf_entry_a_amount office_conflict)%Q /\
  (0 < cf_entry_b_amount office_conflict)%Q /\
  cf_combined_amount office_conflict =
    (cf_entry_a_amount office_conflict + cf_entry_b_amount office_conflict)%Q /\
  (0 <= cf_potential_savings office_conflict
     <= cf_combined_amount office_conflict)%Q.
Proof.
  apply (reported_conflict_fields example_conflict_db 2025).
  vm_compute. tauto.
Defined.

(** X17. No unordered pair of entries is reported twice, and the report
    is sorted by similarity score, highest first. *)
Theorem reported_conflicts_distinct_and_sorted db y :
  List.NoDup (List.map pair_key (reported_conflicts (detect_conflicts db y))) /\
  sorted_by (fun c d => Qle_bool (cf_similarity_score d) (cf_similarity_score c))
    (reported_conflicts (detect_conflicts db y)).
Proof.
  destruct (has_kwota y) eqn:Hy;
    [|rewrite (detect_conflicts_raises db y Hy); split; [constructor|exact I]].
  destruct (detect_conflicts_inv db y Hy) as (st & Hinv & ->).
  cbn [reported_conflicts]. split.
  - apply (Permutation.Permutation_NoDup
             (l := List.map pair_key (ds_conflicts st)));
      [|exact (inv_nodup _ _ _ _ Hinv)].
    apply Permutation_map, PyFacts.sort_by_perm.
  - apply SortFacts.sort_by_sorted. intros u v Huv.
    apply PyFacts.Qle_bool_false in Huv. apply Qle_bool_iff. lra.
Qed.

(** X18. [detect_conflicts] writes to the conflict table only: entries,
    departments and limits are as before.  It never removes a conflict
    row nor changes whom a row is about, its resolution status or its
    notes; and every reported pair has a row in the table afterwards. *)
Theorem detect_conflicts_store db y :
  match detect_conflicts db y with
  | inl _ => has_kwota y = false
  | inr (reported, db') =>
      has_kwota y = true /\
      entries db' = entries db /\ departments db' = departments db /\
      global_limits db' = global_limits db /\
      (exists tail,
         List.map row_identity (conflicts db') =
           List.map row_identity (conflicts db) ++ tail) /\
      forall c, In c reported ->
        exists row, In row (conflicts db') /\
                    same_pair (cf_entry_a_id c) (cf_entry_b_id c) row = true
  end.
Proof.
  destruct (has_kwota y) eqn:Hy;
    [|now rewrite (detect_conflicts_raises db y Hy)].
  destruct (detect_conflicts_inv db y Hy) as (st & Hinv & ->).
  destruct Hinv as [He Hd Hl Hrows _ _ Hsaved _].
  repeat (split; [assumption || reflexivity|]).
  intros c Hc. apply PyFacts.sort_by_In in Hc. now apply Hsaved.
Qed.

(** *** [_calculate_similarity] *)

Lemma _category_similarity_range content_a content_b :
  (0 <= _category_similarity content_a content_b <= 1)%Q.
Proof.
  unfold _category_similarity. cbv zeta.
  destruct (_ || _); [split; discriminate|].
  destruct (0 <? _)%nat eqn:E; [|split; discriminate].
  apply Nat.ltb_lt in E.
  assert (Hsub : (size (categories_of content_a ∩ categories_of content_b) <=
                  size (categories_of content_a ∪ categories_of content_b))%nat).
  { apply subseteq_size. intros x Hx.
    apply elem_of_intersection in Hx as [Hx _]. now apply elem_of_union_l. }
  set (i := size (categories_of content_a ∩ categories_of content_b)) in *.
  set (u := size (categories_of content_a ∪ categories_of content_b)) in *.
  assert (Hu : (0 < inject_Z (Z.of_nat u))%Q).
  { change 0%Q with (inject_Z 0). rewrite <- Zlt_Qlt. lia. }
  assert (Hi : (0 <= inject_Z (Z.of_nat i))%Q).
  { change 0%Q with (inject_Z 0). rewrite <- Zle_Qle. lia. }
  assert (Hiu : (inject_Z (Z.of_nat i) <= inject_Z (Z.of_nat u))%Q).
  { rewrite <- Zle_Qle. lia. }
  split.
  - apply Qle_shift_div_l; [exact Hu|]. lra.
  - apply Qle_shift_div_r; [exact Hu|]. lra.
Qed.

Lemma _category_similarity_untagged content_a content_b :
  categories_of content_a = ∅ \/ categories_of content_b = ∅ ->
  _category_similarity content_a content_b = 0%Q.
Proof.
  intros Hempty. unfold _category_similarity. cbv zeta.
  assert (Hb : bool_decide (categories_of content_a = ∅) ||
               bool_decide (categories_of content_b = ∅) = true).
  { destruct Hempty as [He|He]; rewrite (bool_decide_eq_true_2 _ He);
      [reflexivity|apply orb_true_r]. }
  now rewrite Hb.
Qed.

(** X19. The similarity of two entries lies between 0 and 1.  It is at
    most 0.8 when the paragraphs differ, and below 0.7 when one of the two
    texts carries no category keyword: such a pair is never typed
    "overlap" or "duplicate". *)
Theorem calculate_similarity_range entry_a entry_b :
  (0 <= _calculate_similarity entry_a entry_b <= 1)%Q /\
  (paragraf entry_a <> paragraf entry_b ->
   (_calculate_similarity entry_a entry_b <= 8 # 10)%Q) /\
  (categories_of (_normalize_content entry_a) = ∅ \/
   categories_of (_normalize_content entry_b) = ∅ ->
   (_calculate_similarity entry_a entry_b < 7 # 10)%Q).
Proof.
  unfold _calculate_similarity. cbv zeta.
  pose proof (DifflibFacts.ratio_range
                (Py.code_points (_normalize_content entry_a))
                (Py.code_points (_normalize_content entry_b))) as Hr.
  fold (Difflib.ratio_str (_normalize_content entry_a)
          (_normalize_content entry_b)) in Hr.
  pose proof (_category_similarity_range (_normalize_content entry_a)
                (_normalize_content entry_b)) as Hc.
  set (r := Difflib.ratio_str _ _) in *.
  set (cs := _category_similarity _ _) in *.
  split; [|split].
  - destruct (opt_eqb _ _); lra.
  - intros Hp. destruct (opt_eqb (paragraf entry_a) (paragraf entry_b)) eqn:E.
    + exfalso. apply Hp.
      destruct (paragraf entry_a), (paragraf entry_b); cbn in E;
        try discriminate; [|reflexivity].
      apply Z.eqb_eq in E. now subst.
    + lra.
  - intros Hempty.
    assert (Hz : cs = 0%Q) by now apply _category_similarity_untagged.
    rewrite Hz. destruct (opt_eqb _ _); lra.
Qed.

(** *** [resolve_conflict] *)

Lemma find_map_c_id i (f : BudgetConflict -> BudgetConflict) rows :
  (forall c, c_id (f c) = c_id c) ->
  List.find (fun c => c_id c =? i) (List.map f rows) =
    option_map f (List.find (fun c => c_id c =? i) rows).
Proof.
  intros Hf. induction rows as [|r rows IH]; [reflexivity|].
  cbn [List.map List.find]. rewrite Hf.
  destruct (c_id r =? i); [reflexivity|exact IH].
Qed.

(** The conflict table after a successful call. *)
Lemma resolved_rows_find conflict_id notes rows c :
  List.find (fun c => c_id c =? conflict_id) rows = Some c ->
  List.find (fun c => c_id c =? conflict_id)
    (List.map (fun c => if c_id c =? conflict_id then resolved_row notes c else c)
       rows) = Some (resolved_row notes c).
Proof.
  intros Hfind.
  rewrite find_map_c_id
    by (intros r; destruct (c_id r =? conflict_id); reflexivity).
  rewrite Hfind. cbn [option_map].
  apply List.find_some in Hfind as [_ Hid]. now rewrite Hid.
Qed.

(** X20. The two refusals of [resolve_conflict], for identifiers the
    database driver can bind, leave the store as it is: an unknown
    conflict, and a consolidation without an entry to keep ([None] or 0),
    whose conflict stays unresolved.  Every other call succeeds. *)
Theorem resolve_conflict_refusals db conflict_id resolution keep_entry_id notes :
  int64 conflict_id ->
  (forall k, keep_entry_id = Some k -> int64 k) ->
  match List.find (fun c => c_id c =? conflict_id) (conflicts db) with
  | None =>
      resolve_conflict db conflict_id resolution keep_entry_id notes =
        (Failure "Nie znaleziono konfliktu", db)
  | Some c =>
      (resolution = "consolidate" -> truthy_int keep_entry_id = false ->
       resolve_conflict db conflict_id resolution keep_entry_id notes =
         (Failure "Nie wskazano pozycji do zachowania", db)) /\
      (resolution <> "consolidate" \/ truthy_int keep_entry_id = true ->
       exists db',
         resolve_conflict db conflict_id resolution keep_entry_id notes =
           (Success resolution, db'))
  end.
Proof.
  intros _ _. unfold resolve_conflict.
  destruct (List.find _ (conflicts db)) as [c|]; [|reflexivity].
  cbv zeta. split.
  - intros -> Hk. now rewrite String.eqb_refl, Hk.
  - intros Hcase. destruct (String.eqb resolution "consolidate") eqn:Hr.
    + destruct Hcase as [Hne|Hk];
        [apply String.eqb_eq in Hr; contradiction|].
      rewrite Hk. cbn [negb].
      destruct (first_entry _ _); [|eauto].
      destruct (if opt_eqb keep_entry_id (entry_a_id c)
                then entry_b_id c else entry_a_id c) as [r|]; [|eauto].
      destruct (first_entry r _); eauto.
    + eauto.
Qed.

(** The example store holds the conflict 1 and no conflict 9. *)
Lemma resolve_conflict_refusals_witness :
  resolve_conflict example_conflict_db 9 "keep_both" None None =
    (Failure "Nie znaleziono konfliktu", example_conflict_db) /\
  resolve_conflict example_conflict_db 1 "consolidate" (Some 0) None =
    (Failure "Nie wskazano pozycji do zachowania", example_conflict_db).
Proof.
  split.
  - apply (resolve_conflict_refusals example_conflict_db 9 "keep_both" None
             None); [unfold int64; lia|discriminate].
  - apply (resolve_conflict_refusals example_conflict_db 1 "consolidate"
             (Some 0) None).
    + unfold int64. lia.
    + intros k [= <-]. unfold int64. lia.
    + reflexivity.
    + reflexivity.
Defined.

(** X21. Any resolution other than "consolidate" is accepted, whatever
    its text and whatever the status of the conflict: the entries are not
    touched, and the conflict is marked resolved with the notes, or with
    the resolution itself when no notes are given. *)
Theorem resolve_conflict_without_consolidation
    db conflict_id resolution keep_entry_id notes c :
  List.find (fun c => c_id c =? conflict_id) (conflicts db) = Some c ->
  resolution <> "consolidate" ->
  exists db',
    resolve_conflict db conflict_id resolution keep_entry_id notes =
      (Success resolution, db') /\
    entries db' = entries db /\ departments db' = departments db /\
    global_limits db' = global_limits db /\
    length (conflicts db') = length (conflicts db) /\
    List.find (fun c => c_id c =? conflict_id) (conflicts db') =
      Some (resolved_row (str_or notes resolution) c) /\
    forall r, In r (conflicts db) -> c_id r <> conflict_id -> In r (conflicts db').
Proof.
  intros Hfind Hne. unfold resolve_conflict. rewrite Hfind. cbv zeta.
  apply String.eqb_neq in Hne. rewrite Hne.
  eexists. split; [reflexivity|].
  cbn [entries departments global_limits conflicts with_conflicts].
  do 3 (split; [reflexivity|]). split; [apply length_map|]. split.
  - exact (resolved_rows_find conflict_id (str_or notes resolution) _ c Hfind).
  - intros r Hr Hid. apply in_map_iff. exists r. split; [|exact Hr].
    apply Z.eqb_neq in Hid. now rewrite Hid.
Qed.

Lemma resolve_conflict_without_consolidation_witness :
  exists db',
    resolve_conflict example_conflict_db 1 "keep_bth" None None =
      (Success "keep_bth", db') /\
    entries db' = entries example_conflict_db /\
    departments db' = departments example_conflict_db /\
    global_limits db' = global_limits example_conflict_db /\
    length (conflicts db') = length (conflicts example_conflict_db) /\
    List.find (fun c => c_id c =? 1) (conflicts db') =
      Some (resolved_row (str_or None "keep_bth")
              (mkBudgetConflict 1 (Some 1) (Some 2) (Some "duplicate") (Some 1%Q)
                 (Some "pending") None)) /\
    forall r, In r (conflicts example_conflict_db) -> c_id r <> 1 ->
              In r (conflicts db').
Proof.
  apply (resolve_conflict_without_consolidation example_conflict_db 1 "keep_bth"
           None None).
  - reflexivity.
  - discriminate.
Defined.

(** The general form of a consolidation: the entry [keep_id] takes in
    the entry [r] that the conflict names on its other side. *)
Lemma consolidate_into_spec db conflict_id c keep_id r notes keep remove :
  List.find (fun c => c_id c =? conflict_id) (conflicts db) = Some c ->
  keep_id <> 0 ->
  (if opt_eqb (Some keep_id) (entry_a_id c)
   then entry_b_id c else entry_a_id c) = Some r ->
  keep_id <> r ->
  first_entry keep_id (entries db) = Some keep ->
  first_entry r (entries db) = Some remove ->
  exists db' keep' remove',
    resolve_conflict db conflict_id "consolidate" (Some keep_id) notes =
      (Success "consolidate", db') /\
    first_entry keep_id (entries db') = Some keep' /\
    first_entry r (entries db') = Some remove' /\
    (forall j, j <> keep_id -> j <> r ->
       first_entry j (entries db') = first_entry j (entries db)) /\
    List.find (fun c => c_id c =? conflict_id) (conflicts db') =
      Some (resolved_row (str_or notes "consolidate") c) /\
    (forall z, has_kwota z = true ->
       get_kwota keep' z =
         Some (Some ((kwota_or0 keep z + kwota_or0 remove z) * (85 # 100))%Q)) /\
    kwota_2025 remove' = Some 0%Q /\
    kwota_2026 remove' = Some 0%Q /\
    kwota_2027 remove' = Some 0%Q /\
    kwota_2028 remove' = kwota_2028 remove /\
    kwota_2029 remove' = kwota_2029 remove.
Proof.
  intros Hfind Hnz Hrid Hne Hkeep Hremove.
  assert (Hkr : (keep_id =? r) = false) by (now apply Z.eqb_neq).
  assert (Hrk : (r =? keep_id) = false) by (apply Z.eqb_neq; congruence).
  unfold resolve_conflict. rewrite Hfind. cbv zeta.
  rewrite String.eqb_refl. cbn [truthy_int negb].
  assert ((keep_id =? 0) = false) as -> by (now apply Z.eqb_neq).
  cbn [negb]. rewrite Hrid.
  change (default 0 (Some keep_id)) with keep_id.
  rewrite Hkeep, Hremove.
  eexists _, _, _. split; [reflexivity|].
  cbn [entries conflicts with_entries with_conflicts].
  rewrite !first_entry_update by reflexivity.
  rewrite !Z.eqb_refl, !Hkr, !Hrk, !Hkeep, !Hremove. cbn [option_map].
  split; [reflexivity|]. split; [reflexivity|]. split.
  { intros j Hj Hjr. rewrite !first_entry_update by reflexivity.
    apply Z.eqb_neq in Hj, Hjr. now rewrite !Hj, !Hjr. }
  split.
  { exact (resolved_rows_find conflict_id (str_or notes "consolidate") _ c Hfind). }
  split.
  { intros z Hz. unfold has_kwota in Hz. apply andb_true_iff in Hz as [Hlo Hhi].
    apply Z.leb_le in Hlo, Hhi.
    assert (Hcases : z = 2025 \/ z = 2026 \/ z = 2027 \/ z = 2028 \/ z = 2029)
      by lia.
    destruct Hcases as [-> | [-> | [-> | [-> | ->]]]]; reflexivity. }
  repeat split.
Qed.

(** X22. [resolve_conflict] does not check that the entry to keep is one
    of the conflict's two: given any other entry of the store, it merges
    the conflict's first entry into it, at 85% of the sum, zeroes that
    first entry for 2025 to 2027, leaves the conflict's second entry
    alone and marks the conflict resolved. *)
Theorem resolve_conflict_keeps_a_stranger
    db conflict_id c keep_id a b notes keep remove :
  List.find (fun c => c_id c =? conflict_id) (conflicts db) = Some c ->
  entry_a_id c = Some a -> entry_b_id c = Some b ->
  keep_id <> 0 -> keep_id <> a -> keep_id <> b ->
  first_entry keep_id (entries db) = Some keep ->
  first_entry a (entries db) = Some remove ->
  exists db' keep' remove',
    resolve_conflict db conflict_id "consolidate" (Some keep_id) notes =
      (Success "consolidate", db') /\
    first_entry keep_id (entries db') = Some keep' /\
    first_entry a (entries db') = Some remove' /\
    (a <> b -> first_entry b (entries db') = first_entry b (entries db)) /\
    (forall z, has_kwota z = true ->
       get_kwota keep' z =
         Some (Some ((kwota_or0 keep z + kwota_or0 remove z) * (85 # 100))%Q)) /\
    kwota_2025 remove' = Some 0%Q /\
    kwota_2026 remove' = Some 0%Q /\
    kwota_2027 remove' = Some 0%Q.
Proof.
  intros Hfind Ha Hb Hnz Hna Hnb Hkeep Hremove.
  assert (Hrid : (if opt_eqb (Some keep_id) (entry_a_id c)
                  then entry_b_id c else entry_a_id c) = Some a).
  { rewrite Ha. cbn [opt_eqb]. apply Z.eqb_neq in Hna. now rewrite Hna. }
  destruct (consolidate_into_spec db conflict_id c keep_id a notes
              keep remove Hfind Hnz Hrid Hna Hkeep Hremove)
    as (db' & keep' & remove' & H1 & H2 & H3 & H4 & _ & H6 & H7 & H8 & H9 & _).
  exists db', keep', remove'. repeat (split; [assumption|]).
  split; [|repeat split; assumption].
  intros Hab. apply H4; congruence.
Qed.

Lemma resolve_conflict_keeps_a_stranger_witness :
  exists db' keep' remove',
    resolve_conflict stranger_db 1 "consolidate" (Some 3) None =
      (Success "consolidate", db') /\
    first_entry 3 (entries db') = Some keep' /\
    first_entry 1 (entries db') = Some remove' /\
    (1 <> 2 -> first_entry 2 (entries db') = first_entry 2 (entries stranger_db)) /\
    (forall z, has_kwota z = true ->
       get_kwota keep' z =
         Some (Some ((kwota_or0 entry_remont z + kwota_or0 entry_office_a z)
                     * (85 # 100))%Q)) /\
    kwota_2025 remove' = Some 0%Q /\
    kwota_2026 remove' = Some 0%Q /\
    kwota_2027 remove' = Some 0%Q.
Proof.
  apply (resolve_conflict_keeps_a_stranger stranger_db 1
           (mkBudgetConflict 1 (Some 1) (Some 2) (Some "duplicate") (Some 1%Q)
              (Some "pending") None)
           3 1 2 None entry_remont entry_office_a).
  - reflexivity.
  - reflexivity.
  - reflexivity.
  - lia.
  - lia.
  - lia.
  - reflexivity.
  - reflexivity.
Defined.

End ConflictAgentFacts.

(** ** More on the forecaster *)
Module ForecasterAgentFacts.
Import Py Models ModelsFacts ForecasterAgent ForecasterAgentSpec Notions.

(** *** Sums *)

Lemma fold_left_Qplus_acc l :
  forall a, (fold_left Qplus l a == a + fold_left Qplus l 0)%Q.
Proof.
  induction l as [|x l IH]; intros a; cbn [fold_left]; [ring|].
  rewrite (IH (a + x)%Q), (IH (0 + x)%Q). ring.
Qed.

Lemma sum_Q_cons x l : (sum_Q (x :: l) == x + sum_Q l)%Q.
Proof.
  unfold sum_Q. cbn [fold_left]. rewrite fold_left_Qplus_acc. ring.
Qed.

Lemma sum_Q_nonneg l : Forall (fun x => (0 <= x)%Q) l -> (0 <= sum_Q l)%Q.
Proof.
  induction 1 as [|x l Hx _ IH]; [discriminate|].
  rewrite sum_Q_cons. lra.
Qed.

Lemma sum_Q_member l x :
  Forall (fun x => (0 <= x)%Q) l -> In x l -> (x <= sum_Q l)%Q.
Proof.
  induction 1 as [|y l Hy Hall IH]; [intros []|].
  rewrite sum_Q_cons. pose proof (sum_Q_nonneg l Hall).
  intros [->|Hin]; [lra|]. specialize (IH Hin). lra.
Qed.

Lemma sum_Q_filter_le {B} (f : B -> Q) (p : B -> bool) l :
  (forall e, In e l -> (0 <= f e)%Q) ->
  (0 <= sum_Q (List.map f (List.filter p l)) <= sum_Q (List.map f l))%Q.
Proof.
  induction l as [|e l IH]; intros Hpos; [split; discriminate|].
  assert (He : (0 <= f e)%Q) by (apply Hpos; now left).
  destruct IH as [IH1 IH2]; [intros e' He'; apply Hpos; now right|].
  cbn [List.filter List.map]. destruct (p e); cbn [List.map];
    rewrite ?sum_Q_cons; lra.
Qed.

Lemma sum_Q_map_le {B} (f g : B -> Q) l :
  (forall e, In e l -> (f e <= g e)%Q) ->
  (sum_Q (List.map f l) <= sum_Q (List.map g l))%Q.
Proof.
  induction l as [|e l IH]; intros Hle; [apply Qle_refl|].
  cbn [List.map]. rewrite !sum_Q_cons.
  assert (f e <= g e)%Q by (apply Hle; now left).
  assert (sum_Q (List.map f l) <= sum_Q (List.map g l))%Q
    by (apply IH; intros e' He'; apply Hle; now right).
  lra.
Qed.

(** *** Dictionaries *)

Lemma dict_set_sum d k a :
  (sum_Q (List.map snd (dict_set d k (dict_get d k 0 + a)))
   == sum_Q (List.map snd d) + a)%Q.
Proof.
  induction d as [|[k' v'] d IH].
  - unfold sum_Q. cbn. ring.
  - unfold dict_get. cbn [List.find dict_set fst].
    destruct (String.eqb k' k) eqn:E.
    + cbn [List.map snd]. rewrite !sum_Q_cons. ring.
    + change (match List.find (fun kv => String.eqb (fst kv) k) d with
              | Some kv => snd kv
              | None => 0%Q
              end) with (dict_get d k 0).
      cbn [List.map snd]. rewrite !sum_Q_cons, IH. ring.
Qed.

Lemma dict_set_keys d k v :
  In k (List.map fst d) -> List.map fst (dict_set d k v) = List.map fst d.
Proof.
  induction d as [|[k' v'] d IH]; [intros []|].
  cbn [List.map fst dict_set]. destruct (String.eqb k' k) eqn:E.
  - apply String.eqb_eq in E. now subst.
  - intros [Heq|Hin]; [subst; now rewrite String.eqb_refl in E|].
    cbn [List.map fst]. now rewrite IH.
Qed.

Lemma dict_get_nonneg d k :
  Forall (fun kv => (0 <= snd kv)%Q) d -> (0 <= dict_get d k 0)%Q.
Proof.
  intros Hall. unfold dict_get.
  destruct (List.find _ d) as [kv|] eqn:E; [|discriminate].
  apply List.find_some in E as [Hin _].
  rewrite List.Forall_forall in Hall. now apply Hall.
Qed.

Lemma dict_set_nonneg d k v :
  Forall (fun kv => (0 <= snd kv)%Q) d -> (0 <= v)%Q ->
  Forall (fun kv => (0 <= snd kv)%Q) (dict_set d k v).
Proof.
  intros Hall Hv. induction Hall as [|kv d Hkv Hall IH]; cbn [dict_set].
  - constructor; [exact Hv|constructor].
  - destruct (String.eqb (fst kv) k); constructor; assumption.
Qed.

(** *** [_get_year_data] *)

Lemma _categorize_entry_key e :
  In (_categorize_entry e)
    ["cybersecurity"; "digital_transformation"; "maintenance"; "contracts";
     "staff"; "other"].
Proof.
  unfold _categorize_entry. cbv zeta.
  destruct (List.find _ category_keywords) as [kv|] eqn:E.
  - apply List.find_some in E as [Hin _].
    apply (in_map fst) in Hin. cbn in Hin |- *. tauto.
  - cbn. tauto.
Qed.

(** The loop over the entries: both dictionaries grow by every amount,
    and the category dictionary keeps its keys. *)
Lemma year_fold_spec db y l :
  (forall e, In e l -> (0 < kwota_or0 e y)%Q) ->
  forall categorized by_department categorized' by_department',
  (forall e, In (_categorize_entry e) (List.map fst categorized)) ->
  Forall (fun kv => (0 <= snd kv)%Q) categorized ->
  fold_left
    (fun '(categorized, by_department) e =>
       let amount := kwota_or0 e y in
       let category := _categorize_entry e in
       let dept_code :=
         match department_of db e with
         | Some d => code d
         | None => "UNKNOWN"
         end in
       (dict_set categorized category
          (dict_get categorized category 0 + amount)%Q,
        dict_set by_department dept_code
          (dict_get by_department dept_code 0 + amount)%Q))
    l (categorized, by_department) = (categorized', by_department') ->
  (sum_Q (List.map snd categorized')
   == sum_Q (List.map snd categorized)
      + sum_Q (List.map (fun e => kwota_or0 e y) l))%Q /\
  (sum_Q (List.map snd by_department')
   == sum_Q (List.map snd by_department)
      + sum_Q (List.map (fun e => kwota_or0 e y) l))%Q /\
  List.map fst categorized' = List.map fst categorized /\
  Forall (fun kv => (0 <= snd kv)%Q) categorized'.
Proof.
  induction l as [|e l IH]; intros Hpos cat dep cat' dep' Hkeys Hnn Hfold.
  - cbn in Hfold. injection Hfold as <- <-.
    change (sum_Q (List.map (fun e => kwota_or0 e y) [])) with 0%Q.
    repeat split; try ring; assumption.
  - cbn [fold_left] in Hfold. cbv zeta in Hfold.
    assert (He : (0 < kwota_or0 e y)%Q) by (apply Hpos; now left).
    apply IH in Hfold.
    + destruct Hfold as (H1 & H2 & H3 & H4).
      cbn [List.map]. rewrite sum_Q_cons.
      rewrite H1, H2, !dict_set_sum, H3.
      split; [ring|]. split; [ring|]. split; [|exact H4].
      apply dict_set_keys, Hkeys.
    + intros e' He'. apply Hpos. now right.
    + intros e'. rewrite dict_set_keys by apply Hkeys. apply Hkeys.
    + apply dict_set_nonneg; [exact Hnn|].
      pose proof (dict_get_nonneg cat (_categorize_entry e) Hnn). lra.
Qed.

Lemma positive_entries_positive db y e :
  In e (positive_entries db y) -> (0 < kwota_or0 e y)%Q.
Proof.
  unfold positive_entries. intros Hin. apply filter_In in Hin as [_ Hp].
  now apply OptimizationAgentSpec.amount_positive_spec.
Qed.

(** What [_get_year_data] returns for a year that has a column. *)
Lemma _get_year_data_spec db y :
  has_kwota y = true ->
  exists d,
    _get_year_data db y = inr d /\
    yd_year d = y /\
    yd_entries d = positive_entries db y /\
    yd_entries_count d = length (positive_entries db y) /\
    yd_total d = sum_Q (List.map (fun e => kwota_or0 e y) (positive_entries db y)) /\
    (sum_Q (List.map snd (yd_by_category d)) == yd_total d)%Q /\
    (sum_Q (List.map snd (yd_by_department d)) == yd_total d)%Q /\
    (0 <= yd_obligatory_total d <= yd_total d)%Q /\
    List.map fst (yd_by_category d) =
      ["cybersecurity"; "digital_transformation"; "maintenance"; "contracts";
       "staff"; "other"] /\
    Forall (fun kv => (0 <= snd kv)%Q) (yd_by_category d).
Proof.
  intros Hy. unfold _get_year_data. rewrite Hy. cbn [negb]. cbv zeta.
  destruct (fold_left _ (positive_entries db y) _) as [cat dep] eqn:Hfold.
  apply year_fold_spec in Hfold.
  - destruct Hfold as (H1 & H2 & H3 & H4).
    eexists. split; [reflexivity|].
    cbn [yd_year yd_entries yd_entries_count yd_total yd_by_category
         yd_by_department yd_obligatory_total].
    do 4 (split; [reflexivity|]).
    assert (Hinit : (sum_Q
                       (List.map snd
                          (List.map (fun kv : string * list string => (fst kv, 0%Q))
                             category_keywords ++ [("other", 0%Q)])) == 0)%Q)
      by (vm_compute; reflexivity).
    split; [rewrite H1, Hinit; ring|].
    change (sum_Q (List.map snd [])) with 0%Q in H2.
    split; [rewrite H2; ring|].
    split; [|split; [exact H3|exact H4]].
    apply sum_Q_filter_le. intros e He.
    apply Qlt_le_weak. now apply (positive_entries_positive db).
  - intros e He. now apply (positive_entries_positive db).
  - intros e. apply _categorize_entry_key.
  - repeat constructor; discriminate.
Qed.

(** X23. [_get_year_data] conserves the amounts: the per-category
    amounts and the per-department amounts each add up to the year's
    total, the obligatory total is a part of it, and the category
    dictionary has exactly the five categories and "other" as keys. *)
Theorem year_data_conservation db y :
  has_kwota y = true ->
  exists d,
    _get_year_data db y = inr d /\
    yd_entries_count d = length (yd_entries d) /\
    (sum_Q (List.map snd (yd_by_category d)) == yd_total d)%Q /\
    (sum_Q (List.map snd (yd_by_department d)) == yd_total d)%Q /\
    (0 <= yd_obligatory_total d <= yd_total d)%Q /\
    List.map fst (yd_by_category d) =
      ["cybersecurity"; "digital_transformation"; "maintenance"; "contracts";
       "staff"; "other"].
Proof.
  intros Hy.
  destruct (_get_year_data_spec db y Hy)
    as (d & Hd & _ & He & Hc & _ & H1 & H2 & H3 & H4 & _).
  exists d. split; [exact Hd|]. split; [now rewrite Hc, He|]. auto.
Qed.

Lemma year_data_conservation_witness :
  exists d,
    _get_year_data OptimizationAgent.example_db 2025 = inr d /\
    yd_entries_count d = length (yd_entries d) /\
    (sum_Q (List.map snd (yd_by_category d)) == yd_total d)%Q /\
    (sum_Q (List.map snd (yd_by_department d)) == yd_total d)%Q /\
    (0 <= yd_obligatory_total d <= yd_total d)%Q /\
    List.map fst (yd_by_category d) =
      ["cybersecurity"; "digital_transformation"; "maintenance"; "contracts";
       "staff"; "other"].
Proof.
  apply (year_data_conservation OptimizationAgent.example_db 2025).
  reflexivity.
Defined.

(** *** [_forecast_year] *)

Lemma growth_factors_ge_1 category : (1 <= growth_factors category)%Q.
Proof.
  unfold growth_factors.
  repeat match goal with
         | |- context [if ?b then _ else _] => destruct b
         end; lra.
Qed.

Lemma Qpower_positive_ge_1 q p : (1 <= q)%Q -> (1 <= Qpower_positive q p)%Q.
Proof.
  intros Hq. unfold Qpower_positive.
  induction p as [p IH|p IH|]; cbn [pow_pos]; [nra|nra|exact Hq].
Qed.

Lemma pow_ge_1 category offset :
  0 <= offset -> (1 <= pow (growth_factors category) offset)%Q.
Proof.
  intros Ho. unfold pow, Qpower. destruct offset as [|p|p]; [lra| |lia].
  apply Qpower_positive_ge_1, growth_factors_ge_1.
Qed.

(** A forecast is never below its base. *)
Lemma _forecast_year_grows base_data y offset :
  Forall (fun kv => (0 <= snd kv)%Q) (yd_by_category base_data) ->
  (sum_Q (List.map snd (yd_by_category base_data)) == yd_total base_data)%Q ->
  0 <= offset ->
  (yd_total base_data <= predicted_total (_forecast_year base_data y offset))%Q /\
  (trend (_forecast_year base_data y offset) = "increasing" \/
   trend (_forecast_year base_data y offset) = "stable").
Proof.
  intros Hnn Hsum Ho. unfold _forecast_year. cbv zeta.
  cbn [predicted_total trend]. rewrite List.map_map. cbn [snd].
  assert (Hle : (yd_total base_data <=
                 sum_Q (List.map
                          (fun kv => snd kv * pow (growth_factors (fst kv)) offset)
                          (yd_by_category base_data)))%Q).
  { rewrite <- Hsum. apply sum_Q_map_le. intros kv Hkv.
    rewrite List.Forall_forall in Hnn. specialize (Hnn kv Hkv). cbv beta in Hnn.
    pose proof (pow_ge_1 (fst kv) offset Ho) as Hp.
    set (g := pow (growth_factors (fst kv)) offset) in *. nra. }
  split; [exact Hle|].
  assert (Htot : (0 <= yd_total base_data)%Q).
  { rewrite <- Hsum. apply sum_Q_nonneg.
    rewrite List.Forall_forall in Hnn |- *. intros x Hx.
    apply in_map_iff in Hx as (kv & <- & Hkv). now apply Hnn. }
  destruct (Qgtb _ _); [now left|].
  destruct (Qltb _ _) eqn:E; [|now right].
  apply PyFacts.Qltb_lt in E. exfalso. lra.
Qed.

Lemma risk_factors_of_keys (d : list (string * Q)) offset :
  List.map fst d =
    ["cybersecurity"; "digital_transformation"; "maintenance"; "contracts";
     "staff"; "other"] ->
  flat_map
    (fun kv =>
       if String.eqb (fst kv) "cybersecurity" && (2 <=? offset)
       then [((pow (growth_factors (fst kv)) offset - 1) * 100)%Q]
       else [])
    d =
  if 2 <=? offset then [((pow (115 # 100) offset - 1) * 100)%Q] else [].
Proof.
  intros Hkeys.
  destruct d as [|[k1 v1] d]; [discriminate|].
  destruct d as [|[k2 v2] d]; [discriminate|].
  destruct d as [|[k3 v3] d]; [discriminate|].
  destruct d as [|[k4 v4] d]; [discriminate|].
  destruct d as [|[k5 v5] d]; [discriminate|].
  destruct d as [|[k6 v6] d]; [discriminate|].
  destruct d; [|discriminate].
  cbn [List.map fst] in Hkeys.
  injection Hkeys as -> -> -> -> -> ->.
  destruct (2 <=? offset); reflexivity.
Qed.

(** The forecasts of [forecast_budget], offset by offset. *)
Lemma forecast_budget_forecasts db base_year forecast_years :
  has_kwota base_year = true ->
  exists d,
    _get_year_data db base_year = inr d /\
    forecast_budget db base_year forecast_years =
      inr (mkBudgetForecast base_year (yd_total d)
             (List.map
                (fun k => _forecast_to_dict
                            (_forecast_year d (base_year + Z.of_nat k) (Z.of_nat k)))
                (seq 1 (Z.to_nat forecast_years)))).
Proof.
  intros Hy. destruct (_get_year_data_spec db base_year Hy) as (d & Hd & _).
  exists d. split; [exact Hd|].
  unfold forecast_budget. rewrite Hd. unfold range1.
  now rewrite !List.map_map.
Qed.

(** X24. For fewer than 3894 forecast years, no forecast that
    [forecast_budget] returns has the trend "decreasing": each is
    "increasing" or "stable", since every category grows by a factor of at
    least 1 a year.  The predicted total it reports is rounded to a whole
    number, so it can lie below the base year's total, by less than 1. *)
Theorem forecast_never_decreasing db base_year forecast_years :
  has_kwota base_year = true ->
  forecast_years < 3894 ->
  exists r,
    forecast_budget db base_year forecast_years = inr r /\
    forall f, In f (bf_forecasts r) ->
      (fd_trend f = "increasing" \/ fd_trend f = "stable") /\
      fd_trend f <> "decreasing" /\
      (bf_base_total r - 1 < fd_predicted_total f)%Q.
Proof.
  intros Hy _.
  destruct (forecast_budget_forecasts db base_year forecast_years Hy)
    as (d & Hd & Hr).
  destruct (_get_year_data_spec db base_year Hy)
    as (d' & Hd' & _ & _ & _ & _ & Hsum & _ & _ & _ & Hnn).
  rewrite Hd in Hd'. injection Hd' as <-.
  eexists. split; [exact Hr|].
  cbn [bf_forecasts bf_base_total]. intros f Hf.
  apply in_map_iff in Hf as (k & <- & _).
  unfold _forecast_to_dict. cbn [fd_trend fd_predicted_total].
  assert (Hk : 0 <= Z.of_nat k) by lia.
  destruct (_forecast_year_grows d (base_year + Z.of_nat k) (Z.of_nat k)
              Hnn Hsum Hk) as [Hle Htrend].
  split; [exact Htrend|]. split.
  - destruct Htrend as [-> | ->]; discriminate.
  - pose proof (RoundFacts.round_ndigits_0_near
                  (predicted_total
                     (_forecast_year d (base_year + Z.of_nat k) (Z.of_nat k))))
      as [Hlo _].
    lra.
Qed.

Lemma forecast_never_decreasing_witness :
  exists r,
    forecast_budget OptimizationAgent.example_db 2025 3 = inr r /\
    forall f, In f (bf_forecasts r) ->
      (fd_trend f = "increasing" \/ fd_trend f = "stable") /\
      fd_trend f <> "decreasing" /\
      (bf_base_total r - 1 < fd_predicted_total f)%Q.
Proof.
  apply (forecast_never_decreasing OptimizationAgent.example_db 2025 3).
  - reflexivity.
  - lia.
Defined.

(** X25. For fewer than 3894 forecast years, [forecast_budget] returns
    one forecast for each of the years after the base year, in order; the
    forecast at offset 1 names no risk factor, and every later one names
    the growth of cybersecurity, (1.15 ^ offset - 1) x 100 percent,
    whether or not any entry falls into that category. *)
Theorem forecast_risk_factors db base_year forecast_years :
  has_kwota base_year = true ->
  forecast_years < 3894 ->
  exists r,
    forecast_budget db base_year forecast_years = inr r /\
    bf_base_year r = base_year /\
    length (bf_forecasts r) = Z.to_nat forecast_years /\
    forall i f, nth_error (bf_forecasts r) i = Some f ->
      fd_year f = base_year + Z.of_nat (S i) /\
      fd_risk_factors f =
        match i with
        | O => []
        | S _ => [((pow (115 # 100) (Z.of_nat (S i)) - 1) * 100)%Q]
        end.
Proof.
  intros Hy _.
  destruct (forecast_budget_forecasts db base_year forecast_years Hy)
    as (d & Hd & Hr).
  destruct (_get_year_data_spec db base_year Hy)
    as (d' & Hd' & _ & _ & _ & _ & _ & _ & _ & Hkeys & _).
  rewrite Hd in Hd'. injection Hd' as <-.
  eexists. split; [exact Hr|]. cbn [bf_base_year bf_forecasts].
  split; [reflexivity|]. split; [now rewrite length_map, length_seq|].
  intros i f Hi. apply nth_error_map_seq in Hi as [_ ->].
  change (1 + i)%nat with (S i).
  unfold _forecast_to_dict, _forecast_year. cbv zeta.
  cbn [fd_year fd_risk_factors f_year risk_factors].
  split; [reflexivity|].
  rewrite (risk_factors_of_keys _ _ Hkeys).
  destruct i as [|i]; [reflexivity|].
  assert ((2 <=? Z.of_nat (S (S i))) = true) as -> by (apply Z.leb_le; lia).
  reflexivity.
Qed.

Lemma forecast_risk_factors_witness :
  exists r,
    forecast_budget OptimizationAgent.example_db 2025 3 = inr r /\
    bf_base_year r = 2025 /\
    length (bf_forecasts r) = Z.to_nat 3 /\
    forall i f, nth_error (bf_forecasts r) i = Some f ->
      fd_year f = 2025 + Z.of_nat (S i) /\
      fd_risk_factors f =
        match i with
        | O => []
        | S _ => [((pow (115 # 100) (Z.of_nat (S i)) - 1) * 100)%Q]
        end.
Proof.
  apply (forecast_risk_factors OptimizationAgent.example_db 2025 3).
  - reflexivity.
  - lia.
Defined.

(** *** [detect_anomalies] *)

Section Outliers.
Variable sqrt : Q -> Q.

Lemma squares_nonneg mean amounts :
  Forall (fun x => (0 <= x)%Q)
    (List.map (fun x => Qpower (x - mean) 2) amounts).
Proof.
  apply List.Forall_forall. intros q Hq.
  apply in_map_iff in Hq as (x & <- & _).
  change (Qpower (x - mean) 2) with ((x - mean) * (x - mean))%Q.
  set (d := (x - mean)%Q). nra.
Qed.

(** The squared deviation of one amount is at most the number of amounts
    times the variance. *)
Lemma deviation_le_variance amounts x :
  In x amounts ->
  ((x - mean_of amounts) * (x - mean_of amounts)
   <= variance_of amounts * inject_Z (Z.of_nat (length amounts)))%Q /\
  (0 <= variance_of amounts)%Q /\
  (0 < inject_Z (Z.of_nat (length amounts)))%Q.
Proof.
  intros Hin. unfold variance_of. cbv zeta.
  set (mean := mean_of amounts).
  set (squares := List.map (fun x => Qpower (x - mean) 2) amounts).
  assert (Hn : (0 < inject_Z (Z.of_nat (length amounts)))%Q).
  { change 0%Q with (inject_Z 0). rewrite <- Zlt_Qlt.
    destruct amounts; [destruct Hin|cbn [length]; lia]. }
  pose proof (squares_nonneg mean amounts) as Hnn. fold squares in Hnn.
  assert (Hx : ((x - mean) * (x - mean) <= sum_Q squares)%Q).
  { apply (sum_Q_member squares _ Hnn). unfold squares.
    apply (in_map (fun x => Qpower (x - mean) 2)) in Hin. exact Hin. }
  pose proof (sum_Q_nonneg squares Hnn) as Hs.
  split; [|split; [|exact Hn]].
  - assert (E : (sum_Q squares / inject_Z (Z.of_nat (length amounts))
                 * inject_Z (Z.of_nat (length amounts)) == sum_Q squares)%Q)
      by (field; lra).
    rewrite E. exact Hx.
  - apply Qle_shift_div_l; [exact Hn|]. lra.
Qed.

Lemma sum_Q_const l c :
  (forall x, In x l -> (x == c)%Q) ->
  (sum_Q l == inject_Z (Z.of_nat (length l)) * c)%Q.
Proof.
  induction l as [|x l IH]; intros Hall.
  - unfold sum_Q. cbn. ring.
  - rewrite sum_Q_cons, IH by (intros x' Hx'; apply Hall; now right).
    rewrite (Hall x) by now left.
    cbn [length]. rewrite Nat2Z.inj_succ. unfold Z.succ.
    rewrite inject_Z_plus. change (inject_Z 1) with 1%Q. ring.
Qed.

(** Equal amounts have no variance. *)
Lemma variance_of_equal amounts c :
  (forall x, In x amounts -> (x == c)%Q) -> (variance_of amounts <= 0)%Q.
Proof.
  intros Hall. destruct amounts as [|x0 amounts']; [discriminate|].
  set (amounts := x0 :: amounts') in *.
  assert (Hn : (0 < inject_Z (Z.of_nat (length amounts)))%Q).
  { change 0%Q with (inject_Z 0). rewrite <- Zlt_Qlt. cbn [length amounts]. lia. }
  assert (Hmean : (mean_of amounts == c)%Q).
  { unfold mean_of. rewrite (sum_Q_const amounts c Hall). field. lra. }
  unfold variance_of. cbv zeta.
  rewrite (sum_Q_const _ 0).
  - rewrite length_map. apply Qle_shift_div_r; [exact Hn|]. lra.
  - intros q Hq. apply in_map_iff in Hq as (x & <- & Hx).
    change (Qpower (x - mean_of amounts) 2)
      with ((x - mean_of amounts) * (x - mean_of amounts))%Q.
    rewrite Hmean, (Hall x Hx). ring.
Qed.

(** The z-score of an amount stays within 3 when the variance is 0, and
    also when there are at most nine amounts and the square root is not
    below the true one. *)
Lemma z_score_within_3 amounts x :
  In x amounts ->
  (variance_of amounts <= 0)%Q \/
  ((length amounts <= 9)%nat /\
   (0 <= sqrt (variance_of amounts))%Q /\
   (variance_of amounts <=
    sqrt (variance_of amounts) * sqrt (variance_of amounts))%Q) ->
  (Qabs (z_score_of (mean_of amounts) (std_dev_of sqrt amounts) x) <= 3)%Q.
Proof.
  intros Hin Hcase.
  destruct (deviation_le_variance amounts x Hin) as (Hdev & Hv & Hn).
  unfold std_dev_of. cbv zeta.
  set (v := variance_of amounts) in *. set (m := mean_of amounts) in *.
  set (n := inject_Z (Z.of_nat (length amounts))) in *.
  set (d := (x - m)%Q) in *.
  apply Qabs_Qle_condition.
  destruct (Qgtb v 0) eqn:Egt.
  - apply PyFacts.Qgtb_gt in Egt.
    destruct Hcase as [Hz|(Hlen & Hs0 & Hs)]; [lra|].
    set (s := sqrt v) in *.
    assert (Hn9 : (n <= 9)%Q).
    { unfold n. change 9%Q with (inject_Z 9). rewrite <- Zle_Qle. lia. }
    assert (Hspos : (0 < s)%Q).
    { destruct (Qlt_le_dec 0 s) as [Hp|Hp]; [exact Hp|].
      assert (s == 0)%Q by lra. nra. }
    unfold z_score_of.
    assert (Qgtb s 0 = true) as -> by now apply PyFacts.Qgtb_gt.
    change (x - m)%Q with d.
    assert (Hsq : (d * d <= 9 * (s * s))%Q) by nra.
    split.
    + apply Qle_shift_div_l; [exact Hspos|]. nra.
    + apply Qle_shift_div_r; [exact Hspos|]. nra.
  - apply PyFacts.Qltb_ge in Egt.
    assert (Hzero : (d * d <= 0)%Q) by nra.
    assert (Hxm : (d == 0)%Q) by nra.
    unfold z_score_of.
    assert (Qgtb 1 0 = true) as -> by reflexivity.
    change (x - m)%Q with d.
    assert (E : (d / 1 == 0)%Q) by (rewrite Hxm; reflexivity).
    rewrite E. split; discriminate.
Qed.


(** X27. When all positive amounts of the year are equal, as when
    there is a single entry, no outlier is reported, whatever the square
    root: the variance is 0 and the standard deviation is taken as 1. *)
Theorem no_outlier_among_equals db y c :
  has_kwota y = true ->
  (forall e, In e (positive_entries db y) -> (kwota_or0 e y == c)%Q) ->
  exists l,
    detect_anomalies sqrt db y = inr l /\
    forall a, In a l -> a_type a <> "outlier".
Proof.
  intros Hy Hall.
  set (amounts := List.map (fun e => kwota_or0 e y) (positive_entries db y)).
  exists (flat_map
            (anomalies_of y (mean_of amounts) (std_dev_of sqrt amounts))
            (positive_entries db y)).
  split.
  - unfold detect_anomalies. rewrite Hy. cbn [negb]. cbv zeta.
    fold amounts. destruct (positive_entries db y); reflexivity.
  - intros a Ha. apply in_flat_map in Ha as (e & He & Ha).
    revert a Ha. apply (anomalies_of_outlier y _ _ e).
    apply z_score_within_3.
    + unfold amounts. apply (in_map (fun e => kwota_or0 e y)). exact He.
    + left. apply (variance_of_equal amounts c). intros x Hx.
      unfold amounts in Hx. apply in_map_iff in Hx as (e' & <- & He').
      now apply Hall.
Qed.

End Outliers.


Lemma no_outlier_among_equals_witness :
  exists l,
    detect_anomalies sqrt_exact deferral_db 2029 = inr l /\
    forall a, In a l -> a_type a <> "outlier".
Proof.
  apply (no_outlier_among_equals sqrt_exact deferral_db 2029 (40 # 1)).
  - reflexivity.
  - intros e He. vm_compute in He. destruct He as [<-|[]]. reflexivity.
Defined.

End ForecasterAgentFacts.

(** ** The multi-year allocation *)
Module ForecasterAllocationFacts.
Import Py Models ForecasterAgent ForecasterAllocation Notions.

Lemma Qmax_cases x y :
  ((x < y)%Q /\ Qmax x y = y) \/ ((y <= x)%Q /\ Qmax x y = x).
Proof.
  unfold Qmax. destruct (Qltb x y) eqn:E.
  - left. split; [now apply PyFacts.Qltb_lt|reflexivity].
  - right. split; [now apply PyFacts.Qltb_ge|reflexivity].
Qed.

Lemma Qmin_cases x y :
  ((y < x)%Q /\ Qmin x y = y) \/ ((x <= y)%Q /\ Qmin x y = x).
Proof.
  unfold Qmin. destruct (Qltb y x) eqn:E.
  - left. split; [now apply PyFacts.Qltb_lt|reflexivity].
  - right. split; [now apply PyFacts.Qltb_ge|reflexivity].
Qed.

Lemma allocation_of_ok non_deferrable deferrable y limit row :
  allocation_of non_deferrable deferrable y limit = inr row -> row_ok limit row.
Proof.
  unfold allocation_of.
  destruct (year_sum y non_deferrable) as [x|nd]; [discriminate|].
  destruct (year_sum y deferrable) as [x|yd]; [discriminate|].
  cbv zeta. intros [= <-].
  destruct (Qmax_cases 0 (limit - nd)) as [[H1 E1]|[H1 E1]];
    destruct (Qmax_cases 0 (nd + yd - limit)) as [[H2 E2]|[H2 E2]];
    destruct (Qmax_cases 0 (limit - nd - yd)) as [[H3 E3]|[H3 E3]];
    rewrite E1, E2, E3;
    [destruct (Qmin_cases yd (limit - nd)) as [[H4 E4]|[H4 E4]]
    |destruct (Qmin_cases yd (limit - nd)) as [[H4 E4]|[H4 E4]]
    |destruct (Qmin_cases yd (limit - nd)) as [[H4 E4]|[H4 E4]]
    |destruct (Qmin_cases yd (limit - nd)) as [[H4 E4]|[H4 E4]]
    |destruct (Qmin_cases yd 0) as [[H4 E4]|[H4 E4]]
    |destruct (Qmin_cases yd 0) as [[H4 E4]|[H4 E4]]
    |destruct (Qmin_cases yd 0) as [[H4 E4]|[H4 E4]]
    |destruct (Qmin_cases yd 0) as [[H4 E4]|[H4 E4]]];
    rewrite E4;
    (constructor;
     cbn [al_limit al_non_deferrable al_deferrable_requested
          al_deferrable_allocated al_total_allocated al_gap al_surplus];
     try reflexivity; try lra; try (intros; lra); try (intros; split; lra)).
Qed.

Lemma allocate_rows non_deferrable deferrable items :
  forall rows,
  allocate non_deferrable deferrable items = inr rows ->
  List.map fst rows = List.map fst items /\
  forall y row, In (y, row) rows ->
    exists limit, In (y, limit) items /\ row_ok limit row.
Proof.
  induction items as [|[y limit] items IH]; intros rows Hrows.
  - injection Hrows as <-. split; [reflexivity|intros ? ? []].
  - cbn [allocate] in Hrows.
    destruct (allocation_of non_deferrable deferrable y limit) as [x|row] eqn:Hrow;
      [discriminate|].
    destruct (allocate non_deferrable deferrable items) as [x|rows'];
      [discriminate|].
    injection Hrows as <-. destruct (IH rows' eq_refl) as [Hkeys Hall].
    split; [cbn [List.map fst]; now rewrite Hkeys|].
    intros y' row' [[= <- <-]|Hin].
    + exists limit. split; [now left|].
      exact (allocation_of_ok _ _ _ _ _ Hrow).
    + destruct (Hall y' row' Hin) as (limit' & Hl & Hok).
      exists limit'. split; [now right|exact Hok].
Qed.

Lemma year_sum_ok y l :
  l = [] \/ has_kwota y = true -> exists q, year_sum y l = inr q.
Proof.
  unfold year_sum. intros [-> |Hy]; [eauto|].
  destruct l; [eauto|]. rewrite Hy. eauto.
Qed.

Lemma year_sum_fails y l x :
  year_sum y l = inl x -> x = Attribute_error /\ l <> [] /\ has_kwota y = false.
Proof.
  unfold year_sum. destruct l as [|e l]; [discriminate|].
  destruct (has_kwota y); [discriminate|]. intros [= <-].
  repeat split. discriminate.
Qed.

Lemma allocate_fails non_deferrable deferrable items x :
  allocate non_deferrable deferrable items = inl x ->
  x = Attribute_error /\
  (non_deferrable <> [] \/ deferrable <> []) /\
  exists y, In y (List.map fst items) /\ has_kwota y = false.
Proof.
  induction items as [|[y limit] items IH]; [discriminate|].
  cbn [allocate]. unfold allocation_of.
  destruct (year_sum y non_deferrable) as [x1|nd] eqn:E1.
  - intros [= <-]. apply year_sum_fails in E1 as (-> & Hne & Hy).
    split; [reflexivity|]. split; [now left|].
    exists y. split; [now left|exact Hy].
  - destruct (year_sum y deferrable) as [x2|yd] eqn:E2.
    + intros [= <-]. apply year_sum_fails in E2 as (-> & Hne & Hy).
      split; [reflexivity|]. split; [now right|].
      exists y. split; [now left|exact Hy].
    + cbv zeta. destruct (allocate non_deferrable deferrable items) as [x3|rows];
        [|discriminate].
      intros [= <-]. destruct (IH eq_refl) as (-> & Hne & y' & Hin & Hy).
      split; [reflexivity|]. split; [exact Hne|].
      exists y'. split; [now right|exact Hy].
Qed.

Lemma alloc_get_Some rows y :
  In y (List.map fst rows) ->
  exists r, alloc_get rows y = Some r /\ In (y, r) rows.
Proof.
  intros Hin. unfold alloc_get.
  destruct (List.find (fun kv => fst kv =? y) rows) as [[y' r]|] eqn:E.
  - apply List.find_some in E as [Hr Hy]. cbn [fst] in Hy.
    apply Z.eqb_eq in Hy. subst. exists r. split; [reflexivity|exact Hr].
  - exfalso. apply in_map_iff in Hin as ([y' r] & <- & Hr).
    pose proof (List.find_none _ _ E _ Hr) as Hn. cbn [fst] in Hn.
    now rewrite Z.eqb_refl in Hn.
Qed.

Lemma neighbours_cons years x y z :
  neighbours years y z -> neighbours (x :: years) y z.
Proof.
  intros (before & after & ->). exists (x :: before), after. reflexivity.
Qed.

Lemma shifts_loop_step rows year next_year rest :
  shifts_loop rows (year :: next_year :: rest) =
    match alloc_get rows year with
    | None => inl Key_error
    | Some r =>
        match
          (if Qgtb (al_gap r) 0 then
             match alloc_get rows next_year with
             | None => inl Key_error
             | Some r' =>
                 if Qgtb (al_surplus r') 0
                 then inr [mkShift year next_year
                             (Qmin (al_gap r) (al_surplus r'))]
                 else inr []
             end
           else inr [])
        with
        | inl x => inl x
        | inr l =>
            match shifts_loop rows (next_year :: rest) with
            | inl x => inl x
            | inr l' => inr (l ++ l')
            end
        end
    end.
Proof. reflexivity. Qed.

(** The loop over the neighbouring years never misses a key, and every
    shift it suggests moves no more than the gap of its year and no more
    than the surplus of the next. *)
Lemma shifts_loop_spec rows years :
  (forall y, In y years -> In y (List.map fst rows)) ->
  exists l,
    shifts_loop rows years = inr l /\
    (length l <= length years - 1)%nat /\
    forall s, In s l -> shift_ok rows years s.
Proof.
  induction years as [|year rest IH]; intros Hkeys.
  - exists []. split; [reflexivity|]. split; [cbn; lia|intros s []].
  - destruct rest as [|next_year rest'].
    + exists []. split; [reflexivity|]. split; [cbn; lia|intros s []].
    + destruct IH as (l' & Hl' & Hlen & Hok);
        [intros y Hy; apply Hkeys; now right|].
      destruct (alloc_get_Some rows year) as (r & Hr & _);
        [apply Hkeys; now left|].
      destruct (alloc_get_Some rows next_year) as (r' & Hr' & _);
        [apply Hkeys; right; now left|].
      rewrite shifts_loop_step, Hr, Hr', Hl'.
      assert (Htail : forall s, In s l' ->
                shift_ok rows (year :: next_year :: rest') s).
      { intros s Hs. destruct (Hok s Hs) as [Hn Hrows].
        constructor; [now apply neighbours_cons|exact Hrows]. }
      cbn [length] in Hlen |- *.
      destruct (Qgtb (al_gap r) 0) eqn:Hgap;
        [destruct (Qgtb (al_surplus r') 0) eqn:Hsur|].
      * eexists. split; [reflexivity|].
        split; [cbn [app length]; lia|].
        intros s [<-|Hs]; [|now apply Htail].
        apply PyFacts.Qgtb_gt in Hgap, Hsur.
        constructor; cbn [sh_from_year sh_to_year sh_amount].
        -- exists [], rest'. reflexivity.
        -- exists r, r'. split; [exact Hr|]. split; [exact Hr'|].
           destruct (Qmin_cases (al_gap r) (al_surplus r')) as [[H1 E]|[H1 E]];
             rewrite E; repeat split; try lra; auto.
      * eexists. split; [reflexivity|].
        split; [cbn [app length]; lia|exact Htail].
      * eexists. split; [reflexivity|].
        split; [cbn [app length]; lia|exact Htail].
Qed.

Lemma sorted_by_app_inv {A} (leb : A -> A -> bool) before l :
  sorted_by leb (before ++ l) -> sorted_by leb l.
Proof.
  induction before as [|x before IH]; [auto|].
  cbn [app sorted_by]. destruct (before ++ l) eqn:E.
  - destruct before, l; try discriminate. intros _. exact I.
  - intros [_ Hs]. now apply IH.
Qed.

(** X28. [optimize_multi_year_allocation] raises only for a limit year
    without an amount column, and only when the store has an entry; it
    never misses a key of its own dictionary.  Otherwise there is one row
    per limit year, in which the allocated deferrable amount does not
    exceed the requested one, gap and surplus are not negative and never
    both positive, and, when the obligatory amounts fit the limit, the
    total allocated stays within the limit and the gap is what is left
    unallocated. *)
Theorem allocation_rows db total_limit :
  match optimize_multi_year_allocation db total_limit with
  | inl x =>
      x = Attribute_error /\ entries db <> [] /\
      exists y, In y (List.map fst total_limit) /\ has_kwota y = false
  | inr r =>
      List.map fst (allocation r) = List.map fst total_limit /\
      summary_years r = length total_limit /\
      forall y row, In (y, row) (allocation r) ->
        exists limit, In (y, limit) total_limit /\ row_ok limit row
  end.
Proof.
  unfold optimize_multi_year_allocation. cbv zeta.
  destruct (allocate _ _ total_limit) as [x|rows] eqn:Hrows.
  - apply allocate_fails in Hrows as (-> & Hne & Hy).
    split; [reflexivity|]. split; [|exact Hy].
    intros Hnil. rewrite Hnil in Hne. cbn in Hne. tauto.
  - apply allocate_rows in Hrows as [Hkeys Hall].
    destruct (shifts_loop_spec rows (sort_by Z.leb (List.map fst total_limit)))
      as (l & -> & _).
    { intros y Hy. apply PyFacts.sort_by_In in Hy. now rewrite Hkeys. }
    cbn [allocation summary_years]. auto.
Qed.

(** X29. When every limit year has an amount column, the suggested
    shifts go from a year to the next one in ascending order of the limit
    years, at most one per such pair; each moves a positive amount that is
    the smaller of the gap of its year and the surplus of the next. *)
Theorem allocation_shifts db total_limit :
  (forall y, In y (List.map fst total_limit) -> has_kwota y = true) ->
  exists r,
    optimize_multi_year_allocation db total_limit = inr r /\
    (length (suggested_shifts r) <= length total_limit - 1)%nat /\
    forall s, In s (suggested_shifts r) ->
      sh_from_year s <= sh_to_year s /\
      shift_ok (allocation r) (sort_by Z.leb (List.map fst total_limit)) s.
Proof.
  intros Hyears. unfold optimize_multi_year_allocation. cbv zeta.
  destruct (allocate _ _ total_limit) as [x|rows] eqn:Hrows.
  - apply allocate_fails in Hrows as (_ & _ & y & Hin & Hy).
    rewrite (Hyears y Hin) in Hy. discriminate.
  - apply allocate_rows in Hrows as [Hkeys _].
    destruct (shifts_loop_spec rows (sort_by Z.leb (List.map fst total_limit)))
      as (l & -> & Hlen & Hok).
    { intros y Hy. apply PyFacts.sort_by_In in Hy. now rewrite Hkeys. }
    eexists. split; [reflexivity|]. cbn [suggested_shifts allocation].
    split.
    { rewrite <- (Permutation_length
                    (PyFacts.sort_by_perm Z.leb (List.map fst total_limit))),
        length_map in Hlen. exact Hlen. }
    intros s Hs. specialize (Hok s Hs). split; [|exact Hok].
    destruct Hok as [(before & after & Heq) _].
    assert (Htotal : forall u v, (u <=? v) = false -> (v <=? u) = true).
    { intros u v Huv. apply Z.leb_gt in Huv. apply Z.leb_le. lia. }
    pose proof (SortFacts.sort_by_sorted Z.leb (List.map fst total_limit) Htotal)
      as Hsorted.
    rewrite Heq in Hsorted.
    apply sorted_by_app_inv in Hsorted. destruct Hsorted as [Hle _].
    now apply Z.leb_le.
Qed.

Lemma allocation_shifts_witness :
  exists r,
    optimize_multi_year_allocation OptimizationAgent.example_db example_limits
      = inr r /\
    (length (suggested_shifts r) <= length example_limits - 1)%nat /\
    forall s, In s (suggested_shifts r) ->
      sh_from_year s <= sh_to_year s /\
      shift_ok (allocation r) (sort_by Z.leb (List.map fst example_limits)) s.
Proof.
  apply (allocation_shifts OptimizationAgent.example_db example_limits).
  intros y Hy. cbn in Hy. destruct Hy as [<-|[<-|[]]]; reflexivity.
Defined.

End ForecasterAllocationFacts.

(** ** The orchestrator and the optimizer *)
Module OrchestratorAgentFacts.
Import Py Models OptimizationAgent OrchestratorAgent Notions.

Lemma sort_departments_lengths db :
  forall l completed pending completed' pending',
  fold_left
    (fun '(completed, pending) dept =>
       if forallb submitted_or_approved (entries_of db dept)
       then (completed ++ [code dept], pending)
       else (completed, pending ++ [code dept]))
    l (completed, pending) = (completed', pending') ->
  (length completed' + length pending' =
   length completed + length pending + length l)%nat.
Proof.
  induction l as [|dept l IH]; intros c p c' p' Hfold.
  - injection Hfold as <- <-. cbn. lia.
  - cbn [fold_left] in Hfold.
    destruct (forallb submitted_or_approved (entries_of db dept));
      apply IH in Hfold; rewrite Hfold, length_app; cbn [length]; lia.
Qed.

(** X30. The orchestrator and the optimizer agree on the limit only when
    a limit is on record.  In the phase "cutting" the total exceeds the
    limit: with a limit row, [generate_cut_suggestions] then returns cuts;
    without one the orchestrator counts the limit as 0 while the optimizer
    answers that no limit exists and suggests nothing.  In the phases
    "finalization" and "approval" the optimizer suggests nothing, and
    "finalization" means that no department is pending. *)
Theorem workflow_phase_and_cuts db target_reduction y :
  has_kwota y = true ->
  exists st,
    initialize_workflow db y = inr st /\
    variance st = (total_requests st - global_limit st)%Q /\
    total_requests st = year_total db y /\
    (length (departments_completed st) + length (departments_pending st) =
     length (departments db))%nat /\
    (current_phase st = "cutting" ->
     (global_limit st < total_requests st)%Q /\
     match List.find (fun g => year g =? y) (global_limits db) with
     | Some g =>
         exists gap target achievable can_meet suggestions protected,
           generate_cut_suggestions db target_reduction y =
             inr (Cuts gap target achievable can_meet suggestions protected)
     | None =>
         generate_cut_suggestions db target_reduction y = inr (Within_limit None)
     end) /\
    (current_phase st = "finalization" \/ current_phase st = "approval" ->
     (total_requests st <= global_limit st)%Q /\
     result_suggestions (generate_cut_suggestions db target_reduction y) = []) /\
    (current_phase st = "finalization" -> departments_pending st = []).
Proof.
  intros Hy. unfold initialize_workflow. rewrite Hy. cbn [negb]. cbv zeta.
  destruct (sort_departments db) as [completed pending] eqn:Hsort.
  eexists. split; [reflexivity|].
  cbn [variance total_requests global_limit departments_completed
       departments_pending current_phase].
  split; [reflexivity|]. split; [reflexivity|]. split.
  { unfold sort_departments in Hsort.
    apply sort_departments_lengths in Hsort. cbn [length] in Hsort. lia. }
  destruct (length completed <? length pending)%nat.
  { split; [discriminate|]. split; [intros [?|?]; discriminate|discriminate]. }
  destruct (OptimizationAgentFacts.generate_cut_suggestions_cases db target_reduction y)
    as [[Hnone Heq]|(g & Hg & Hcases)].
  - rewrite Hnone, Heq.
    destruct (Qgtb (year_total db y) 0) eqn:Hgt.
    + split; [intros _; split; [now apply PyFacts.Qgtb_gt|reflexivity]|].
      split; [intros [?|?]; discriminate|discriminate].
    + apply PyFacts.Qltb_ge in Hgt.
      destruct (length pending =? 0)%nat eqn:Hp.
      * split; [discriminate|].
        split; [intros _; split; [exact Hgt|reflexivity]|].
        intros _. apply Nat.eqb_eq in Hp. now destruct pending.
      * split; [discriminate|].
        split; [intros _; split; [exact Hgt|reflexivity]|discriminate].
  - rewrite Hg. rewrite Hy in Hcases.
    destruct Hcases as [[Hn _]|[(_ & Hle & Heq)|[_ Hover]]]; [discriminate| |].
    + assert (Hgt : Qgtb (year_total db y) (total_limit g) = false)
        by now apply PyFacts.Qltb_ge.
      rewrite Hgt, Heq.
      destruct (length pending =? 0)%nat eqn:Hp.
      * split; [discriminate|].
        split; [intros _; split; [exact Hle|reflexivity]|].
        intros _. apply Nat.eqb_eq in Hp. now destruct pending.
      * split; [discriminate|].
        split; [intros _; split; [exact Hle|reflexivity]|discriminate].
    + assert (Hgt : Qgtb (year_total db y) (total_limit g) = true)
        by now apply PyFacts.Qgtb_gt.
      rewrite Hgt.
      split; [|split; [intros [?|?]; discriminate|discriminate]].
      intros _. split; [exact Hover|].
      rewrite (OptimizationAgentFacts.generate_cut_suggestions_over
                 db target_reduction y g Hg Hy Hover).
      cbv zeta. do 6 eexists. reflexivity.
Qed.

Lemma workflow_phase_and_cuts_witness :
  exists st,
    initialize_workflow submitted_db 2025 = inr st /\
    variance st = (total_requests st - global_limit st)%Q /\
    total_requests st = year_total submitted_db 2025 /\
    (length (departments_completed st) + length (departments_pending st) =
     length (departments submitted_db))%nat /\
    (current_phase st = "cutting" ->
     (global_limit st < total_requests st)%Q /\
     match List.find (fun g => year g =? 2025) (global_limits submitted_db) with
     | Some g =>
         exists gap target achievable can_meet suggestions protected,
           generate_cut_suggestions submitted_db None 2025 =
             inr (Cuts gap target achievable can_meet suggestions protected)
     | None =>
         generate_cut_suggestions submitted_db None 2025 = inr (Within_limit None)
     end) /\
    (current_phase st = "finalization" \/ current_phase st = "approval" ->
     (total_requests st <= global_limit st)%Q /\
     result_suggestions (generate_cut_suggestions submitted_db None 2025) = []) /\
    (current_phase st = "finalization" -> departments_pending st = []).
Proof.
  apply (workflow_phase_and_cuts submitted_db None 2025).
  reflexivity.
Defined.

End OrchestratorAgentFacts.
